(** * The browser-session client of docs/referencia, embedded in Rocq

    The development follows the Python sources file by file:
    - [instagram_web_api.py]: the class [InstagramWebAPI] (cookie jar, CSRF
      refresh, the retrying request helpers, session restore, the read and
      write operations and the upload pipeline);
    - [followers_manager.py] and [bot.py]: the two gated actions
      [follow_user] and [like_post].

    Python objects are mutable and every call can raise.  A method of the
    client is therefore a function of the state monad [M] below: it takes the
    [World] (the client object together with the process around it), returns
    either a value or a raised exception, and the world as the call left it.
    Whatever lies outside the program (the answers of [requests], the clock,
    the random generator, the external tools) is an oracle of the
    environment [Env]. *)

From Stdlib Require Import ZArith QArith Qround Qabs String Ascii List Bool Lia.
From Stdlib Require Import Decimal DecimalString DecimalZ.
From Stdlib.Strings Require Import Byte.
From stdpp Require Import gmap strings list.

Set Warnings "-register-all".
Open Scope Z_scope.

(** ** Python values *)

(** What [r.json()] and [json.load] return, and what the dynamically typed
    fields of the client hold.  [JNull] is Python's [None]. *)
Inductive json : Type :=
| JNull
| JBool (b : bool)
| JNum (n : Z)
| JFloat (q : Q)
| JStr (s : string)
| JList (l : list json)
| JObj (kv : list (string * json)).

(** Truth value of an object, as [if x:] and [not x] see it. *)
Definition truthy (v : json) : bool :=
  match v with
  | JNull => false
  | JBool b => b
  | JNum n => negb (n =? 0)
  | JFloat q => negb (Qeq_bool q 0)
  | JStr s => negb (String.eqb s "")
  | JList l => match l with [] => false | _ => true end
  | JObj kv => match kv with [] => false | _ => true end
  end.

(** [v == "s"] for a string literal. *)
Definition str_eq (v : json) (s : string) : bool :=
  match v with
  | JStr t => String.eqb t s
  | _ => false
  end.

Fixpoint dict_get (kv : list (string * json)) (k : string) : option json :=
  match kv with
  | [] => None
  | (k', v) :: rest => if String.eqb k' k then Some v else dict_get rest k
  end.

Definition dict_has (kv : list (string * json)) (k : string) : bool :=
  match dict_get kv k with Some _ => true | None => false end.

(** ** Exceptions and results *)

Inductive exn : Type :=
| HTTPError (status : Z)
| RequestError
| JSONDecodeError
| AttributeError
| TypeError
| ValueError
| OSError
| CookieConflictError.

Inductive res (A : Type) : Type :=
| Ok (a : A)
| Raise (e : exn).
Arguments Ok {A} a.
Arguments Raise {A} e.

(** [d.get(k, default)]: only a dict has the method. *)
Definition py_get (v : json) (k : string) (default : json) : res json :=
  match v with
  | JObj kv => Ok (match dict_get kv k with Some x => x | None => default end)
  | _ => Raise AttributeError
  end.


(** [str(n)] of an integer. *)
Definition string_of_Z (z : Z) : string := NilEmpty.string_of_int (Z.to_int z).

(** [int(x)] of a float truncates towards zero. *)
Definition int_of_float (q : Q) : Z := Z.quot (Qnum q) (Z.pos (Qden q)).

(** ** Floats

    A Python float is a binary64 number; the model holds its value as a
    rational.  An arithmetic operation on floats returns the binary64
    number nearest to the exact result, a tie going to the even
    significand.  Overflow and the subnormal numbers are left out: the
    values at hand are clock readings and durations. *)

(** The integer part of the binary logarithm of a positive rational. *)
Definition ilog2 (x : Q) : Z :=
  let e := Z.log2 (Qnum x) - Z.log2 (Z.pos (Qden x)) in
  if Qle_bool (Qpower 2 e) x then e else e - 1.

(** The integer nearest to [y], a tie going to the even one. *)
Definition round_half_even (y : Q) : Z :=
  let f := Qfloor y in
  match Qcompare (y - inject_Z f) (1 # 2) with
  | Lt => f
  | Gt => f + 1
  | Eq => if Z.even f then f else f + 1
  end.

(** The binary64 number nearest to [x]: 53 significant bits. *)
Definition round64 (x : Q) : Q :=
  if Qeq_bool x 0 then 0
  else
    let a := Qabs x in
    let ulp := Qpower 2 (ilog2 a - 52) in
    let n := inject_Z (round_half_even (a / ulp)) in
    if Qle_bool 0 x then n * ulp else - (n * ulp).

(** [x * y] on floats *)
Definition float_mul (x y : Q) : Q := round64 (x * y).

(** ** Cookies, requests and responses *)

Record Cookie : Type := mkCookie {
  c_name : string;
  c_value : json;
  c_domain : string;
  c_path : string
}.

Inductive method : Type := GET | POST.

(** One call of [self.session.get] or [self.session.post].  The url keeps
    the values an f-string interpolates apart from its text when they are
    not known to be integers; a field holds the Python value the code
    passes, and where the code wraps a value that is not an integer in
    [str(...)] or [json.dumps(...)] the value is kept as it is before the
    conversion.  [rq_csrf] is the session header [X-CSRFToken] at the
    moment the request leaves. *)
Record Request : Type := mkRequest {
  rq_method : method;
  rq_url : string;
  rq_url_args : list json;
  rq_params : list (string * json);
  rq_headers : list (string * json);
  rq_body : option (list byte);
  rq_timeout : Z;
  rq_csrf : option json
}.

(** A response: status, decoded body ([None] when [r.json()] raises) and
    what its Set-Cookie headers do to the jar. *)
Record Response : Type := mkResponse {
  status_code : Z;
  body : option json;
  jar_after : list Cookie -> list Cookie
}.

Inductive NetOutcome : Type :=
| NetFail
| NetResp (r : Response).

Inductive LogLevel : Type := Debug | Info | Warning | Error.

(** What a run leaves behind, in order. *)
Inductive Event : Type :=
| EvRequest (rq : Request)
| EvSleep (secs : Z)
| EvDelay (lo hi : Q)
| EvLog (lvl : LogLevel) (msg : string)
| EvSaveData.

(** ** The environment *)

Inductive ProbeOutcome : Type :=
| ProbeToolMissing
| ProbeFailed
| Probed (duration : Q) (width height : Z).

Inductive ToolOutcome : Type :=
| ToolRaised
| ToolWrote (out : option (list byte)).

Record Env : Type := mkEnv {
  net : nat -> Request -> NetOutcome;
  clock : nat -> Q;
  randint : nat -> Z;
  uuid4 : nat -> string;
  strftime : Q -> string;
  isoformat : Q -> string;
  ffprobe : string -> ProbeOutcome;
  ffmpeg : string -> ToolOutcome;
  json_load : list byte -> option json;
  int_of_str : string -> option Z
}.

(** ** The world: the client object and the process state *)

Record World : Type := mkWorld {
  cookies : list Cookie;
  headers : gmap string json;
  user_id : json;
  username : json;
  csrf_token : json;
  is_authenticated : bool;
  files : gmap string (list byte);
  n_calls : nat;
  n_ticks : nat;
  n_draws : nat;
  trace : list Event
}.

Definition with_cookies (j : list Cookie) (w : World) : World :=
  mkWorld j (headers w) (user_id w) (username w) (csrf_token w)
    (is_authenticated w) (files w) (n_calls w) (n_ticks w) (n_draws w) (trace w).

Definition with_headers (h : gmap string json) (w : World) : World :=
  mkWorld (cookies w) h (user_id w) (username w) (csrf_token w)
    (is_authenticated w) (files w) (n_calls w) (n_ticks w) (n_draws w) (trace w).

Definition with_user_id (v : json) (w : World) : World :=
  mkWorld (cookies w) (headers w) v (username w) (csrf_token w)
    (is_authenticated w) (files w) (n_calls w) (n_ticks w) (n_draws w) (trace w).

Definition with_username (v : json) (w : World) : World :=
  mkWorld (cookies w) (headers w) (user_id w) v (csrf_token w)
    (is_authenticated w) (files w) (n_calls w) (n_ticks w) (n_draws w) (trace w).

Definition with_csrf_token (v : json) (w : World) : World :=
  mkWorld (cookies w) (headers w) (user_id w) (username w) v
    (is_authenticated w) (files w) (n_calls w) (n_ticks w) (n_draws w) (trace w).

Definition with_is_authenticated (b : bool) (w : World) : World :=
  mkWorld (cookies w) (headers w) (user_id w) (username w) (csrf_token w)
    b (files w) (n_calls w) (n_ticks w) (n_draws w) (trace w).

Definition with_files (f : gmap string (list byte)) (w : World) : World :=
  mkWorld (cookies w) (headers w) (user_id w) (username w) (csrf_token w)
    (is_authenticated w) f (n_calls w) (n_ticks w) (n_draws w) (trace w).

Definition with_n_calls (n : nat) (w : World) : World :=
  mkWorld (cookies w) (headers w) (user_id w) (username w) (csrf_token w)
    (is_authenticated w) (files w) n (n_ticks w) (n_draws w) (trace w).

Definition with_n_ticks (n : nat) (w : World) : World :=
  mkWorld (cookies w) (headers w) (user_id w) (username w) (csrf_token w)
    (is_authenticated w) (files w) (n_calls w) n (n_draws w) (trace w).

Definition with_n_draws (n : nat) (w : World) : World :=
  mkWorld (cookies w) (headers w) (user_id w) (username w) (csrf_token w)
    (is_authenticated w) (files w) (n_calls w) (n_ticks w) n (trace w).

Definition with_trace (t : list Event) (w : World) : World :=
  mkWorld (cookies w) (headers w) (user_id w) (username w) (csrf_token w)
    (is_authenticated w) (files w) (n_calls w) (n_ticks w) (n_draws w) t.

(** ** The monad of methods

    A method of an object with state [S]: it returns a value or raises, and
    leaves the state as it mutated it.  [M] is the monad of the client's
    own methods. *)

Definition ST (S A : Type) : Type := S -> res A * S.

Definition M : Type -> Type := ST World.

Definition ret {S A} (a : A) : ST S A := fun s => (Ok a, s).

Definition raise {S A} (e : exn) : ST S A := fun s => (Raise e, s).

Definition bind {S A B} (m : ST S A) (k : A -> ST S B) : ST S B :=
  fun s =>
    match m s with
    | (Ok a, s') => k a s'
    | (Raise e, s') => (Raise e, s')
    end.

(** [try: m  except Exception as e: h e].  The handler starts from the
    state the failed body left: what was mutated stays mutated. *)
Definition try_except {S A} (m : ST S A) (h : exn -> ST S A) : ST S A :=
  fun s =>
    match m s with
    | (Ok a, s') => (Ok a, s')
    | (Raise e, s') => h e s'
    end.

Definition lift {S A} (r : res A) : ST S A := fun s => (r, s).

Definition get_state {S} : ST S S := fun s => (Ok s, s).

Definition modify {S} (f : S -> S) : ST S unit := fun s => (Ok tt, f s).

Definition get_world : M World := get_state.

Declare Scope client_scope.
Delimit Scope client_scope with client.
Notation "'let*' x ':=' c 'in' k" := (bind c (fun x => k))
  (at level 10, x pattern, c at level 100, k at level 200) : client_scope.
Notation "c ';;;' k" := (bind c (fun _ => k))
  (at level 100, k at level 200, right associativity) : client_scope.
Open Scope client_scope.

Fixpoint for_each {S A} (f : A -> ST S unit) (l : list A) : ST S unit :=
  match l with
  | [] => ret tt
  | x :: rest => f x ;;; for_each f rest
  end.

Definition emit (e : Event) : M unit :=
  modify (fun w => with_trace (trace w ++ [e]) w).

Definition log (lvl : LogLevel) (msg : string) : M unit := emit (EvLog lvl msg).

(** [time.sleep(secs)] *)
Definition sleep (secs : Z) : M unit := emit (EvSleep secs).

(** [_delay]: [time.sleep(random.uniform(min_s, max_s))] *)
Definition _delay (min_s max_s : Q) : M unit := emit (EvDelay min_s max_s).

(** Observations on a trace. *)
Definition requests_of (t : list Event) : list Request :=
  omap (fun e => match e with EvRequest rq => Some rq | _ => None end) t.

Definition sleeps_of (t : list Event) : list Z :=
  omap (fun e => match e with EvSleep s => Some s | _ => None end) t.


(** ** The cookie jar

    The jar is the list of its cookies in the order a loop over
    [self.session.cookies] visits them; a cookie is identified by domain,
    path and name. *)

(** [jar.clear(domain, path, name)]; the cookie is there when the code
    calls it, a jar holding one cookie for a key. *)
Definition jar_clear (domain path name : string) (jar : list Cookie) : list Cookie :=
  List.filter
    (fun c => negb (String.eqb (c_domain c) domain && String.eqb (c_path c) path
                    && String.eqb (c_name c) name))
    jar.

(** [RequestsCookieJar._find_no_duplicates(name)]: the value of the one
    cookie of that name; two of them are a conflict. *)
Fixpoint find_no_duplicates (name : string) (jar : list Cookie) (toReturn : json)
  : res json :=
  match jar with
  | [] => Ok toReturn
  | c :: rest =>
      if String.eqb (c_name c) name then
        match toReturn with
        | JNull => find_no_duplicates name rest (c_value c)
        | _ => Raise CookieConflictError
        end
      else find_no_duplicates name rest toReturn
  end.

(** [jar.get(name, default)]: a missing cookie, or one whose value is
    falsy, gives the default. *)
Definition jar_get (name : string) (default : json) (jar : list Cookie) : res json :=
  match find_no_duplicates name jar JNull with
  | Ok v => if truthy v then Ok v else Ok default
  | Raise e => Raise e
  end.

Definition is_csrf (c : Cookie) : bool := String.eqb (c_name c) "csrftoken".

(** ** CSRF and request helpers (instagram_web_api.py, lines 132-213) *)

Definition BASE_URL : string := "https://www.instagram.com".
Definition API_URL : string := "https://www.instagram.com/api/v1".
Definition GRAPHQL_URL : string := "https://www.instagram.com/graphql/query".
Definition IG_APP_ID : string := "936619743392459".

Definition clear_all (cs : list Cookie) (jar : list Cookie) : list Cookie :=
  fold_left (fun j c => jar_clear (c_domain c) (c_path c) (c_name c) j) cs jar.

Definition _refresh_csrf : M unit :=
  let* w := get_world in
  let csrf_cookies := List.filter is_csrf (cookies w) in
  (if 1 <? Z.of_nat (length csrf_cookies)
   then modify (fun w => with_cookies (clear_all (removelast csrf_cookies) (cookies w)) w)
   else ret tt) ;;;
  let* w := get_world in
  let* csrf := lift (jar_get "csrftoken" (JStr "") (cookies w)) in
  if truthy csrf
  then modify (fun w => with_headers (<["X-CSRFToken" := csrf]> (headers w))
                          (with_csrf_token csrf w))
  else ret tt.

Definition _set_ajax_headers : M unit :=
  _refresh_csrf ;;;
  modify (fun w => with_headers
    (<["Content-Type" := JStr "application/x-www-form-urlencoded"]>
     (<["X-IG-App-ID" := JStr IG_APP_ID]>
      (<["X-Instagram-AJAX" := JStr "1"]>
       (<["X-Requested-With" := JStr "XMLHttpRequest"]> (headers w))))) w).

(** ** Strings and paths *)

Definition lower_ascii (c : ascii) : ascii :=
  let n := nat_of_ascii c in
  if ((65 <=? n) && (n <=? 90))%nat then ascii_of_nat (n + 32) else c.

(** [s.lower()], on the ASCII letters *)
Definition lower (s : string) : string :=
  string_of_list_ascii (map lower_ascii (list_ascii_of_string s)).

Fixpoint after_first (c : ascii) (l : list ascii) : option (list ascii) :=
  match l with
  | [] => None
  | x :: r => if Ascii.eqb x c then Some r else after_first c r
  end.

Fixpoint take_until (c : ascii) (l : list ascii) : list ascii :=
  match l with
  | [] => []
  | x :: r => if Ascii.eqb x c then [] else x :: take_until c r
  end.

(** [s.rsplit(".", 1)[0]] *)
Definition rsplit_dot_head (s : string) : string :=
  match after_first "."%char (rev (list_ascii_of_string s)) with
  | Some r => string_of_list_ascii (rev r)
  | None => s
  end.

(** [os.path.splitext(p)[1]]: the extension starts at the last dot of the
    last component, unless only dots come before it there. *)
Definition splitext_ext (p : string) : string :=
  let rb := take_until "/"%char (rev (list_ascii_of_string p)) in
  match after_first "."%char rb with
  | Some before =>
      if existsb (fun c => negb (Ascii.eqb c "."%char)) before
      then string_of_list_ascii ("."%char :: rev (take_until "."%char rb))
      else ""
  | None => ""
  end.

(** The character class [[A-Za-z0-9_-]] *)
Definition shortcode_char (c : ascii) : bool :=
  let n := nat_of_ascii c in
  (((65 <=? n) && (n <=? 90)) || ((97 <=? n) && (n <=? 122))
   || ((48 <=? n) && (n <=? 57)) || (n =? 95) || (n =? 45))%nat.

Fixpoint take_shortcode (s : string) : string :=
  match s with
  | EmptyString => EmptyString
  | String c r => if shortcode_char c then String c (take_shortcode r) else EmptyString
  end.

Fixpoint strip_prefix (p s : string) : option string :=
  match p, s with
  | EmptyString, _ => Some s
  | String a p', String b s' => if Ascii.eqb a b then strip_prefix p' s' else None
  | String _ _, EmptyString => None
  end.

(** [re.search(p + "([A-Za-z0-9_-]+)", s).group(1)] for a literal [p]: the
    leftmost place where [p] is followed by a character of the class, and
    the longest run of the class from there. *)
Fixpoint re_search (p s : string) : option string :=
  let here :=
    match strip_prefix p s with
    | Some rest =>
        let g := take_shortcode rest in
        if String.eqb g "" then None else Some g
    | None => None
    end in
  match here with
  | Some g => Some g
  | None =>
      match s with
      | EmptyString => None
      | String _ s' => re_search p s'
      end
  end.

(** ** The Rate Governor *)

(** Modelled from the spec: the class [RateLimiter] of utils.py, which is
    not among the sources.  The spec gives it one counter for each kind of
    action over the current hour; an action is permitted while the counter
    is below the ceiling, the counter moves on every recorded action and
    starts again when the hour rolls over. *)
Definition rl_count (rl : gmap string Z) (kind : string) : Z :=
  default 0 (rl !! kind).

Definition can_perform (rl : gmap string Z) (kind : string) (max_per_hour : Z) : bool :=
  rl_count rl kind <? max_per_hour.

Definition record_action (rl : gmap string Z) (kind : string) : gmap string Z :=
  <[kind := rl_count rl kind + 1]> rl.

Definition roll_over (rl : gmap string Z) : gmap string Z := ∅.

(** The limits of config.py; their values come from the process
    environment. *)
Record Config : Type := mkConfig {
  MAX_LIKES_PER_HOUR : Z;
  MAX_FOLLOWS_PER_HOUR : Z;
  MAX_UNFOLLOWS_PER_HOUR : Z;
  MAX_COMMENTS_PER_HOUR : Z
}.

(** The request as it leaves: with the session's CSRF header. *)
Definition stamped (h : gmap string json) (rq : Request) : Request :=
  mkRequest (rq_method rq) (rq_url rq) (rq_url_args rq) (rq_params rq)
    (rq_headers rq) (rq_body rq) (rq_timeout rq) (h !! "X-CSRFToken").

Section Client.

Context (E : Env).

(** [self.session.get(...)] and [self.session.post(...)]: the request is
    recorded with the CSRF header of the moment, the environment answers
    the n-th request, and the response's cookies go into the jar.  The
    values of the jar are taken to be strings, as the platform sets them;
    the one place where another value can enter the jar is [load_session],
    whose probe is modelled with the failure this causes. *)
Definition send (rq : Request) : M Response :=
  fun w =>
    let rq' := stamped (headers w) rq in
    let w1 := with_n_calls (S (n_calls w)) (with_trace (trace w ++ [EvRequest rq']) w) in
    match net E (n_calls w) rq' with
    | NetFail => (Raise RequestError, w1)
    | NetResp r => (Ok r, with_cookies (jar_after r (cookies w1)) w1)
    end.

Definition session_get (url : string) (args : list json) (params : list (string * json))
    (hdrs : list (string * json)) (timeout : Z) : M Response :=
  send (mkRequest GET url args params hdrs None timeout None).

Definition session_post (url : string) (args : list json) (data : list (string * json))
    (hdrs : list (string * json)) (raw : option (list byte)) (timeout : Z) : M Response :=
  send (mkRequest POST url args data hdrs raw timeout None).

(** [r.raise_for_status()] *)
Definition raise_for_status (r : Response) : M unit :=
  if (400 <=? status_code r) && (status_code r <? 600)
  then raise (HTTPError (status_code r))
  else ret tt.

(** [r.json()] *)
Definition resp_json (r : Response) : M json :=
  match body r with
  | Some j => ret j
  | None => raise JSONDecodeError
  end.

(** How the log names the call. *)
Definition api_label (rq : Request) : string :=
  match rq_method rq with
  | GET => "API GET"
  | POST => "API POST"
  end.

(** The loop [for attempt in range(retries + 1)], the same text in
    [_api_get] and [_api_post] but for the verb; [n] counts the iterations
    that are left.  Leaving the loop without [return] gives [None]. *)
Fixpoint api_attempts (n : nat) (attempt retries : Z) (rq : Request) : M json :=
  match n with
  | O => ret JNull
  | S n' =>
      try_except
        (_delay (1 # 2) (3 # 2) ;;;
         let* r := send rq in
         raise_for_status r ;;;
         resp_json r)
        (fun e =>
           match e with
           | HTTPError code =>
               log Error (api_label rq ++ ": HTTP") ;;;
               if (code =? 429) && (attempt <? retries)
               then
                 let wait := 30 * (attempt + 1) in
                 log Warning "Rate limit (429). Aguardando..." ;;;
                 sleep wait ;;;
                 api_attempts n' (attempt + 1) retries rq
               else raise e
           | _ =>
               log Error (api_label rq ++ ": exception") ;;;
               raise e
           end)
  end.

Definition _api_get (endpoint : string) (args : list json) (params : list (string * json))
    (timeout retries : Z) : M json :=
  let url := (API_URL ++ "/" ++ endpoint)%string in
  _refresh_csrf ;;;
  api_attempts (Z.to_nat (retries + 1)) 0 retries
    (mkRequest GET url args params [] None timeout None).

Definition _api_post (endpoint : string) (args : list json) (data : list (string * json))
    (timeout retries : Z) : M json :=
  let url := (API_URL ++ "/" ++ endpoint)%string in
  _refresh_csrf ;;;
  api_attempts (Z.to_nat (retries + 1)) 0 retries
    (mkRequest POST url args data [] None timeout None).

Definition _web_post (path : string) (args : list json) (data : list (string * json))
    (timeout : Z) : M json :=
  let url := (BASE_URL ++ path)%string in
  _refresh_csrf ;;;
  try_except
    (let* r := session_post url args data [] None timeout in
     raise_for_status r ;;;
     resp_json r)
    (fun e =>
       match e with
       | HTTPError _ => log Error "WEB POST: HTTP status" ;;; raise e
       | _ => log Error "WEB POST: exception" ;;; raise e
       end).

(** ** Persistent session (lines 375-421) *)

Definition dquote : ascii := ascii_of_nat 34.
Definition backslash : ascii := ascii_of_nat 92.

(** [s.replace(bq, "")] for the two characters [bq], a backslash and a
    double quote: every occurrence goes, from left to right. *)
Fixpoint drop_escaped_quotes (l : list ascii) : list ascii :=
  match l with
  | [] => []
  | a :: t =>
      match t with
      | b :: r =>
          if Ascii.eqb a backslash && Ascii.eqb b dquote
          then drop_escaped_quotes r
          else a :: drop_escaped_quotes t
      | [] => [a]
      end
  end.

(** What [set_cookie] of the jar of requests keeps of a value: a string
    that starts and ends with a double quote loses its escaped quotes; any
    other value, a string or not, is kept as it is. *)
Definition kept_value (v : json) : json :=
  match v with
  | JStr s =>
      let l := list_ascii_of_string s in
      if match l with a :: _ => Ascii.eqb a dquote | [] => false end
         && match rev l with a :: _ => Ascii.eqb a dquote | [] => false end
      then JStr (string_of_list_ascii (drop_escaped_quotes l))
      else v
  | _ => v
  end.

(** [self.session.cookies.set(name, value)]: [None] removes the cookies of
    that name, any other value makes a cookie with no domain and path [/],
    which takes the place of the cookie with the same key or, in the jar
    that [load_session] has emptied, goes last. *)
Definition jar_set (name : string) (value : json) (jar : list Cookie) : list Cookie :=
  match value with
  | JNull => List.filter (fun c => negb (String.eqb (c_name c) name)) jar
  | _ =>
      let same c := String.eqb (c_domain c) "" && String.eqb (c_path c) "/"
                    && String.eqb (c_name c) name in
      let new := mkCookie name (kept_value value) "" "/" in
      if existsb same jar
      then map (fun c => if same c then new else c) jar
      else jar ++ [new]
  end.

(** The [Cookie] header of a request is built from the values of the
    cookies that go with it, and http.cookiejar matches a regular
    expression against each of them: a value that is neither a string nor
    [None] raises [TypeError] before anything is sent.  The values the
    platform sets are strings; a snapshot can hold any JSON value. *)
Definition header_value (c : Cookie) : bool :=
  match c_value c with
  | JStr _ | JNull => true
  | _ => false
  end.

(** [d.items()] *)
Definition py_items (v : json) : res (list (string * json)) :=
  match v with
  | JObj kv => Ok kv
  | _ => Raise AttributeError
  end.

(** The probe.  The cookies of a snapshot have no domain and go with
    every request, so the probe of a jar restored with a value that is not
    a string raises while its header is built. *)
Definition _verify_session : M bool :=
  try_except
    (let* w := get_world in
     (if forallb header_value (cookies w) then ret tt else raise TypeError) ;;;
     let* r := session_get (API_URL ++ "/accounts/edit/web_form_data/") [] [] [] 10 in
     if status_code r =? 200 then
       let* data := resp_json r in
       let* status := lift (py_get data "status" JNull) in
       if str_eq status "ok" then ret true
       else
         match data with
         | JObj kv => ret (dict_has kv "form_data")
         | _ => raise TypeError
         end
     else ret false)
    (fun _ => ret false).

Definition load_session (filepath : string) : M bool :=
  let* w := get_world in
  match files w !! filepath with
  | None => ret false
  | Some content =>
      try_except
        (let* data := match json_load E content with
                      | Some d => ret d
                      | None => raise JSONDecodeError
                      end in
         modify (with_cookies []) ;;;
         let* saved := lift (py_get data "cookies" (JObj [])) in
         let* items := lift (py_items saved) in
         for_each (fun nv => modify (fun w => with_cookies
                     (jar_set (fst nv) (snd nv) (cookies w)) w)) items ;;;
         let* uid := lift (py_get data "user_id" JNull) in
         modify (with_user_id uid) ;;;
         let* uname := lift (py_get data "username" JNull) in
         modify (with_username uname) ;;;
         let* tok := lift (py_get data "csrf_token" (JStr "")) in
         modify (with_csrf_token tok) ;;;
         _set_ajax_headers ;;;
         let* valid := _verify_session in
         if valid then
           modify (with_is_authenticated true) ;;;
           log Info "Sessao restaurada" ;;;
           ret true
         else
           log Warning "Sessao expirada" ;;;
           ret false)
        (fun _ => log Warning "Erro ao carregar sessao" ;;; ret false)
  end.

(** ** Profiles (lines 427-464) *)

Record WebUser : Type := mkWebUser {
  pk : json;
  u_username : json;
  full_name : json;
  biography : json;
  follower_count : json;
  following_count : json;
  media_count : json;
  u_is_private : json;
  u_is_verified : json;
  profile_pic_url : json;
  external_url : json
}.

(** [int(v)]; the reading of a string is the environment's. *)
Definition to_int (v : json) : res Z :=
  match v with
  | JNum n => Ok n
  | JBool b => Ok (if b then 1 else 0)
  | JFloat q => Ok (int_of_float q)
  | JStr s => match int_of_str E s with Some z => Ok z | None => Raise ValueError end
  | _ => Raise TypeError
  end.

Definition get_user_info (uname : string) : M (option WebUser) :=
  try_except
    (let* data := _api_get "users/web_profile_info/" [] [("username", JStr uname)] 15 2 in
     let* d := lift (py_get data "data" (JObj [])) in
     let* user_data := lift (py_get d "user" (JObj [])) in
     if negb (truthy user_data) then ret None
     else
       let* id := lift (py_get user_data "id" (JNum 0)) in
       let* id_int := lift (to_int id) in
       let* un := lift (py_get user_data "username" (JStr "")) in
       let* fn := lift (py_get user_data "full_name" (JStr "")) in
       let* bio := lift (py_get user_data "biography" (JStr "")) in
       let* e1 := lift (py_get user_data "edge_followed_by" (JObj [])) in
       let* c1 := lift (py_get e1 "count" (JNum 0)) in
       let* e2 := lift (py_get user_data "edge_follow" (JObj [])) in
       let* c2 := lift (py_get e2 "count" (JNum 0)) in
       let* e3 := lift (py_get user_data "edge_owner_to_timeline_media" (JObj [])) in
       let* c3 := lift (py_get e3 "count" (JNum 0)) in
       let* priv := lift (py_get user_data "is_private" (JBool false)) in
       let* verif := lift (py_get user_data "is_verified" (JBool false)) in
       let* pic := lift (py_get user_data "profile_pic_url_hd" (JStr "")) in
       let* ext := lift (py_get user_data "external_url" (JStr "")) in
       ret (Some (mkWebUser (JNum id_int) un fn bio c1 c2 c3 priv verif pic ext)))
    (fun _ => log Error "Erro ao buscar perfil" ;;; ret None).

(** ** Followers and following (lines 470-546)

    [user_followers] and [user_following] are the same loop; they differ in
    the endpoint, in one request parameter and in the fields they copy. *)

Definition follower_of (u : json) : res WebUser :=
  match u with
  | JObj kv =>
      let field k d := match dict_get kv k with Some x => x | None => d end in
      Ok (mkWebUser (field "pk" (JNum 0)) (field "username" (JStr ""))
            (field "full_name" (JStr "")) (JStr "") (JNum 0) (JNum 0) (JNum 0)
            (field "is_private" (JBool false)) (field "is_verified" (JBool false))
            (field "profile_pic_url" (JStr "")) (JStr ""))
  | _ => Raise AttributeError
  end.


(** [for u in users: acc.append(WebUser(...))]: the list is extended in
    place, so what was appended before an exception stays. *)
Fixpoint append_users (mk : json -> res WebUser) (users : list json) (acc : list WebUser)
  : res unit * list WebUser :=
  match users with
  | [] => (Ok tt, acc)
  | u :: rest =>
      match mk u with
      | Ok x => append_users mk rest (acc ++ [x])
      | Raise e => (Raise e, acc)
      end
  end.

(** [l[:amount]] *)
Definition py_take {A} (amount : Z) (l : list A) : list A :=
  if amount <? 0
  then firstn (length l - Z.to_nat (- amount)) l
  else firstn (Z.to_nat amount) l.






(** ** Follow, like, comment (lines 552-622) *)

Definition user_follow (uid : json) : M bool :=
  try_except
    (let* data := _web_post "/web/friendships/{}/follow/" [uid] [] 15 in
     let* result := lift (py_get data "result" (JStr "")) in
     let* status := lift (py_get data "status" (JStr "")) in
     if str_eq result "following" || str_eq status "ok" then
       log Info "Seguiu user_id" ;;; ret true
     else
       log Warning "Follow retornou" ;;; ret false)
    (fun _ => log Error "Erro ao seguir" ;;; ret false).

Definition user_unfollow (uid : json) : M bool :=
  try_except
    (let* data := _web_post "/web/friendships/{}/unfollow/" [uid] [] 15 in
     let* status := lift (py_get data "status" (JStr "")) in
     if str_eq status "ok" then
       log Info "Unfollowed user_id" ;;; ret true
     else ret false)
    (fun _ => log Error "Erro ao unfollow" ;;; ret false).

Definition media_like (media_id : json) : M bool :=
  try_except
    (let* data := _web_post "/web/likes/{}/like/" [media_id] [] 15 in
     let* status := lift (py_get data "status" JNull) in
     if str_eq status "ok" then
       log Info "Curtiu media_id" ;;; ret true
     else ret false)
    (fun _ => log Error "Erro ao curtir" ;;; ret false).

Definition media_unlike (media_id : json) : M bool :=
  try_except
    (let* data := _web_post "/web/likes/{}/unlike/" [media_id] [] 15 in
     let* status := lift (py_get data "status" JNull) in
     ret (str_eq status "ok"))
    (fun _ => log Error "Erro ao descurtir" ;;; ret false).

Definition media_comment (media_id : json) (text : string) : M bool :=
  try_except
    (let* data := _web_post "/web/comments/{}/add/" [media_id]
                    [("comment_text", JStr text)] 15 in
     let* status := lift (py_get data "status" JNull) in
     if str_eq status "ok" then
       log Info "Comentou em media_id" ;;; ret true
     else ret false)
    (fun _ => log Error "Erro ao comentar" ;;; ret false).

(** ** Clock and randomness *)

(** [time.time()] and [datetime.now()]: the next reading of the clock. *)
Definition time_time : M Q :=
  fun w => (Ok (clock E (n_ticks w)), with_n_ticks (S (n_ticks w)) w).

(** [random.randint(1000000000, 9999999999)] *)
Definition random_randint : M Z :=
  fun w => (Ok (randint E (n_draws w)), with_n_draws (S (n_draws w)) w).

(** [str(uuid.uuid4())] *)
Definition uuid_uuid4 : M string :=
  fun w => (Ok (uuid4 E (n_draws w)), with_n_draws (S (n_draws w)) w).

(** [str(int(time.time() * 1000))]: the product is the one of floats. *)
Definition upload_id_of (t : Q) : string :=
  string_of_Z (int_of_float (float_mul t (inject_Z 1000))).

Definition new_upload_id : M string :=
  let* t := time_time in
  ret (upload_id_of t).

(** ** Upload helpers (lines 833-1007) *)

Record VideoInfo : Type := mkVideoInfo {
  duration : Q;
  duration_ms : Z;
  width : Z;
  height : Z
}.

Definition default_video_info : VideoInfo := mkVideoInfo 15 15000 1080 1920.

(** What ffprobe prints, and how the function reads it, is one outcome of
    the environment; both [except] branches give the defaults. *)
Definition _get_video_info (video_path : string) : M VideoInfo :=
  match ffprobe E video_path with
  | Probed d wd ht =>
      ret (mkVideoInfo d (int_of_float (float_mul d (inject_Z 1000))) wd ht)
  | ProbeToolMissing =>
      log Warning "ffprobe nao disponivel. Usando valores padrao." ;;;
      ret default_video_info
  | ProbeFailed =>
      log Warning "Erro ao extrair info do video" ;;;
      ret default_video_info
  end.

Definition _extract_thumbnail (video_path : string) : M (option string) :=
  let output_path := (rsplit_dot_head video_path ++ "_thumb.jpg")%string in
  match ffmpeg E video_path with
  | ToolRaised =>
      log Warning "Erro ao extrair thumbnail" ;;;
      ret None
  | ToolWrote out =>
      match out with
      | Some data => modify (fun w => with_files (<[output_path := data]> (files w)) w)
      | None => ret tt
      end ;;;
      let* w := get_world in
      match files w !! output_path with
      | Some _ => ret (Some output_path)
      | None => ret None
      end
  end.

(** [open(path, "rb").read()] *)
Definition read_file (path : string) : M (list byte) :=
  let* w := get_world in
  match files w !! path with
  | Some data => ret data
  | None => raise OSError
  end.

Definition retry_context : json :=
  JObj [("num_step_auto_retry", JNum 0); ("num_reupload", JNum 0);
        ("num_step_manual_retry", JNum 0)].

Definition _upload_photo_binary (image_path upload_id : string) (is_story : bool)
  : M bool :=
  let* image_data := read_file image_path in
  let ext := lower (splitext_ext image_path) in
  let content_type :=
    if String.eqb ext ".jpg" then "image/jpeg"
    else if String.eqb ext ".jpeg" then "image/jpeg"
    else if String.eqb ext ".png" then "image/png"
    else "image/jpeg" in
  let* rnd := random_randint in
  let upload_name := (upload_id ++ "_0_" ++ string_of_Z rnd)%string in
  let rupload_params :=
    JObj [("retry_context", retry_context);
          ("media_type", JStr "1");
          ("xsharing_user_ids", JStr "[]");
          ("upload_id", JStr upload_id);
          ("image_compression",
           JObj [("lib_name", JStr "moz"); ("lib_version", JStr "3.1.m");
                 ("quality", JStr "80")])] in
  let hdrs :=
    [("X-Entity-Name", JStr upload_name);
     ("X-Entity-Length", JStr (string_of_Z (Z.of_nat (length image_data))));
     ("X-Entity-Type", JStr content_type);
     ("X-Instagram-Rupload-Params", rupload_params);
     ("Offset", JStr "0");
     ("Content-Type", JStr "application/octet-stream")] in
  let* r := session_post ("https://www.instagram.com/rupload_igphoto/" ++ upload_name)
              [] [] hdrs (Some image_data) 60 in
  if status_code r =? 200 then
    let* j := resp_json r in
    let* _ := lift (py_get j "status" (JStr "ok")) in
    log Info "Foto uploaded" ;;;
    ret true
  else
    log Error "Upload foto falhou: HTTP" ;;;
    ret false.

Definition _upload_video_binary (video_path upload_id : string) (video_info : VideoInfo)
    (is_clips is_story : bool) : M bool :=
  let* video_data := read_file video_path in
  let* waterfall_id := uuid_uuid4 in
  let* rnd := random_randint in
  let upload_name := (upload_id ++ "_0_" ++ string_of_Z rnd)%string in
  let* w := get_world in
  let rupload_params :=
    JObj ([("retry_context", retry_context);
           ("media_type", JStr "2");
           ("xsharing_user_ids",
            if truthy (user_id w) then JList [user_id w] else JStr "[]");
           ("upload_id", JStr upload_id);
           ("upload_media_duration_ms", JStr (string_of_Z (duration_ms video_info)));
           ("upload_media_width", JStr (string_of_Z (width video_info)));
           ("upload_media_height", JStr (string_of_Z (height video_info)))]
          ++ (if is_clips then [("is_clips_video", JStr "1")] else [])
          ++ (if is_story
              then [("extract_cover_frame", JStr "1"); ("content_tags", JStr "has-overlay");
                    ("for_album", JStr "1")]
              else [])) in
  let entity_length := JStr (string_of_Z (Z.of_nat (length video_data))) in
  let init_headers :=
    [("Accept-Encoding", JStr "gzip, deflate");
     ("X-Instagram-Rupload-Params", rupload_params);
     ("X_FB_VIDEO_WATERFALL_ID", JStr waterfall_id);
     ("X-Entity-Type", JStr "video/mp4");
     ("X-Entity-Name", JStr upload_name);
     ("X-Entity-Length", entity_length)] in
  let* r_init := session_get ("https://www.instagram.com/rupload_igvideo/" ++ upload_name)
                   [] [] init_headers 30 in
  log Debug "Video init" ;;;
  let upload_headers :=
    [("Offset", JStr "0");
     ("X-Entity-Name", JStr upload_name);
     ("X-Entity-Length", entity_length);
     ("Content-Type", JStr "application/octet-stream");
     ("X-Entity-Type", JStr "video/mp4");
     ("X-Instagram-Rupload-Params", rupload_params);
     ("X_FB_VIDEO_WATERFALL_ID", JStr waterfall_id)] in
  let* r := session_post ("https://www.instagram.com/rupload_igvideo/" ++ upload_name)
              [] [] upload_headers (Some video_data) 120 in
  if status_code r =? 200 then
    let* j := resp_json r in
    let* _ := lift (py_get j "status" (JStr "ok")) in
    log Info "Video uploaded" ;;;
    ret true
  else
    log Error "Upload video falhou: HTTP" ;;;
    ret false.

(** [os.path.exists(path)] *)
Definition path_exists (path : string) : M bool :=
  let* w := get_world in
  ret (match files w !! path with Some _ => true | None => false end).

(** Truth value of an optional path argument: [None] and [""] are falsy. *)
Definition given (p : option string) : bool :=
  match p with
  | Some s => negb (String.eqb s "")
  | None => false
  end.

(** Step 2 of the three video pipelines, the same text in each: take the
    thumbnail given or extract one, upload it under the same upload id
    (the result of the upload is not looked at), remove it when it was
    extracted here. *)
Definition thumbnail_step (video_path : string) (thumbnail_path : option string)
    (upload_id : string) (is_story : bool) : M unit :=
  let* thumb :=
    match thumbnail_path with
    | Some p => if given thumbnail_path then ret (Some p) else _extract_thumbnail video_path
    | None => _extract_thumbnail video_path
    end in
  match thumb with
  | Some t =>
      if String.eqb t "" then ret tt
      else
        _upload_photo_binary t upload_id is_story ;;;
        let* there := path_exists t in
        if negb (given thumbnail_path) && there
        then modify (fun w => with_files (delete t (files w)) w)
        else ret tt
  | None => ret tt
  end.

(** The end of the feed and clip pipelines: read the answer of the
    configure call. *)
Definition configured_with_media (r : Response) (ok_msg fail_msg http_msg : string)
  : M (option json) :=
  if status_code r =? 200 then
    let* result := resp_json r in
    let* status := lift (py_get result "status" JNull) in
    if str_eq status "ok" then
      let* media := lift (py_get result "media" (JObj [])) in
      let* code := lift (py_get media "code" (JStr "")) in
      log Info ok_msg ;;;
      ret (Some result)
    else
      log Error fail_msg ;;;
      ret None
  else
    log Error http_msg ;;;
    ret None.

(** The same for the two story pipelines, which do not read the media. *)
Definition configured_story (r : Response) (ok_msg fail_msg http_msg : string)
  : M (option json) :=
  if status_code r =? 200 then
    let* result := resp_json r in
    let* status := lift (py_get result "status" JNull) in
    if str_eq status "ok" then
      log Info ok_msg ;;;
      ret (Some result)
    else
      log Error fail_msg ;;;
      ret None
  else
    log Error http_msg ;;;
    ret None.

(** ** Photo to the feed (lines 1013-1057) *)

Definition photo_upload (image_path caption : string) : M (option json) :=
  let* there := path_exists image_path in
  if negb there then
    log Error "Arquivo nao encontrado" ;;;
    ret None
  else
    try_except
      (let* upload_id := new_upload_id in
       let* sent := _upload_photo_binary image_path upload_id false in
       if negb sent then ret None
       else
         _delay 2 4 ;;;
         _refresh_csrf ;;;
         let configure_data :=
           [("upload_id", JStr upload_id);
            ("caption", JStr caption);
            ("usertags", JStr "");
            ("custom_accessibility_caption", JStr "");
            ("retry_timeout", JStr "")] in
         let* r := session_post (API_URL ++ "/media/configure/") [] configure_data
                     [] None 15 in
         configured_with_media r "Foto publicada no feed" "Configure feed falhou"
           "Configure feed HTTP")
      (fun _ => log Error "Erro no upload de foto" ;;; ret None).

(** ** Video to the feed (lines 1063-1138) *)

Definition video_upload (video_path caption : string) (thumbnail_path : option string)
  : M (option json) :=
  let* there := path_exists video_path in
  if negb there then
    log Error "Arquivo nao encontrado" ;;;
    ret None
  else
    try_except
      (let* upload_id := new_upload_id in
       let* video_info := _get_video_info video_path in
       log Info "Enviando video" ;;;
       let* sent := _upload_video_binary video_path upload_id video_info false false in
       if negb sent then ret None
       else
         thumbnail_step video_path thumbnail_path upload_id false ;;;
         _delay 3 6 ;;;
         _refresh_csrf ;;;
         let* now := time_time in
         let now_str := strftime E now in
         let configure_data :=
           [("upload_id", JStr upload_id);
            ("caption", JStr caption);
            ("source_type", JStr "4");
            ("filter_type", JStr "0");
            ("poster_frame_index", JStr "0");
            ("length", JFloat (duration video_info));
            ("audio_muted", JStr "false");
            ("usertags", JObj [("in", JList [])]);
            ("date_time_original", JStr now_str);
            ("timezone_offset", JStr "-10800");
            ("clips", JList [JObj [("length", JFloat (duration video_info));
                                   ("source_type", JStr "4")]]);
            ("extra", JObj [("source_width", JNum (width video_info));
                            ("source_height", JNum (height video_info))])] in
         let* r := session_post (API_URL ++ "/media/configure/?video=1") [] configure_data
                     [] None 30 in
         configured_with_media r "Video publicado no feed" "Configure video feed falhou"
           "Configure video feed HTTP")
      (fun _ => log Error "Erro no upload de video" ;;; ret None).

(** ** Photo to the stories (lines 1144-1198) *)

Definition photo_upload_to_story (image_path caption : string) : M (option json) :=
  let* there := path_exists image_path in
  if negb there then
    log Error "Arquivo nao encontrado" ;;;
    ret None
  else
    try_except
      (let* upload_id := new_upload_id in
       let* sent := _upload_photo_binary image_path upload_id true in
       if negb sent then ret None
       else
         _delay 2 4 ;;;
         _refresh_csrf ;;;
         let* t := time_time in
         let now := int_of_float t in
         let* camera_session_id := uuid_uuid4 in
         let* composition_id := uuid_uuid4 in
         let* w := get_world in
         let* uuid := uuid_uuid4 in
         let configure_data :=
           [("upload_id", JStr upload_id);
            ("source_type", JStr "4");
            ("configure_mode", JStr "1");
            ("timezone_offset", JStr "-10800");
            ("client_shared_at", JStr (string_of_Z (now - 5)));
            ("client_timestamp", JStr (string_of_Z now));
            ("capture_type", JStr "normal");
            ("creation_surface", JStr "camera");
            ("camera_entry_point", JStr "25");
            ("original_media_type", JStr "photo");
            ("has_original_sound", JStr "1");
            ("camera_session_id", JStr camera_session_id);
            ("composition_id", JStr composition_id);
            ("filter_type", JStr "0");
            ("_uid", if truthy (user_id w) then user_id w else JStr "");
            ("_uuid", JStr uuid)] in
         let* r := session_post (API_URL ++ "/media/configure_to_story/") [] configure_data
                     [] None 15 in
         configured_story r "Foto publicada nos Stories" "Configure story falhou"
           "Configure story HTTP")
      (fun _ => log Error "Erro no upload de story (foto)" ;;; ret None).

(** ** Video to the stories (lines 1204-1289) *)

Definition video_upload_to_story (video_path caption : string)
    (thumbnail_path : option string) : M (option json) :=
  let* there := path_exists video_path in
  if negb there then
    log Error "Arquivo nao encontrado" ;;;
    ret None
  else
    try_except
      (let* upload_id := new_upload_id in
       let* video_info := _get_video_info video_path in
       (if Qlt_le_dec 60 (duration video_info)
        then log Warning "Stories permitem no maximo 60 segundos de video"
        else ret tt) ;;;
       log Info "Enviando story video" ;;;
       let* sent := _upload_video_binary video_path upload_id video_info false true in
       if negb sent then ret None
       else
         thumbnail_step video_path thumbnail_path upload_id true ;;;
         _delay 3 6 ;;;
         _refresh_csrf ;;;
         let* t := time_time in
         let now := int_of_float t in
         let* camera_session_id := uuid_uuid4 in
         let* composition_id := uuid_uuid4 in
         let* w := get_world in
         let* uuid := uuid_uuid4 in
         let configure_data :=
           [("upload_id", JStr upload_id);
            ("source_type", JStr "3");
            ("configure_mode", JStr "1");
            ("timezone_offset", JStr "-10800");
            ("client_shared_at", JStr (string_of_Z (now - 7)));
            ("client_timestamp", JStr (string_of_Z now));
            ("capture_type", JStr "normal");
            ("creation_surface", JStr "camera");
            ("camera_entry_point", JStr "25");
            ("original_media_type", JStr "video");
            ("has_original_sound", JStr "1");
            ("camera_session_id", JStr camera_session_id);
            ("composition_id", JStr composition_id);
            ("filter_type", JStr "0");
            ("video_result", JStr "");
            ("camera_position", JStr "back");
            ("length", JFloat (duration video_info));
            ("clips", JList [JObj [("length", JFloat (duration video_info));
                                   ("source_type", JStr "3");
                                   ("camera_position", JStr "back")]]);
            ("extra", JObj [("source_width", JNum (width video_info));
                            ("source_height", JNum (height video_info))]);
            ("_uid", if truthy (user_id w) then user_id w else JStr "");
            ("_uuid", JStr uuid)] in
         let* r := session_post (API_URL ++ "/media/configure_to_story/?video=1") []
                     configure_data [] None 30 in
         configured_story r "Video publicado nos Stories" "Configure story video falhou"
           "Configure story video HTTP")
      (fun _ => log Error "Erro no upload de story (video)" ;;; ret None).

(** ** Reels (lines 1295-1374) *)

Definition clip_upload (video_path caption : string) (thumbnail_path : option string)
  : M (option json) :=
  let* there := path_exists video_path in
  if negb there then
    log Error "Arquivo nao encontrado" ;;;
    ret None
  else
    try_except
      (let* upload_id := new_upload_id in
       let* video_info := _get_video_info video_path in
       (if Qlt_le_dec 90 (duration video_info)
        then log Warning "Reels permitem no maximo 90 segundos"
        else ret tt) ;;;
       log Info "Enviando Reel" ;;;
       let* sent := _upload_video_binary video_path upload_id video_info true false in
       if negb sent then ret None
       else
         thumbnail_step video_path thumbnail_path upload_id false ;;;
         _delay 3 6 ;;;
         _refresh_csrf ;;;
         let* now := time_time in
         let now_str := strftime E now in
         let configure_data :=
           [("upload_id", JStr upload_id);
            ("caption", JStr caption);
            ("source_type", JStr "4");
            ("filter_type", JStr "0");
            ("timezone_offset", JStr "-10800");
            ("date_time_original", JStr now_str);
            ("clips_share_preview_to_feed", JStr "1");
            ("length", JFloat (duration video_info));
            ("audio_muted", JStr "false");
            ("poster_frame_index", JStr "70");
            ("usertags", JObj [("in", JList [])]);
            ("clips", JList [JObj [("length", JFloat (duration video_info));
                                   ("source_type", JStr "4")]]);
            ("extra", JObj [("source_width", JNum (width video_info));
                            ("source_height", JNum (height video_info))])] in
         let* r := session_post (API_URL ++ "/media/configure_to_clips/?video=1") []
                     configure_data [] None 30 in
         configured_with_media r "Reel publicado" "Configure Reel falhou"
           "Configure Reel HTTP")
      (fun _ => log Error "Erro no upload de Reel" ;;; ret None).

(** ** Resolving a post url (lines 1380-1415) *)

Definition _shortcode_to_media_id (shortcode : string) : M json :=
  try_except
    (let* r := session_get (GRAPHQL_URL ++ "/") []
                 [("query_hash", JStr "b3055c01b4b222b8a47dc12b090e4e64");
                  ("variables", JObj [("shortcode", JStr shortcode)])] [] 15 in
     if status_code r =? 200 then
       let* data := resp_json r in
       let* d := lift (py_get data "data" (JObj [])) in
       let* media := lift (py_get d "shortcode_media" (JObj [])) in
       lift (py_get media "id" JNull)
     else ret JNull)
    (fun _ => log Error "Erro ao converter shortcode" ;;; ret JNull).

Definition media_pk_from_url (url : string) : M json :=
  match re_search "instagram.com/p/" url with
  | Some shortcode => _shortcode_to_media_id shortcode
  | None =>
      match re_search "instagram.com/reel/" url with
      | Some shortcode => _shortcode_to_media_id shortcode
      | None =>
          match re_search "instagram.com/tv/" url with
          | Some shortcode => _shortcode_to_media_id shortcode
          | None => ret JNull
          end
      end
  end.

(** ** The gated actions (followers_manager.py 157-199, bot.py 121-140)

    [InstagramBot] and its [FollowersManager] hold the same client and the
    same Rate Governor; [Bot] is that shared state. *)

Record UserProfile : Type := mkUserProfile {
  up_username : string;
  up_user_id : json;
  followers_count : json;
  up_following_count : json;
  up_is_private : json;
  up_is_verified : json;
  followed_at : json;
  unfollowed_at : json;
  follows_back : json;
  source : string
}.

Record Bot : Type := mkBot {
  cl : World;
  rate_limiter : gmap string Z;
  followed_users : gmap string UserProfile;
  daily_stats : gmap string Z
}.

Definition with_cl (w : World) (b : Bot) : Bot :=
  mkBot w (rate_limiter b) (followed_users b) (daily_stats b).

Definition with_rate_limiter (rl : gmap string Z) (b : Bot) : Bot :=
  mkBot (cl b) rl (followed_users b) (daily_stats b).

Definition with_followed_users (fu : gmap string UserProfile) (b : Bot) : Bot :=
  mkBot (cl b) (rate_limiter b) fu (daily_stats b).

Definition with_daily_stats (ds : gmap string Z) (b : Bot) : Bot :=
  mkBot (cl b) (rate_limiter b) (followed_users b) ds.

(** A call of a method of [self.cl]. *)
Definition on_client {A} (m : M A) : ST Bot A :=
  fun b => let (r, w) := m (cl b) in (r, with_cl w b).

(** Modelled from the spec: [HumanBehavior.random_delay] of utils.py, which
    is not among the sources: the randomized delay after an action. *)
Definition random_delay (lo hi : Q) : M unit := emit (EvDelay lo hi).

(** [save_data] writes the history through [save_json] of utils.py and
    keeps every exception to itself; the run only records that it
    happened. *)
Definition save_data : ST Bot unit := on_client (emit EvSaveData).

(** [x or 0] *)
Definition or_zero (v : json) : json := if truthy v then v else JNum 0.

(** [str(pk)] of the [pk] of a profile that [get_user_info] returned: it
    was made with [int(...)], so it is an integer and its [str] is the
    decimal writing.  A string is its own [str]; no other value occurs. *)
Definition str_of_pk (v : json) : json :=
  match v with
  | JNum n => JStr (string_of_Z n)
  | _ => v
  end.

Context (cfg : Config).

(** The decorator [safe_execute] of utils.py is not among the sources; the
    body below returns on every path without raising. *)
Definition follow_user (uname src : string) : ST Bot bool :=
  let* b := get_state in
  if negb (can_perform (rate_limiter b) "follows" (MAX_FOLLOWS_PER_HOUR cfg)) then ret false
  else
    if match followed_users b !! uname with
       | Some p => negb (truthy (unfollowed_at p))
       | None => false
       end
    then
      on_client (log Info "Ja segue") ;;;
      ret false
    else
      try_except
        (let* user_info := on_client (get_user_info uname) in
         match user_info with
         | None =>
             on_client (log Info "Usuario nao encontrado") ;;;
             ret false
         | Some info =>
             let uid := pk info in
             let* followed := on_client (user_follow uid) in
             if negb followed then
               on_client (log Warning "Falha ao seguir") ;;;
               ret false
             else
               let* t := on_client time_time in
               modify (fun b => with_followed_users
                 (<[uname := mkUserProfile uname (str_of_pk uid)
                               (or_zero (follower_count info))
                               (or_zero (following_count info))
                               (u_is_private info) (u_is_verified info)
                               (JStr (isoformat E t)) JNull JNull src]>
                    (followed_users b)) b) ;;;
               modify (fun b => with_rate_limiter
                 (record_action (rate_limiter b) "follows") b) ;;;
               modify (fun b => with_daily_stats
                 (<["follows_today" := default 0 (daily_stats b !! "follows_today") + 1]>
                    (daily_stats b)) b) ;;;
               save_data ;;;
               on_client (log Info "Seguiu") ;;;
               on_client (random_delay 8 15) ;;;
               ret true
         end)
        (fun _ => on_client (log Error "Erro ao seguir") ;;; ret false).

Definition like_post (post_url : string) : ST Bot bool :=
  let* b := get_state in
  if negb (can_perform (rate_limiter b) "likes" (MAX_LIKES_PER_HOUR cfg)) then ret false
  else
    try_except
      (let* media_id := on_client (media_pk_from_url post_url) in
       if negb (truthy media_id) then
         on_client (log Warning "Nao foi possivel extrair media ID") ;;;
         ret false
       else
         on_client (media_like media_id) ;;;
         modify (fun b => with_rate_limiter (record_action (rate_limiter b) "likes") b) ;;;
         on_client (log Info "Post curtido") ;;;
         on_client (random_delay 2 5) ;;;
         ret true)
      (fun _ => on_client (log Warning "Erro ao curtir post") ;;; ret false).

(** ** Login and logout (instagram_web_api.py, lines 219-355) *)

(** What the login takes from outside besides the network: the code the
    person at the console types, [input(...).strip()], when [n] requests
    have been sent, and the text [str(v)] of a value that is neither a
    string, an integer, a boolean nor [None]. *)
Record Console : Type := mkConsole {
  input : nat -> string;
  repr : json -> string
}.

Context (C : Console).

(** [str(v)] *)
Definition py_str (v : json) : string :=
  match v with
  | JStr s => s
  | JNum n => string_of_Z n
  | JNull => "None"
  | JBool true => "True"
  | JBool false => "False"
  | _ => repr C v
  end.

(** The end of the checkpoint branch when the code was not accepted. *)
Definition checkpoint_unresolved : M bool :=
  log Error "Nao foi possivel resolver o checkpoint automaticamente." ;;;
  ret false.

Definition _handle_checkpoint (checkpoint_url : json) : M bool :=
  let* full_url :=
    match checkpoint_url with
    | JStr s =>
        match strip_prefix "/" s with
        | Some _ => ret (BASE_URL ++ s)%string
        | None => ret s
        end
    | _ => raise AttributeError
    end in
  log Info "Acessando checkpoint" ;;;
  try_except
    (session_get full_url [] [] [] 15 ;;;
     _refresh_csrf ;;;
     let* r := session_post full_url [] [("choice", JStr "1")] [] None 15 in
     if status_code r =? 200 then
       log Info "Codigo de verificacao enviado por email!" ;;;
       let* w := get_world in
       let code := input C (n_calls w) in
       let* r2 := session_post full_url [] [("security_code", JStr code)] [] None 15 in
       let* solved :=
         if status_code r2 =? 200 then
           let* w := get_world in
           let* sid := lift (jar_get "sessionid" JNull (cookies w)) in
           ret (truthy sid)
         else ret false in
       if solved then
         let* w := get_world in
         let* uid := lift (jar_get "ds_user_id" (JStr "") (cookies w)) in
         modify (with_user_id uid) ;;;
         modify (with_is_authenticated true) ;;;
         _refresh_csrf ;;;
         log Info "Checkpoint resolvido com sucesso!" ;;;
         ret true
       else checkpoint_unresolved
     else checkpoint_unresolved)
    (fun _ => log Error "Erro ao resolver checkpoint" ;;; ret false).

(** What the three branches of a login do once the platform has said
    [authenticated]. *)
Definition authenticated_as (uname : string) (data : json) : M unit :=
  let* uid := lift (py_get data "userId" (JStr "")) in
  modify (with_user_id (JStr (py_str uid))) ;;;
  modify (with_username (JStr uname)) ;;;
  modify (with_is_authenticated true) ;;;
  _refresh_csrf.

Definition _handle_2fa (uname password : string) (login_data : json) : M bool :=
  let* w := get_world in
  let code := input C (n_calls w) in
  let* info := lift (py_get login_data "two_factor_info" (JObj [])) in
  let* identifier := lift (py_get info "two_factor_identifier" (JStr "")) in
  try_except
    (let* r := session_post (BASE_URL ++ "/accounts/login/ajax/two_factor/") []
                 [("username", JStr uname);
                  ("verificationCode", JStr code);
                  ("identifier", identifier);
                  ("queryParams", JStr "{}")] [] None 15 in
     let* data := resp_json r in
     let* auth := lift (py_get data "authenticated" JNull) in
     if truthy auth then
       authenticated_as uname data ;;;
       ret true
     else ret false)
    (fun _ => log Error "Erro no 2FA" ;;; ret false).

(** [f"#PWD_INSTAGRAM_BROWSER:0:{int(time.time())}:{password}"] *)
Definition enc_password (t : Q) (password : string) : string :=
  ("#PWD_INSTAGRAM_BROWSER:0:" ++ string_of_Z (int_of_float t) ++ ":" ++ password)%string.

Definition LOGIN_URL : string := (BASE_URL ++ "/accounts/login/ajax/")%string.

Definition login (uname password : string) : M bool :=
  log Info "Iniciando login web" ;;;
  let* reached :=
    try_except
      (session_get (BASE_URL ++ "/") [] [] [] 15 ;;;
       _refresh_csrf ;;;
       ret true)
      (fun _ => log Error "Erro ao acessar instagram.com" ;;; ret false) in
  if negb reached then ret false
  else
    let* w := get_world in
    if negb (truthy (csrf_token w)) then
      log Error "Nao foi possivel obter token CSRF" ;;;
      ret false
    else
      _set_ajax_headers ;;;
      _delay 1 3 ;;;
      try_except
        (let* t := time_time in
         let* r := session_post LOGIN_URL []
                     [("username", JStr uname);
                      ("enc_password", JStr (enc_password t password));
                      ("queryParams", JStr "{}");
                      ("optIntoOneTap", JStr "false")] [] None 15 in
         let* data := resp_json r in
         log Debug "Login response" ;;;
         let* auth := lift (py_get data "authenticated" JNull) in
         if truthy auth then
           authenticated_as uname data ;;;
           log Info "Login OK!" ;;;
           ret true
         else
           let* cp_url := lift (py_get data "checkpoint_url" JNull) in
           if truthy cp_url then
             log Warning "Checkpoint requerido" ;;;
             _handle_checkpoint cp_url
           else
             let* two_factor := lift (py_get data "two_factor_required" JNull) in
             if truthy two_factor then
               log Warning "2FA requerido" ;;;
               _handle_2fa uname password data
             else
               let* msg := lift (py_get data "message" (JStr "Login falhou")) in
               log Error "Login falhou" ;;;
               ret false)
        (fun _ => log Error "Erro no login" ;;; ret false).

Definition logout : M unit :=
  try_except
    (_web_post "/accounts/logout/ajax/" [] [("one_tap_app_login", JStr "0")] 15 ;;;
     ret tt)
    (fun _ => ret tt) ;;;
  modify (with_is_authenticated false) ;;;
  modify (with_user_id JNull) ;;;
  modify (with_username JNull).

(** ** More of the profiles (lines 427-464) *)

(** [get_user_info] as it runs when the name it is given need not be a
    string: [get_account_info] passes [self.username], which a restored
    snapshot fills with whatever the file holds. *)
Definition get_user_info_of (uname : json) : M (option WebUser) :=
  try_except
    (let* data := _api_get "users/web_profile_info/" [] [("username", uname)] 15 2 in
     let* d := lift (py_get data "data" (JObj [])) in
     let* user_data := lift (py_get d "user" (JObj [])) in
     if negb (truthy user_data) then ret None
     else
       let* id := lift (py_get user_data "id" (JNum 0)) in
       let* id_int := lift (to_int id) in
       let* un := lift (py_get user_data "username" (JStr "")) in
       let* fn := lift (py_get user_data "full_name" (JStr "")) in
       let* bio := lift (py_get user_data "biography" (JStr "")) in
       let* e1 := lift (py_get user_data "edge_followed_by" (JObj [])) in
       let* c1 := lift (py_get e1 "count" (JNum 0)) in
       let* e2 := lift (py_get user_data "edge_follow" (JObj [])) in
       let* c2 := lift (py_get e2 "count" (JNum 0)) in
       let* e3 := lift (py_get user_data "edge_owner_to_timeline_media" (JObj [])) in
       let* c3 := lift (py_get e3 "count" (JNum 0)) in
       let* priv := lift (py_get user_data "is_private" (JBool false)) in
       let* verif := lift (py_get user_data "is_verified" (JBool false)) in
       let* pic := lift (py_get user_data "profile_pic_url_hd" (JStr "")) in
       let* ext := lift (py_get user_data "external_url" (JStr "")) in
       ret (Some (mkWebUser (JNum id_int) un fn bio c1 c2 c3 priv verif pic ext)))
    (fun _ => log Error "Erro ao buscar perfil" ;;; ret None).

(** [user.pk if user else None]; an instance of [WebUser] is truthy. *)
Definition get_user_id_from_username (uname : string) : M json :=
  let* user := get_user_info uname in
  ret (match user with Some u => pk u | None => JNull end).

Definition get_account_info : M (option WebUser) :=
  let* w := get_world in
  if truthy (username w) then get_user_info_of (username w)
  else ret None.

(** ** Slices and searches (lines 680-717, 1417-1437) *)

(** [v[:amount]] and the elements a loop over it visits.  A string is
    sliced into its characters; a dict, a number and [None] cannot be
    sliced. *)
Definition py_slice (amount : Z) (v : json) : res (list json) :=
  match v with
  | JList l => Ok (py_take amount l)
  | JStr s =>
      Ok (map (fun c => JStr (String c EmptyString))
            (py_take amount (list_ascii_of_string s)))
  | _ => Raise TypeError
  end.

(** The [WebUser] that [search_users] makes of one item of the answer. *)
Definition found_user (item : json) : res WebUser :=
  match py_get item "user" (JObj []) with
  | Ok u => follower_of u
  | Raise e => Raise e
  end.

(** The [try] of the two functions below covers the request and the loop
    that fills the list; the list is extended in place, so the [except]
    that only logs leaves what was appended. *)
Definition collected (msg : string) (mk : json -> res WebUser)
    (fetch : M (option (list json))) : M (list WebUser) :=
  fun w =>
    match fetch w with
    | (Raise _, w1) => (Ok [], snd (log Error msg w1))
    | (Ok None, w1) => (Ok [], w1)
    | (Ok (Some items), w1) =>
        match append_users mk items [] with
        | (Ok _, acc) => (Ok acc, w1)
        | (Raise _, acc) => (Ok acc, snd (log Error msg w1))
        end
    end.

Definition search_users (query : string) (amount : Z) : M (list WebUser) :=
  collected "Erro na busca" found_user
    (let* data := _api_get "web/search/topsearch/" []
                    [("query", JStr query); ("context", JStr "blended")] 15 2 in
     let* users := lift (py_get data "users" (JList [])) in
     let* items := lift (py_slice amount users) in
     ret (Some items)).

(** The [WebUser] that [media_likers] makes of one edge. *)
Definition liker_of (edge : json) : res WebUser :=
  match py_get edge "node" (JObj []) with
  | Raise e => Raise e
  | Ok node =>
      match py_get node "id" (JNum 0) with
      | Raise e => Raise e
      | Ok id =>
          match to_int id with
          | Raise e => Raise e
          | Ok id_int =>
              match node with
              | JObj kv =>
                  let field k d := match dict_get kv k with Some x => x | None => d end in
                  Ok (mkWebUser (JNum id_int) (field "username" (JStr ""))
                        (field "full_name" (JStr "")) (JStr "") (JNum 0) (JNum 0) (JNum 0)
                        (field "is_private" (JBool false)) (field "is_verified" (JBool false))
                        (field "profile_pic_url" (JStr "")) (JStr ""))
              | _ => Raise AttributeError
              end
          end
      end
  end.

Definition media_likers (media_shortcode : string) (amount : Z) : M (list WebUser) :=
  collected "Erro ao buscar likers" liker_of
    (let* r := session_get (GRAPHQL_URL ++ "/") []
                 [("query_hash", JStr "d5d763b1e2acf209d62d22d184f1b5f2");
                  ("variables", JObj [("shortcode", JStr media_shortcode);
                                      ("first", JNum (Z.min amount 50))])] [] 15 in
     if status_code r =? 200 then
       let* data := resp_json r in
       let* d := lift (py_get data "data" (JObj [])) in
       let* media := lift (py_get d "shortcode_media" (JObj [])) in
       let* liked_by := lift (py_get media "edge_liked_by" (JObj [])) in
       let* edges := lift (py_get liked_by "edges" (JList [])) in
       let* items := lift (py_slice amount edges) in
       ret (Some items)
     else ret None).

(** ** Stories (lines 791-827) *)

Definition user_stories (uid : json) : M json :=
  try_except
    (let* data := _api_get "feed/user/{}/story/" [uid] [] 15 2 in
     let* reel := lift (py_get data "reel" (JObj [])) in
     if truthy reel then lift (py_get reel "items" (JList []))
     else ret (JList []))
    (fun _ => log Error "Erro ao buscar stories" ;;; ret (JList [])).

(** [sid.split("_")[1]] for a [sid] that holds an underscore *)
Definition second_part (sid : string) : string :=
  match after_first "_"%char (list_ascii_of_string sid) with
  | Some r => string_of_list_ascii (take_until "_"%char r)
  | None => sid
  end.

(** [d[k] = v] on a dict *)
Fixpoint dict_set (kv : list (string * json)) (k : string) (v : json)
  : list (string * json) :=
  match kv with
  | [] => [(k, v)]
  | (k', v') :: rest =>
      if String.eqb k' k then (k', v) :: rest else (k', v') :: dict_set rest k v
  end.

(** The loop of [story_seen] over [enumerate(story_ids)], which fills the
    dict [reels]. *)
Fixpoint seen_reels (timestamp : string) (i : nat) (story_ids : list string)
    (reel_ids : option (list string)) (reels : list (string * json))
  : list (string * json) :=
  match story_ids with
  | [] => reels
  | sid :: rest =>
      let reel_id :=
        match reel_ids with
        | Some (_ :: _ as ids) =>
            match nth_error ids i with
            | Some r => r
            | None => if existsb (Ascii.eqb "_"%char) (list_ascii_of_string sid)
                      then second_part sid else sid
            end
        | _ => if existsb (Ascii.eqb "_"%char) (list_ascii_of_string sid)
               then second_part sid else sid
        end in
      seen_reels timestamp (S i) rest reel_ids
        (dict_set reels (sid ++ "_" ++ reel_id)
           (JList [JStr (timestamp ++ "_" ++ timestamp)]))
  end.

(** The dict [reels] is filled and not read again: the call names the
    first story only. *)
Definition story_seen (story_ids : list string) (reel_ids : option (list string))
  : M bool :=
  try_except
    (let* t := time_time in
     let timestamp := string_of_Z (int_of_float t) in
     let reels := seen_reels timestamp 0 story_ids reel_ids [] in
     let* data := _api_post "stories/reel/seen/" []
                    [("reelMediaId", JStr (match story_ids with s :: _ => s | [] => "" end));
                     ("reelMediaOwnerId", JStr "");
                     ("reelId", JStr "");
                     ("reelMediaTakenAt", JStr timestamp);
                     ("viewSeenAt", JStr timestamp)] 15 2 in
     let* status := lift (py_get data "status" JNull) in
     ret (str_eq status "ok"))
    (fun _ => log Error "Erro ao marcar stories vistos" ;;; ret false).

End Client.

(** * What the properties speak about *)

(** The events of a run that started in [w]. *)
Definition events_since (w w' : World) : list Event :=
  drop (length (trace w)) (trace w').

(** The requests of a run from [w] to [w']. *)
Definition requests_between (w w' : World) : list Request :=
  requests_of (events_since w w').

(** What a run shows from outside: its result, the waits between attempts
    and the number of requests that left. *)
Definition observed {A} (w : World) (run : res A * World) : res A * list Z * nat :=
  (fst run,
   sleeps_of (events_since w (snd run)),
   length (requests_of (events_since w (snd run)))).

(** The environment answers the [i]-th request with HTTP 429. *)
Definition rate_limited (E : Env) (i : nat) : Prop :=
  forall rq, exists r, net E i rq = NetResp r /\ status_code r = 429.

(** The environment answers the [i]-th request with a status that is not an
    error and with the JSON body [j]. *)
Definition answers_json (E : Env) (i : nat) (j : json) : Prop :=
  forall rq, exists r,
    net E i rq = NetResp r /\
    (400 <=? status_code r) && (status_code r <? 600) = false /\
    body r = Some j.

(** The waits [30 * 1, ..., 30 * k]. *)
Definition backoff_waits (k : nat) : list Z :=
  map (fun i => 30 * Z.of_nat i) (seq 1 k).

Definition cookie_key (c : Cookie) : string * string * string :=
  (c_domain c, c_path c, c_name c).

(** A jar holds one cookie for a domain, a path and a name. *)
Definition jar_wf (jar : list Cookie) : Prop := NoDup (map cookie_key jar).

Definition same_key (a b : Cookie) : bool :=
  String.eqb (c_domain a) (c_domain b) && String.eqb (c_path a) (c_path b)
  && String.eqb (c_name a) (c_name b).

(** The CSRF cookie a refresh keeps: the last one of the jar. *)
Definition kept_csrf (jar : list Cookie) : option Cookie :=
  last (List.filter is_csrf jar).

(** The jar a refresh leaves. *)
Definition refreshed_jar (jar : list Cookie) : list Cookie :=
  let cs := List.filter is_csrf jar in
  if 1 <? Z.of_nat (length cs) then clear_all (removelast cs) jar else jar.

(** The request carries the CSRF header [h] holds. *)
Definition carries (h : gmap string json) (rq : Request) : Prop :=
  rq_csrf rq = h !! "X-CSRFToken".

(** C6 as the claim has it: after a refresh the header holds the value of
    the CSRF cookie that is left. *)
Definition header_carries_csrf_cookie (w : World) : Prop :=
  forall c, List.filter is_csrf (cookies w) = [c] ->
    headers w !! "X-CSRFToken" = Some (c_value c).

(** Two CSRF cookies, the later one with an empty value, and the header of
    an earlier refresh. *)
Definition stale : World :=
  mkWorld [mkCookie "csrftoken" (JStr "abc") ".instagram.com" "/";
           mkCookie "csrftoken" (JStr "") "www.instagram.com" "/"]
    (<["X-CSRFToken" := JStr "old"]> ∅) JNull JNull (JStr "old") false ∅ 0 0 0 [].

(** Two CSRF cookies with values. *)
Definition rotated : World :=
  mkWorld [mkCookie "csrftoken" (JStr "abc") ".instagram.com" "/";
           mkCookie "sessionid" (JStr "s") ".instagram.com" "/";
           mkCookie "csrftoken" (JStr "xyz") "www.instagram.com" "/"]
    (<["X-CSRFToken" := JStr "old"]> ∅) JNull JNull (JStr "old") false ∅ 0 0 0 [].

(** The answer to the probe of [_verify_session] is a success: HTTP 200
    and a JSON object with [status] equal to [ok] or with a [form_data]
    member. *)
Definition probe_ok (answer : NetOutcome) : bool :=
  match answer with
  | NetFail => false
  | NetResp r =>
      (status_code r =? 200)
      && match body r with
         | Some (JObj kv) =>
             str_eq (default JNull (dict_get kv "status")) "ok" || dict_has kv "form_data"
         | _ => false
         end
  end.

(** The probe of [_verify_session], as it leaves a client whose headers
    are [h]. *)
Definition probe_request (h : gmap string json) : Request :=
  stamped h (mkRequest GET (API_URL ++ "/accounts/edit/web_form_data/") [] [] [] None 10
               None).

Definition is_probe (rq : Request) : Prop :=
  rq_method rq = GET /\ rq_url rq = (API_URL ++ "/accounts/edit/web_form_data/")%string.

(** The success tokens of the write operations: [status == "ok"], and for
    a follow also [result == "following"]. *)
Definition ok_token (j : json) : bool :=
  match j with
  | JObj kv => match dict_get kv "status" with Some v => str_eq v "ok" | None => false end
  | _ => false
  end.

Definition follow_token (j : json) : bool :=
  match j with
  | JObj kv =>
      match dict_get kv "result" with Some v => str_eq v "following" | None => false end
      || match dict_get kv "status" with Some v => str_eq v "ok" | None => false end
  | _ => false
  end.

(** What a call makes of the answer to its request: the decoded body, or
    the exception of the transport, of the status or of the decoder. *)
Definition web_result (answer : NetOutcome) : res json :=
  match answer with
  | NetFail => Raise RequestError
  | NetResp r =>
      if (400 <=? status_code r) && (status_code r <? 600)
      then Raise (HTTPError (status_code r))
      else match body r with
           | Some j => Ok j
           | None => Raise JSONDecodeError
           end
  end.

(** The answer has a status that is not an error and a JSON body that
    holds the token. *)
Definition reply_holds (token : json -> bool) (answer : NetOutcome) : bool :=
  match web_result answer with
  | Ok j => token j
  | Raise _ => false
  end.

(** The request of a write operation, as it leaves a client whose headers
    are [h]. *)
Definition write_request (h : gmap string json) (path : string) (args : list json)
    (data : list (string * json)) : Request :=
  stamped h (mkRequest POST (BASE_URL ++ path) args data [] None 15 None).

(** Started in [w], the write operation [op] does not raise; it sends one
    request, the POST to [path] under the header the CSRF refresh leaves,
    and it returns [True] exactly when the answer to that request has a
    status that is not an error and a body that holds the token. *)
Definition writes_by_token (E : Env) (w : World) (op : M bool) (path : string)
    (args : list json) (data : list (string * json)) (token : json -> bool) : Prop :=
  let rq := write_request (headers (snd (_refresh_csrf w))) path args data in
  exists w',
    op w = (Ok (reply_holds token (net E (n_calls w) rq)), w')
    /\ requests_between w w' = [rq].

(** The run returned [None] without raising and without a request. *)
Definition returned_none_offline (w : World) (run : res (option json) * World) : Prop :=
  fst run = Ok None
  /\ requests_of (events_since w (snd run)) = []
  /\ n_calls (snd run) = n_calls w.

(** [int(t * 1000)] of a clock reading: its milliseconds, as the float
    product gives them. *)
Definition ms_of (t : Q) : Z := int_of_float (float_mul t (inject_Z 1000)).

(** The phases of a publish, as its requests show them. *)
Inductive Phase : Type :=
| VideoInit
| VideoTransfer
| PhotoTransfer
| Configure
| OtherCall.

Definition starts_with (p s : string) : bool :=
  match strip_prefix p s with Some _ => true | None => false end.

Definition phase_of (rq : Request) : Phase :=
  if starts_with "https://www.instagram.com/rupload_igvideo/" (rq_url rq) then
    match rq_method rq with GET => VideoInit | POST => VideoTransfer end
  else if starts_with "https://www.instagram.com/rupload_igphoto/" (rq_url rq) then
    match rq_method rq with GET => OtherCall | POST => PhotoTransfer end
  else if starts_with "https://www.instagram.com/api/v1/media/configure" (rq_url rq) then
    match rq_method rq with GET => OtherCall | POST => Configure end
  else OtherCall.

(** The upload id a request carries: the [upload_id] of its form, or of
    its [X-Instagram-Rupload-Params] header. *)
Definition rq_upload_id (rq : Request) : option string :=
  match dict_get (rq_params rq) "upload_id" with
  | Some (JStr u) => Some u
  | _ =>
      match dict_get (rq_headers rq) "X-Instagram-Rupload-Params" with
      | Some (JObj kv) =>
          match dict_get kv "upload_id" with
          | Some (JStr u) => Some u
          | _ => None
          end
      | _ => None
      end
  end.

(** From [w] to [w'] the run sent requests of the phases [phases], in
    this order, each under the upload id [uid]. *)
Definition sent_under (uid : string) (phases : list Phase) (w w' : World) : Prop :=
  exists evs,
    trace w' = trace w ++ evs
    /\ map phase_of (requests_of evs) = phases
    /\ Forall (fun rq => rq_upload_id rq = Some uid) (requests_of evs).

(** A run that sent nothing and changed no file. *)
Definition quiet_run {A} (w : World) (run : res A * World) : Prop :=
  exists evs,
    trace (snd run) = trace w ++ evs /\ requests_of evs = []
    /\ files (snd run) = files w /\ n_ticks (snd run) = n_ticks w.



(** The five entry points of a publish. *)
Inductive Publish : Type :=
| PhotoToFeed
| VideoToFeed
| PhotoToStory
| VideoToStory
| Clip.

Definition publish (E : Env) (p : Publish) (path caption : string)
    (thumbnail_path : option string) : M (option json) :=
  match p with
  | PhotoToFeed => photo_upload E path caption
  | VideoToFeed => video_upload E path caption thumbnail_path
  | PhotoToStory => photo_upload_to_story E path caption
  | VideoToStory => video_upload_to_story E path caption thumbnail_path
  | Clip => clip_upload E path caption thumbnail_path
  end.

(** The run of a publish did not raise, sent at least one request, and
    every request it sent carries the upload id [uid]. *)
Definition published_under (uid : string) (w : World) (run : res (option json) * World)
  : Prop :=
  (exists result, fst run = Ok result)
  /\ requests_between w (snd run) <> []
  /\ Forall (fun rq => rq_upload_id rq = Some uid) (requests_between w (snd run)).

















(** ** Sample environments and worlds *)

Definition plain (status : Z) (b : option json) : Response :=
  mkResponse status b (fun jar => jar).

(** An environment with the given answers, clock, probe and decoder of
    files; ffmpeg writes a one-byte frame. *)
Definition env_of (answers : nat -> Request -> NetOutcome) (readings : nat -> Q)
    (probe : ProbeOutcome) (decode : list byte -> option json) : Env :=
  mkEnv answers readings (fun _ => 1234567890)
    (fun _ => "6f1e0c0a-0000-4000-8000-000000000000")
    (fun _ => "20260101T120000.000") (fun _ => "2026-01-01T12:00:00")
    (fun _ => probe) (fun _ => ToolWrote (Some [x00]))
    decode (fun _ => None).

Definition env_net (answers : nat -> Request -> NetOutcome) : Env :=
  env_of answers (fun _ => 13600000001 # 8) (Probed 10 1080 1920) (fun _ => None).

(** An environment that answers every request in the same way. *)
Definition env_const (answer : NetOutcome) : Env := env_net (fun _ _ => answer).

Definition env_429 : Env := env_const (NetResp (plain 429 None)).

(** A client as [__init__] leaves it, in a process with no file. *)
Definition fresh : World :=
  mkWorld [] ∅ JNull JNull (JStr "") false ∅ 0 0 0 [].

(** C1 as the claim has it, for one call: when the answer is 429 at every
    attempt the bound allows, the call has waited 30, 60, ... between
    [retries + 1] requests before the error goes up. *)
Definition retried_with_backoff (E : Env) (retries : Z) (call : M json) (w : World) : Prop :=
  (forall i, (i <= Z.to_nat retries)%nat -> rate_limited E (n_calls w + i)) ->
  observed w (call w)
  = (Raise (HTTPError 429), backoff_waits (Z.to_nat retries), S (Z.to_nat retries)).

(** A process whose session file holds the bytes [x00], which the
    environment decodes as the given snapshot. *)
Definition env_snapshot (snapshot : json) (answer : NetOutcome) : Env :=
  env_of (fun _ _ => answer) (fun _ => 13600000001 # 8) (Probed 10 1080 1920)
    (fun _ => Some snapshot).

Definition expired_snapshot : json :=
  JObj [("cookies", JObj [("sessionid", JStr "expired"); ("csrftoken", JStr "t0")]);
        ("user_id", JStr "42"); ("username", JStr "alice"); ("csrf_token", JStr "t0")].

Definition with_session_file : World :=
  mkWorld [] ∅ JNull JNull (JStr "") false (<["./data/session.json" := [x00]]> ∅) 0 0 0 [].

(** A client that is authenticated, in the same process. *)
Definition signed_in_with_session_file : World :=
  mkWorld [mkCookie "sessionid" (JStr "live") ".instagram.com" "/"] ∅
    (JStr "7") (JStr "bob") (JStr "") true (<["./data/session.json" := [x00]]> ∅) 0 0 0 [].

(** C3 as the claim has it, for one restore: when no request of the
    restore is answered with a success, the restore returns [False] and
    the flag is off after it. *)
Definition restore_leaves_unauthenticated (E : Env) (filepath : string) (w : World)
  : Prop :=
  let run := load_session E filepath w in
  (forall rq, In rq (requests_between w (snd run)) ->
              probe_ok (net E (n_calls w) rq) = false) ->
  fst run = Ok false /\ is_authenticated (snd run) = false.

(** A snapshot in which the value of a cookie is a number. *)
Definition numeric_snapshot : json :=
  JObj [("cookies", JObj [("sessionid", JNum 5)]);
        ("user_id", JStr "42"); ("username", JStr "alice"); ("csrf_token", JStr "t0")].

(** The platform accepts everything and answers [status: ok]. *)
Definition env_accepting (probe : ProbeOutcome) : Env :=
  env_of (fun _ _ => NetResp (plain 200 (Some (JObj [("status", JStr "ok")]))))
    (fun _ => 13600000001 # 8) probe (fun _ => None).

(** A client in a process that has the video [clip.mp4]. *)
Definition with_clip : World :=
  mkWorld [] ∅ (JStr "42") (JStr "alice") (JStr "") true
    (<["clip.mp4" := [x00; x01]]> ∅) 0 0 0 [].

(** A clock that is read twice within one millisecond, and a platform that
    refuses every transfer with HTTP 500. *)
Definition env_same_ms : Env :=
  env_of (fun _ _ => NetResp (plain 500 None))
    (fun n => (6963200000512 + Z.of_nat n) # 4096) (Probed 10 1080 1920)
    (fun _ => None).

Definition with_two_photos : World :=
  mkWorld [] ∅ (JStr "42") (JStr "alice") (JStr "") true
    (<["a.jpg" := [x00]]> (<["b.jpg" := [x01]]> ∅)) 0 0 0 [].




(** The shortcode is resolved to the media 3141, and the like is answered
    with HTTP 200 and [status: fail]. *)
Definition env_like_refused : Env :=
  env_net (fun i _ =>
    match i with
    | O => NetResp (plain 200 (Some (JObj
             [("data", JObj [("shortcode_media", JObj [("id", JStr "3141")])])])))
    | _ => NetResp (plain 200 (Some (JObj
             [("status", JStr "fail"); ("message", JStr "feedback_required")])))
    end).

(** The default limits of config.py. *)
Definition default_config : Config := mkConfig 30 20 25 8.

(** A bot that has recorded nothing in this hour. *)
Definition idle_bot : Bot := mkBot fresh ∅ ∅ ∅.

(** ** A small logic of runs *)

(** [wp m Q s]: started in [s], the method [m] ends with a result and in a
    state that satisfy [Q]. *)
Definition wp {S A} (m : ST S A) (Q : res A -> S -> Prop) (s : S) : Prop :=
  Q (fst (m s)) (snd (m s)).

Arguments wp : simpl never.

(** The method does not raise. *)
Definition returns {S A} (m : ST S A) (s : S) : Prop :=
  exists a, fst (m s) = Ok a.


(** What a CSRF refresh may change: the CSRF cookies of the jar, the token
    and the header. *)
Definition refreshed (w w' : World) : Prop :=
  cookies w' = refreshed_jar (cookies w)
  /\ trace w' = trace w /\ n_calls w' = n_calls w
  /\ n_ticks w' = n_ticks w /\ n_draws w' = n_draws w
  /\ files w' = files w /\ is_authenticated w' = is_authenticated w
  /\ user_id w' = user_id w /\ username w' = username w
  /\ match List.filter is_csrf (cookies w') with
     | [c] =>
         if truthy (c_value c)
         then headers w' = <["X-CSRFToken" := c_value c]> (headers w)
              /\ csrf_token w' = c_value c
         else headers w' = headers w /\ csrf_token w' = csrf_token w
     | _ => headers w' = headers w /\ csrf_token w' = csrf_token w
     end.

(** After a request the world differs in the trace, the number of calls
    and, when an answer came, the jar. *)
Definition after_send (rq : Request) (w : World) : World :=
  with_n_calls (S (n_calls w))
    (with_trace (trace w ++ [EvRequest (stamped (headers w) rq)]) w).


(** The trace [t'] is [t] followed by events whose requests all satisfy
    [P]. *)
Definition extends (P : Request -> Prop) (t t' : list Event) : Prop :=
  exists evs, t' = t ++ evs /\ Forall P (requests_of evs).

(** What an event must satisfy for the requests of a trace to satisfy
    [P]. *)
Definition event_ok (P : Request -> Prop) (e : Event) : Prop :=
  match e with
  | EvRequest rq => P rq
  | _ => True
  end.

(** ** Login *)

(** The request carries the password of a login. *)
Definition carries_password (rq : Request) : bool :=
  dict_has (rq_params rq) "enc_password".


(** Where the checkpoint branch sends its requests: a path is taken on the
    platform, anything else is taken as the address it is. *)
Definition checkpoint_target (url : string) : string :=
  if starts_with "/" url then (BASE_URL ++ url)%string else url.

(** What the loop of a request helper leaves alone: everything but the
    jar, the trace and the number of calls. *)
Definition called (w w' : World) : Prop :=
  headers w' = headers w /\ user_id w' = user_id w /\ username w' = username w
  /\ csrf_token w' = csrf_token w /\ is_authenticated w' = is_authenticated w
  /\ files w' = files w /\ n_ticks w' = n_ticks w /\ n_draws w' = n_draws w.

(** The request of [user_stories], under the headers [h]. *)
Definition stories_request (h : gmap string json) (uid : json) : Request :=
  stamped h (mkRequest GET (API_URL ++ "/" ++ "feed/user/{}/story/") [uid] [] [] None 15 None).

(** The stories in the outcome of the call: the [items] of a [reel] that
    is not empty, and the empty list in every other case. *)
Definition stories_of (reply : res json) : json :=
  match reply with
  | Ok data =>
      match py_get data "reel" (JObj []) with
      | Ok reel =>
          if truthy reel
          then match py_get reel "items" (JList []) with
               | Ok items => items
               | Raise _ => JList []
               end
          else JList []
      | Raise _ => JList []
      end
  | Raise _ => JList []
  end.

(** The lines a run wrote to the log at the level of an error. *)
Definition errors_of (t : list Event) : list string :=
  omap (fun e => match e with EvLog Error m => Some m | _ => None end) t.

(** ** More sample environments *)

(** A console at which nothing is typed. *)
Definition console_silent : Console := mkConsole (fun _ => ""%string) (fun _ => ""%string).

(** The first visit sets a CSRF cookie; the login is then answered with
    [authenticated]. *)
Definition env_login : Env :=
  env_net (fun i _ =>
    match i with
    | O => NetResp (mkResponse 200 None
             (fun jar => jar ++ [mkCookie "csrftoken" (JStr "tok") ".instagram.com" "/"]))
    | _ => NetResp (plain 200 (Some (JObj
             [("authenticated", JBool true); ("userId", JStr "42")])))
    end).

(** * Properties *)

Ltac unfold_monad :=
  unfold bind, try_except, ret, raise, lift, modify, get_world, get_state,
    log, sleep, _delay, random_delay, emit in *.

Lemma events_since_app w w' evs :
  trace w' = trace w ++ evs -> events_since w w' = evs.
Proof.
  intros H. unfold events_since. rewrite H. by rewrite drop_app_length.
Qed.

Lemma sleeps_of_app a b : sleeps_of (a ++ b) = sleeps_of a ++ sleeps_of b.
Proof. unfold sleeps_of. apply omap_app. Qed.

Lemma requests_of_app a b : requests_of (a ++ b) = requests_of a ++ requests_of b.
Proof. unfold requests_of. apply omap_app. Qed.

(** ** Runs only add to the trace *)
















(** ** The jar and the CSRF refresh *)

Lemma same_key_spec a b : same_key a b = true <-> cookie_key a = cookie_key b.
Proof.
  unfold same_key, cookie_key. rewrite !andb_true_iff, !String.eqb_eq.
  split; [intros [[-> ->] ->]; reflexivity | intros [= -> -> ->]; auto].
Qed.

Lemma filter_filter_and {A} (f g : A -> bool) l :
  List.filter f (List.filter g l) = List.filter (fun x => g x && f x) l.
Proof.
  induction l as [|x l IH]; simpl; [reflexivity|].
  destruct (g x) eqn:Hg; simpl; [destruct (f x)|]; rewrite IH; reflexivity.
Qed.

Lemma filter_comm {A} (f g : A -> bool) l :
  List.filter f (List.filter g l) = List.filter g (List.filter f l).
Proof.
  induction l as [|x l IH]; simpl; [reflexivity|].
  destruct (g x) eqn:Hg, (f x) eqn:Hf; simpl; rewrite ?Hg, ?Hf, ?IH; reflexivity.
Qed.

Lemma clear_all_filter cs : forall jar,
  clear_all cs jar = List.filter (fun c => negb (existsb (same_key c) cs)) jar.
Proof.
  unfold clear_all.
  induction cs as [|k cs IH]; intros jar; simpl.
  - induction jar as [|x jar IHj]; simpl; [reflexivity | by rewrite <- IHj].
  - rewrite IH.
    change (jar_clear (c_domain k) (c_path k) (c_name k) jar)
      with (List.filter (fun c => negb (same_key c k)) jar).
    rewrite filter_filter_and. apply List.filter_ext. intros c.
    by rewrite negb_orb.
Qed.

Lemma filter_all_false {A} (f : A -> bool) l :
  (forall x, In x l -> f x = false) -> List.filter f l = [].
Proof.
  induction l as [|x l IH]; simpl; intros H; [reflexivity|].
  rewrite (H x) by auto. apply IH. auto.
Qed.

(** What is left of the CSRF cookies once all but the last are cleared. *)
Lemma csrf_after_clear jar :
  let cs := List.filter is_csrf jar in
  List.filter is_csrf (clear_all (removelast cs) jar)
  = match last cs with
    | Some c => if existsb (same_key c) (removelast cs) then [] else [c]
    | None => []
    end.
Proof.
  intros cs. rewrite clear_all_filter, filter_comm. fold cs.
  destruct (decide (cs = [])) as [Hnil|Hne].
  - rewrite Hnil. reflexivity.
  - rewrite (app_removelast_last (mkCookie "" JNull "" "") Hne) at 1.
    assert (last cs = Some (List.last cs (mkCookie "" JNull "" ""))) as ->.
    { rewrite (app_removelast_last (mkCookie "" JNull "" "") Hne) at 1.
      apply last_snoc. }
    rewrite List.filter_app. simpl.
    rewrite filter_all_false.
    + destruct (existsb _ _); reflexivity.
    + intros x Hx. apply negb_false_iff, existsb_exists.
      exists x. split; [exact Hx|]. apply same_key_spec. reflexivity.
Qed.

Lemma find_no_duplicates_none name jar t :
  List.filter (fun c => String.eqb (c_name c) name) jar = [] ->
  find_no_duplicates name jar t = Ok t.
Proof.
  induction jar as [|x jar IH]; simpl; [reflexivity|].
  destruct (String.eqb (c_name x) name); [discriminate | exact IH].
Qed.

Lemma find_no_duplicates_one name jar c :
  List.filter (fun c => String.eqb (c_name c) name) jar = [c] ->
  find_no_duplicates name jar JNull = Ok (c_value c).
Proof.
  induction jar as [|x jar IH]; simpl; [discriminate|].
  destruct (String.eqb (c_name x) name); [|exact IH].
  intros [= -> Hrest]. by apply find_no_duplicates_none.
Qed.

Lemma refreshed_jar_csrf jar :
  List.filter is_csrf (refreshed_jar jar) = []
  \/ exists c, List.filter is_csrf (refreshed_jar jar) = [c].
Proof.
  unfold refreshed_jar. destruct (1 <? _) eqn:Hlen.
  - rewrite csrf_after_clear. destruct (last _); [|by left].
    destruct (existsb _ _); [by left | right; eauto].
  - destruct (List.filter is_csrf jar) as [|c [|c' cs]]; [by left | right; eauto |].
    apply Z.ltb_ge in Hlen. cbn [length] in Hlen. lia.
Qed.

Lemma refreshed_jar_wf jar :
  jar_wf jar ->
  List.filter is_csrf (refreshed_jar jar)
  = match kept_csrf jar with Some c => [c] | None => [] end.
Proof.
  intros Hwf. unfold refreshed_jar, kept_csrf.
  assert (NoDup (map cookie_key (List.filter is_csrf jar))) as Hnd.
  { clear -Hwf. unfold jar_wf in Hwf. induction jar as [|x jar IH]; simpl; [constructor|].
    inversion Hwf as [|? ? Hnotin Hrest]; subst.
    destruct (is_csrf x); simpl; [|by apply IH].
    constructor; [|by apply IH].
    intros Hin. apply Hnotin.
    apply list_elem_of_In, in_map_iff in Hin as (y & Hy & Hin).
    apply list_elem_of_In, in_map_iff. exists y. split; [done|].
    apply List.filter_In in Hin. tauto. }
  destruct (1 <? _) eqn:Hlen.
  - rewrite csrf_after_clear.
    set (cs := List.filter is_csrf jar) in *.
    destruct (decide (cs = [])) as [Hnil|Hne]; [by rewrite Hnil|].
    pose proof (app_removelast_last (mkCookie "" JNull "" "") Hne) as Hsplit.
    assert (last cs = Some (List.last cs (mkCookie "" JNull "" ""))) as Hlast.
    { rewrite Hsplit at 1. apply last_snoc. }
    rewrite Hlast.
    destruct (existsb _ _) eqn:Hex; [|reflexivity].
    exfalso. apply existsb_exists in Hex as (y & Hy & Hkey).
    apply same_key_spec in Hkey.
    rewrite Hsplit, map_app in Hnd. apply NoDup_app in Hnd as (_ & Hdisj & _).
    apply (Hdisj (cookie_key y)).
    + apply list_elem_of_In, in_map. exact Hy.
    + rewrite <- Hkey. simpl. by left.
  - destruct (List.filter is_csrf jar) as [|c [|c' cs]]; [reflexivity | reflexivity |].
    apply Z.ltb_ge in Hlen. cbn [length] in Hlen. lia.
Qed.

(** [_refresh_csrf] never raises.  It clears CSRF cookies only, keeps at
    most one, and copies its value into the token and the header when the
    value is truthy; otherwise token and header stay as they were. *)
Lemma refresh_csrf_spec w :
  exists w',
    _refresh_csrf w = (Ok tt, w')
    /\ cookies w' = refreshed_jar (cookies w)
    /\ trace w' = trace w /\ n_calls w' = n_calls w
    /\ n_ticks w' = n_ticks w /\ n_draws w' = n_draws w
    /\ files w' = files w /\ is_authenticated w' = is_authenticated w
    /\ user_id w' = user_id w /\ username w' = username w
    /\ match List.filter is_csrf (cookies w') with
       | [c] =>
           if truthy (c_value c)
           then headers w' = <["X-CSRFToken" := c_value c]> (headers w)
                /\ csrf_token w' = c_value c
           else headers w' = headers w /\ csrf_token w' = csrf_token w
       | _ => headers w' = headers w /\ csrf_token w' = csrf_token w
       end.
Proof.
  pose proof (refreshed_jar_csrf (cookies w)) as Hcs.
  unfold _refresh_csrf, refreshed_jar in *. unfold_monad.
  destruct (1 <? _); simpl; unfold jar_get.
  all: destruct Hcs as [Hnone | [c Hone]].
  all: try (rewrite (find_no_duplicates_none _ _ _ Hnone); simpl;
            eexists; split; [reflexivity|]; simpl; rewrite ?Hnone;
            repeat split; reflexivity).
  all: rewrite (find_no_duplicates_one _ _ _ Hone);
       destruct (truthy (c_value c)) eqn:Htr; simpl; rewrite ?Htr;
       eexists; (split; [reflexivity|]); simpl; rewrite ?Hone, ?Htr;
       repeat split; reflexivity.
Qed.

(** ** Rules of the logic of runs *)

Lemma wp_ret {S A} (a : A) (Q : res A -> S -> Prop) s : Q (Ok a) s -> wp (ret a) Q s.
Proof. exact id. Qed.

Lemma wp_raise {S A} e (Q : res A -> S -> Prop) s : Q (Raise e) s -> wp (raise e) Q s.
Proof. exact id. Qed.

Lemma wp_lift {S A} (r : res A) (Q : res A -> S -> Prop) s : Q r s -> wp (lift r) Q s.
Proof. exact id. Qed.

Lemma wp_get_state {S} (Q : res S -> S -> Prop) s : Q (Ok s) s -> wp get_state Q s.
Proof. exact id. Qed.

Lemma wp_modify {S} (f : S -> S) (Q : res unit -> S -> Prop) s :
  Q (Ok tt) (f s) -> wp (modify f) Q s.
Proof. exact id. Qed.

Lemma wp_bind {S A B} (m : ST S A) (k : A -> ST S B) (Q : res B -> S -> Prop) s :
  wp m (fun r s1 => match r with
                    | Ok a => wp (k a) Q s1
                    | Raise e => Q (Raise e) s1
                    end) s ->
  wp (bind m k) Q s.
Proof. unfold wp, bind. destruct (m s) as [[a|e] s1]; exact id. Qed.

Lemma wp_try {S A} (m : ST S A) (h : exn -> ST S A) (Q : res A -> S -> Prop) s :
  wp m (fun r s1 => match r with
                    | Ok a => Q (Ok a) s1
                    | Raise e => wp (h e) Q s1
                    end) s ->
  wp (try_except m h) Q s.
Proof. unfold wp, try_except. destruct (m s) as [[a|e] s1]; exact id. Qed.

Lemma wp_mono {S A} (m : ST S A) (Q Q' : res A -> S -> Prop) s :
  wp m Q s -> (forall r s', Q r s' -> Q' r s') -> wp m Q' s.
Proof. unfold wp. auto. Qed.

Lemma wp_emit e (Q : res unit -> World -> Prop) w :
  Q (Ok tt) (with_trace (trace w ++ [e]) w) -> wp (emit e) Q w.
Proof. exact id. Qed.

Lemma wp_send E rq (Q : res Response -> World -> Prop) w :
  (net E (n_calls w) (stamped (headers w) rq) = NetFail ->
   Q (Raise RequestError) (after_send rq w)) ->
  (forall r, net E (n_calls w) (stamped (headers w) rq) = NetResp r ->
     Q (Ok r) (with_cookies (jar_after r (cookies w)) (after_send rq w))) ->
  wp (send E rq) Q w.
Proof.
  intros Hfail Hresp. unfold wp, send.
  destruct (net E (n_calls w) (stamped (headers w) rq)) as [|r]; simpl; auto.
Qed.

Lemma wp_refresh_csrf (Q : res unit -> World -> Prop) w :
  (forall w', refreshed w w' -> Q (Ok tt) w') -> wp _refresh_csrf Q w.
Proof.
  intros HQ. destruct (refresh_csrf_spec w) as (w' & Hrun & Hspec).
  unfold wp. rewrite Hrun. apply HQ. exact Hspec.
Qed.

Lemma wp_time_time E (Q : res Q -> World -> Prop) w :
  Q (Ok (clock E (n_ticks w))) (with_n_ticks (S (n_ticks w)) w) -> wp (time_time E) Q w.
Proof. exact id. Qed.

(** One step through the text of a method. *)
Ltac wp_step :=
  cbv beta iota;
  lazymatch goal with
  | |- wp (bind _ _) _ _ => apply wp_bind
  | |- wp (try_except _ _) _ _ => apply wp_try
  | |- wp (ret _) _ _ => apply wp_ret
  | |- wp (raise _) _ _ => apply wp_raise
  | |- wp (lift ?r) _ _ => apply wp_lift; destruct r eqn:?
  | |- wp get_world _ _ => apply wp_get_state
  | |- wp get_state _ _ => apply wp_get_state
  | |- wp (modify _) _ _ => apply wp_modify
  | |- wp (log _ _) _ _ => apply wp_emit
  | |- wp (emit _) _ _ => apply wp_emit
  | |- wp (sleep _) _ _ => apply wp_emit
  | |- wp (_delay _ _) _ _ => apply wp_emit
  | |- wp (random_delay _ _) _ _ => apply wp_emit
  | |- wp _refresh_csrf _ _ => apply wp_refresh_csrf; intros ? ?
  | |- wp (time_time _) _ _ => apply wp_time_time
  | |- wp (send _ _) _ _ => apply wp_send; [intros ? | intros ? ?]
  | |- wp (session_get _ _ _ _ _ _) _ _ => apply wp_send; [intros ? | intros ? ?]
  | |- wp (session_post _ _ _ _ _ _ _) _ _ => apply wp_send; [intros ? | intros ? ?]
  | |- wp (resp_json ?r) _ _ => unfold resp_json; destruct (body r) eqn:?
  | |- wp (if ?b then _ else _) _ _ =>
      let b' := eval cbn in b in
      lazymatch b' with
      | true => change b with true; cbv iota
      | false => change b with false; cbv iota
      | _ => destruct b eqn:?
      end
  | |- wp (match ?x with _ => _ end) _ _ => destruct x eqn:?
  end.

Ltac wp_steps := repeat wp_step.

(** ** What a run sends *)

Lemma extends_refl P t : extends P t t.
Proof. exists []. split; [by rewrite app_nil_r | constructor]. Qed.

Lemma extends_snoc P t0 t e :
  extends P t0 t -> event_ok P e -> extends P t0 (t ++ [e]).
Proof.
  intros (evs & -> & Hall) He. exists (evs ++ [e]).
  split; [by rewrite app_assoc|].
  rewrite requests_of_app. apply Forall_app. split; [exact Hall|].
  destruct e; simpl; auto.
Qed.


















Ltac flag_kept :=
  match goal with
  | H : refreshed _ _ |- _ =>
      let Ha := fresh "Ha" in let Hu := fresh "Hu" in
      destruct H as (_ & _ & _ & _ & _ & _ & Ha & _ & Hu & _);
      simpl in Ha, Hu; flag_kept
  | _ => simpl in *; rewrite ?orb_false_r, ?orb_true_r; repeat split; congruence
  end.

Ltac open_refreshed :=
  repeat match goal with
         | H : refreshed _ _ |- _ =>
             destruct H as (? & ? & ? & ? & ? & ? & ? & ? & ? & ?)
         end;
  simpl in *.

Ltac trace_tac :=
  simpl;
  repeat match goal with
         | Htr : trace _ = _ |- _ => rewrite Htr; clear Htr
         end;
  repeat (apply extends_snoc; [|simpl; try exact I]);
  try apply extends_refl.


(** Solves [trace w' = trace w ++ ?evs] from the equations of the traces
    in the context; the events are read off the left-hand side. *)
Ltac trace_eq :=
  simpl;
  lazymatch goal with
  | |- ?lhs = _ =>
      let t := fresh "t" in
      let Ht := fresh "Ht" in
      set (t := lhs);
      assert (Ht : t = lhs) by reflexivity;
      clearbody t;
      repeat match goal with
             | Htr : trace _ = _ |- _ => rewrite Htr in Ht
             end;
      rewrite <- ?app_assoc in Ht;
      first [ exact Ht | subst t; symmetry; apply app_nil_r ]
  end.

Lemma wp_on_client {A} (m : M A) (Q : res A -> Bot -> Prop) b :
  wp m (fun r w => Q r (with_cl w b)) (cl b) -> wp (on_client m) Q b.
Proof. unfold wp, on_client. destruct (m (cl b)) as [r w]. exact id. Qed.

Section ClientFacts.

Context (E : Env).

(** One attempt that is refused with 429 while retries are left: the wait
    is [30 * (attempt + 1)] and the loop goes on. *)
Lemma api_attempts_refused n attempt retries rq w :
  rate_limited E (n_calls w) -> attempt < retries ->
  exists w1,
    api_attempts E (S n) attempt retries rq w
      = api_attempts E n (attempt + 1) retries rq w1
    /\ n_calls w1 = S (n_calls w) /\ headers w1 = headers w
    /\ trace w1 = trace w ++
         [EvDelay (1 # 2) (3 # 2); EvRequest (stamped (headers w) rq);
          EvLog Error (api_label rq ++ ": HTTP");
          EvLog Warning "Rate limit (429). Aguardando...";
          EvSleep (30 * (attempt + 1))].
Proof.
  intros Hlim Hlt.
  destruct (Hlim (stamped (headers w) rq)) as (r & Hnet & Hst).
  simpl. unfold_monad. unfold send, raise_for_status. simpl.
  rewrite Hnet. simpl. rewrite Hst. simpl. unfold_monad. simpl.
  assert ((attempt <? retries) = true) as -> by lia. simpl.
  eexists. split; [reflexivity|]. simpl.
  repeat split; try reflexivity.
  rewrite <- !app_assoc. reflexivity.
Qed.

(** The attempt that is refused when no retry is left raises. *)
Lemma api_attempts_exhausted n attempt retries rq w :
  rate_limited E (n_calls w) -> retries <= attempt ->
  exists w1,
    api_attempts E (S n) attempt retries rq w = (Raise (HTTPError 429), w1)
    /\ trace w1 = trace w ++
         [EvDelay (1 # 2) (3 # 2); EvRequest (stamped (headers w) rq);
          EvLog Error (api_label rq ++ ": HTTP")].
Proof.
  intros Hlim Hle.
  destruct (Hlim (stamped (headers w) rq)) as (r & Hnet & Hst).
  simpl. unfold_monad. unfold send, raise_for_status. simpl.
  rewrite Hnet. simpl. rewrite Hst. simpl. unfold_monad. simpl.
  assert ((attempt <? retries) = false) as -> by lia. simpl.
  eexists. split; [reflexivity|]. simpl.
  rewrite <- !app_assoc. reflexivity.
Qed.

(** An attempt that is answered returns the body. *)
Lemma api_attempts_answered n attempt retries rq w j :
  answers_json E (n_calls w) j ->
  exists w1,
    api_attempts E (S n) attempt retries rq w = (Ok j, w1)
    /\ trace w1 = trace w ++
         [EvDelay (1 # 2) (3 # 2); EvRequest (stamped (headers w) rq)].
Proof.
  intros Hans.
  destruct (Hans (stamped (headers w) rq)) as (r & Hnet & Hst & Hbody).
  simpl. unfold_monad. unfold send, raise_for_status, resp_json. simpl.
  rewrite Hnet. simpl. rewrite Hst. simpl. rewrite Hbody. unfold_monad. simpl.
  eexists. split; [reflexivity|]. simpl.
  rewrite <- !app_assoc. reflexivity.
Qed.

(** [k] refusals in a row, with retries left for each. *)
Lemma api_attempts_refusals k : forall n attempt retries rq w,
  attempt + Z.of_nat k <= retries ->
  (forall i, (i < k)%nat -> rate_limited E (n_calls w + i)) ->
  exists w1 evs,
    api_attempts E (k + n) attempt retries rq w
      = api_attempts E n (attempt + Z.of_nat k) retries rq w1
    /\ n_calls w1 = (n_calls w + k)%nat /\ headers w1 = headers w
    /\ trace w1 = trace w ++ evs
    /\ sleeps_of evs = map (fun i => 30 * (attempt + Z.of_nat i)) (seq 1 k)
    /\ requests_of evs = replicate k (stamped (headers w) rq).
Proof.
  induction k as [|k IH]; intros n attempt retries rq w Hle Hlim.
  - exists w, []. simpl. rewrite Z.add_0_r, Nat.add_0_r, app_nil_r. repeat split; reflexivity.
  - destruct (api_attempts_refused (k + n) attempt retries rq w) as (w1 & Hrun & Hc & Hh & Ht).
    { specialize (Hlim 0%nat). rewrite Nat.add_0_r in Hlim. apply Hlim. lia. }
    { lia. }
    destruct (IH n (attempt + 1) retries rq w1) as (w2 & evs & Hrun2 & Hc2 & Hh2 & Ht2 & Hs & Hr).
    { lia. }
    { intros i Hi. rewrite Hc. replace (S (n_calls w) + i)%nat with (n_calls w + S i)%nat by lia.
      apply Hlim. lia. }
    exists w2. eexists. split.
    { change (S k + n)%nat with (S (k + n)). rewrite Hrun, Hrun2. f_equal. lia. }
    split; [lia|]. split; [congruence|]. split.
    { rewrite Ht2, Ht, <- app_assoc. reflexivity. }
    split.
    { rewrite sleeps_of_app, Hs.
      change (seq 1 (S k)) with (1%nat :: seq 2 k).
      rewrite <- (seq_shift k 1). cbn [map]. rewrite map_map.
      change (sleeps_of _) with [30 * (attempt + 1)]. cbn [app].
      f_equal. apply map_ext. intros i. f_equal. lia. }
    { rewrite requests_of_app, Hr, Hh. reflexivity. }
Qed.

(** Whatever the answers, the loop leaves the headers alone and every
    request it sends is the same request with the header of its start. *)
Lemma api_attempts_requests retries rq n : forall attempt w r w',
  api_attempts E n attempt retries rq w = (r, w') ->
  headers w' = headers w
  /\ exists evs, trace w' = trace w ++ evs
     /\ Forall (carries (headers w)) (requests_of evs).
Proof.
  induction n as [|n IH]; intros attempt w r w' Hrun.
  - simpl in Hrun. unfold_monad. injection Hrun as <- <-.
    split; [reflexivity|]. exists []. by rewrite app_nil_r.
  - simpl in Hrun. unfold_monad. unfold send, raise_for_status, resp_json in Hrun.
    simpl in Hrun.
    assert (Forall (carries (headers w)) [stamped (headers w) rq]) as Hone.
    { repeat constructor. }
    destruct (net E (n_calls w) (stamped (headers w) rq)) as [|a]; simpl in Hrun.
    + injection Hrun as <- <-. split; [reflexivity|].
      eexists. split; [simpl; rewrite <- !app_assoc; reflexivity|]. exact Hone.
    + destruct ((400 <=? status_code a) && (status_code a <? 600)); simpl in Hrun.
      * destruct ((status_code a =? 429) && (attempt <? retries)); simpl in Hrun.
        -- apply IH in Hrun as (Hh & evs & Ht & Hall). simpl in *.
           split; [exact Hh|].
           eexists. split; [rewrite Ht, <- !app_assoc; reflexivity|].
           rewrite !requests_of_app. simpl. constructor; [reflexivity | exact Hall].
        -- injection Hrun as <- <-. split; [reflexivity|].
           eexists. split; [simpl; rewrite <- !app_assoc; reflexivity|]. exact Hone.
      * destruct (body a); simpl in Hrun; injection Hrun as <- <-;
          (split; [reflexivity|]);
          (eexists; split; [simpl; rewrite <- !app_assoc; reflexivity|]; exact Hone).
Qed.

Lemma in_removelast {A} (x : A) l : In x (removelast l) -> In x l.
Proof.
  induction l as [|y [|z l] IH]; simpl; [tauto | tauto |].
  intros [-> | Hin]; [by left | right; by apply IH].
Qed.

Lemma refreshed_jar_others jar :
  List.filter (fun c => negb (is_csrf c)) (refreshed_jar jar)
  = List.filter (fun c => negb (is_csrf c)) jar.
Proof.
  unfold refreshed_jar. destruct (1 <? _); [|reflexivity].
  rewrite clear_all_filter, filter_filter_and.
  apply List.filter_ext_in. intros c _.
  destruct (is_csrf c) eqn:Hc; simpl; [apply andb_false_r|].
  rewrite andb_true_r. apply negb_true_iff.
  destruct (existsb _ _) eqn:Hex; [|reflexivity]. exfalso.
  apply existsb_exists in Hex as (k & Hk & Hkey).
  apply in_removelast, List.filter_In in Hk as [_ Hk].
  unfold same_key in Hkey. apply andb_true_iff in Hkey as [_ Hname].
  apply String.eqb_eq in Hname. unfold is_csrf in *. rewrite Hname in Hc. congruence.
Qed.

(** C6 (as amended).  [_api_get], [_api_post] and [_web_post] start with
    [_refresh_csrf], before their first request.  On a jar that holds one
    cookie for a key, the refresh clears every CSRF cookie but the last one
    of the jar and no other cookie, so at most one CSRF cookie is left.
    When the value of that cookie is not empty it becomes the client's
    token and the [X-CSRFToken] header; with no CSRF cookie, or an empty
    value, token and header stay as they were.  Every request of the call
    carries the header as the refresh left it. *)
Theorem csrf_refreshed_before_every_call :
  forall w : World,
    jar_wf (cookies w) ->
    exists wr,
      _refresh_csrf w = (Ok tt, wr)
      /\ List.filter is_csrf (cookies wr)
         = match kept_csrf (cookies w) with Some c => [c] | None => [] end
      /\ List.filter (fun c => negb (is_csrf c)) (cookies wr)
         = List.filter (fun c => negb (is_csrf c)) (cookies w)
      /\ match kept_csrf (cookies w) with
         | Some c =>
             if truthy (c_value c)
             then headers wr !! "X-CSRFToken" = Some (c_value c)
                  /\ csrf_token wr = c_value c
             else headers wr = headers w /\ csrf_token wr = csrf_token w
         | None => headers wr = headers w /\ csrf_token wr = csrf_token w
         end
      /\ forall (endpoint path : string) (args : list json)
                (params : list (string * json)) (timeout retries : Z),
           Forall (carries (headers wr))
             (requests_of (events_since w
                (snd (_api_get E endpoint args params timeout retries w))))
           /\ Forall (carries (headers wr))
             (requests_of (events_since w
                (snd (_api_post E endpoint args params timeout retries w))))
           /\ Forall (carries (headers wr))
             (requests_of (events_since w
                (snd (_web_post E path args params timeout w)))).
Proof.
  intros w Hwf.
  destruct (refresh_csrf_spec w) as (wr & Hrun & Hjar & Htr & Hcalls & _ & _ & _ & _ & _ & _ & Hhdr).
  exists wr. split; [exact Hrun|].
  assert (List.filter is_csrf (cookies wr)
          = match kept_csrf (cookies w) with Some c => [c] | None => [] end) as Hkept.
  { rewrite Hjar. by apply refreshed_jar_wf. }
  split; [exact Hkept|].
  split; [rewrite Hjar; apply refreshed_jar_others|].
  split.
  { rewrite Hkept in Hhdr. destruct (kept_csrf (cookies w)) as [c|]; [|exact Hhdr].
    destruct (truthy (c_value c)); [|exact Hhdr].
    destruct Hhdr as [-> ->]. split; [apply lookup_insert_eq | reflexivity]. }
  intros endpoint path args params timeout retries.
  assert (forall rq, Forall (carries (headers wr))
            (requests_of (events_since w
               (snd (bind _refresh_csrf
                       (fun _ => api_attempts E (Z.to_nat (retries + 1)) 0 retries rq) w)))))
    as Hapi.
  { intros rq. unfold bind. rewrite Hrun.
    destruct (api_attempts E _ 0 retries rq wr) as [r w'] eqn:Hloop.
    apply api_attempts_requests in Hloop as (_ & evs & Ht & Hall).
    simpl. rewrite (events_since_app w w' evs); [exact Hall | by rewrite Ht, Htr]. }
  split; [apply Hapi|]. split; [apply Hapi|].
  unfold _web_post. unfold bind at 1. rewrite Hrun.
  unfold session_post, send. unfold_monad. unfold raise_for_status, resp_json.
  set (rq := stamped (headers wr) _).
  assert (Forall (carries (headers wr)) [rq]) as Hone by (repeat constructor).
  destruct (net E (n_calls wr) rq) as [|a]; simpl.
  - rewrite (events_since_app w _ [EvRequest rq; EvLog Error "WEB POST: exception"]);
      [exact Hone | simpl; by rewrite Htr, <- app_assoc].
  - destruct ((400 <=? status_code a) && (status_code a <? 600)); simpl.
    + rewrite (events_since_app w _ [EvRequest rq; EvLog Error "WEB POST: HTTP status"]);
        [exact Hone | simpl; by rewrite Htr, <- app_assoc].
    + destruct (body a); simpl.
      * rewrite (events_since_app w _ [EvRequest rq]); [exact Hone | simpl; by rewrite Htr].
      * rewrite (events_since_app w _ [EvRequest rq; EvLog Error "WEB POST: exception"]);
          [exact Hone | simpl; by rewrite Htr, <- app_assoc].
Qed.

(** The body shared by [_api_get] and [_api_post], run on [k] refusals
    within the bound. *)
Lemma api_run_429 rq w retries k :
  0 <= retries -> (k <= Z.to_nat retries)%nat ->
  (forall i, (i < k)%nat -> rate_limited E (n_calls w + i)) ->
  let run := bind _refresh_csrf
               (fun _ => api_attempts E (Z.to_nat (retries + 1)) 0 retries rq) w in
  (forall j, answers_json E (n_calls w + k) j ->
     observed w run = (Ok j, backoff_waits k, S k))
  /\ (k = Z.to_nat retries -> rate_limited E (n_calls w + k) ->
     observed w run = (Raise (HTTPError 429), backoff_waits k, S k)).
Proof.
  intros Hpos Hk Hlim run.
  destruct (refresh_csrf_spec w) as (wr & Hrun & _ & Htr & Hcalls & _).
  destruct (api_attempts_refusals k (S (Z.to_nat retries - k)) 0 retries rq wr)
    as (w1 & evs & Hloop & Hc1 & Hh1 & Ht1 & Hs & Hr).
  { lia. }
  { intros i Hi. rewrite Hcalls. by apply Hlim. }
  assert (run = api_attempts E (S (Z.to_nat retries - k)) (0 + Z.of_nat k) retries rq w1)
    as ->.
  { subst run. unfold bind. rewrite Hrun, <- Hloop. f_equal. lia. }
  assert (sleeps_of evs = backoff_waits k) as Hwaits.
  { rewrite Hs. unfold backoff_waits. apply map_ext. intros i. f_equal. }
  assert (length (requests_of evs) = k) as Hreqs.
  { rewrite Hr. apply length_replicate. }
  split.
  - intros j Hans.
    destruct (api_attempts_answered (Z.to_nat retries - k) (0 + Z.of_nat k) retries rq w1 j)
      as (w2 & Hlast & Ht2).
    { rewrite Hc1, Hcalls. exact Hans. }
    rewrite Hlast. unfold observed. simpl.
    rewrite (events_since_app w w2 (evs ++ [EvDelay (1 # 2) (3 # 2);
                                              EvRequest (stamped (headers w1) rq)])).
    + rewrite sleeps_of_app, requests_of_app, length_app, Hwaits, Hreqs. simpl.
      rewrite app_nil_r. repeat f_equal. lia.
    + rewrite Ht2, Ht1, Htr, <- app_assoc. reflexivity.
  - intros Hkeq Hlast429.
    destruct (api_attempts_exhausted (Z.to_nat retries - k) (0 + Z.of_nat k) retries rq w1)
      as (w2 & Hlast & Ht2).
    { rewrite Hc1, Hcalls. exact Hlast429. }
    { lia. }
    rewrite Hlast. unfold observed. simpl.
    rewrite (events_since_app w w2 (evs ++ [EvDelay (1 # 2) (3 # 2);
                                              EvRequest (stamped (headers w1) rq);
                                              EvLog Error (api_label rq ++ ": HTTP")])).
    + rewrite sleeps_of_app, requests_of_app, length_app, Hwaits, Hreqs. simpl.
      rewrite app_nil_r. repeat f_equal. lia.
    + rewrite Ht2, Ht1, Htr, <- app_assoc. reflexivity.
Qed.

(** A refused web-form call: one request, no wait, the error goes up. *)
Lemma web_post_429 path args data timeout w :
  rate_limited E (n_calls w) ->
  observed w (_web_post E path args data timeout w)
  = (Raise (HTTPError 429), [], 1%nat).
Proof.
  intros Hlim.
  destruct (refresh_csrf_spec w) as (wr & Hrun & _ & Htr & Hcalls & _).
  unfold _web_post. unfold bind at 1. rewrite Hrun.
  unfold session_post, send. unfold_monad. unfold raise_for_status.
  destruct (Hlim (stamped (headers wr)
              (mkRequest POST (BASE_URL ++ path) args data [] None timeout None)))
    as (r & Hnet & Hst).
  rewrite Hcalls in *. rewrite Hnet. simpl. rewrite Hst. simpl.
  unfold observed. simpl. unfold events_since. simpl.
  rewrite Htr, <- app_assoc, drop_app_length. reflexivity.
Qed.

(** C1 (as amended).  A versioned-API call ([_api_get], [_api_post]) that is
    answered 429 waits 30 seconds times the number of the attempt and tries
    again, at most [retries] times: an answer that comes within the bound
    is returned, and when the last attempt allowed is refused too the HTTP
    error goes up to the caller.  A legacy web-form call ([_web_post]) is
    not retried: its first 429 goes up at once, after one request and no
    wait. *)
Theorem api_calls_retry_429_web_post_does_not :
  forall (w : World) (retries : Z) (k : nat)
         (endpoint path : string) (args : list json)
         (params : list (string * json)) (timeout : Z),
    0 <= retries -> (k <= Z.to_nat retries)%nat ->
    (forall i, (i < k)%nat -> rate_limited E (n_calls w + i)) ->
    (forall j, answers_json E (n_calls w + k) j ->
       observed w (_api_get E endpoint args params timeout retries w)
         = (Ok j, backoff_waits k, S k)
       /\ observed w (_api_post E endpoint args params timeout retries w)
         = (Ok j, backoff_waits k, S k))
    /\ (k = Z.to_nat retries -> rate_limited E (n_calls w + k) ->
       observed w (_api_get E endpoint args params timeout retries w)
         = (Raise (HTTPError 429), backoff_waits k, S k)
       /\ observed w (_api_post E endpoint args params timeout retries w)
         = (Raise (HTTPError 429), backoff_waits k, S k))
    /\ (rate_limited E (n_calls w) ->
       observed w (_web_post E path args params timeout w)
         = (Raise (HTTPError 429), [], 1%nat)).
Proof.
  intros w retries k endpoint path args params timeout Hpos Hk Hlim.
  pose proof (api_run_429
    (mkRequest GET (API_URL ++ "/" ++ endpoint) args params [] None timeout None)
    w retries k Hpos Hk Hlim) as [Hget1 Hget2].
  pose proof (api_run_429
    (mkRequest POST (API_URL ++ "/" ++ endpoint) args params [] None timeout None)
    w retries k Hpos Hk Hlim) as [Hpost1 Hpost2].
  split; [|split].
  - intros j Hans. split; [apply Hget1 | apply Hpost1]; exact Hans.
  - intros Hkeq Hlast. split; [apply Hget2 | apply Hpost2]; assumption.
  - apply web_post_429.
Qed.

(** ** Session restore *)

Lemma for_each_frame {A} (f : A -> M unit) items :
  (forall x w, exists w', f x w = (Ok tt, w')
     /\ is_authenticated w' = is_authenticated w /\ n_calls w' = n_calls w
     /\ trace w' = trace w) ->
  forall w,
  exists w',
    for_each f items w = (Ok tt, w')
    /\ is_authenticated w' = is_authenticated w /\ n_calls w' = n_calls w
    /\ trace w' = trace w.
Proof.
  intros Hf.
  induction items as [|x items IH]; intros w; simpl.
  - exists w. auto.
  - unfold bind. destruct (Hf x w) as (w1 & -> & Ha & Hc & Ht).
    destruct (IH w1) as (w' & Hrun & Ha' & Hc' & Ht').
    exists w'. split; [exact Hrun|]. repeat split; congruence.
Qed.

Lemma set_ajax_headers_frame w :
  exists w',
    _set_ajax_headers w = (Ok tt, w')
    /\ is_authenticated w' = is_authenticated w /\ n_calls w' = n_calls w
    /\ trace w' = trace w.
Proof.
  destruct (refresh_csrf_spec w)
    as (wr & Hrun & _ & Htr & Hcalls & _ & _ & _ & Hauth & _).
  unfold _set_ajax_headers. unfold_monad. rewrite Hrun. simpl.
  eexists. split; [reflexivity|]. simpl. auto.
Qed.

(** The probe never raises and does not touch the flag.  When the jar
    holds values a header can carry, it sends its one request and says yes
    exactly on a successful answer to it; otherwise it sends nothing and
    says no. *)
Lemma verify_session_exact w :
  let rq := probe_request (headers w) in
  let fit := forallb header_value (cookies w) in
  exists w',
    _verify_session E w = (Ok (fit && probe_ok (net E (n_calls w) rq)), w')
    /\ is_authenticated w' = is_authenticated w
    /\ trace w' = trace w ++ (if fit then [EvRequest rq] else []).
Proof.
  intros rq fit. subst fit.
  unfold _verify_session, session_get, send. unfold_monad. unfold resp_json.
  destruct (forallb header_value (cookies w)); simpl.
  2:{ eexists. split; [reflexivity|]. by rewrite app_nil_r. }
  fold (probe_request (headers w)). fold rq.
  destruct (net E (n_calls w) rq) as [|a] eqn:Hnet; simpl.
  { eexists. repeat split; reflexivity. }
  destruct (status_code a =? 200) eqn:Hst; simpl.
  2:{ eexists. repeat split; reflexivity. }
  destruct (body a) as [data|] eqn:Hbody; simpl.
  2:{ eexists. repeat split; reflexivity. }
  destruct data as [| | | | |l|kv]; simpl; try (eexists; repeat split; reflexivity).
  destruct (dict_get kv "status") as [v|] eqn:Hstatus; simpl.
  - destruct (str_eq v "ok") eqn:Hok; simpl; eexists; repeat split; reflexivity.
  - eexists; repeat split; reflexivity.
Qed.

(** [load_session] never raises; it can only turn the flag on, and does so
    exactly when it returns [True].  It sends nothing or the probe alone,
    and it returns what the answer to the probe says. *)
Lemma load_session_spec filepath w :
  exists b w',
    load_session E filepath w = (Ok b, w')
    /\ is_authenticated w' = is_authenticated w || b
    /\ (requests_between w w' = [] /\ b = false
        \/ exists rq,
             requests_between w w' = [rq] /\ is_probe rq
             /\ b = probe_ok (net E (n_calls w) rq)).
Proof.
  assert (forall (w0 : World) (evs : list Event),
            is_authenticated w0 = is_authenticated w ->
            trace w0 = trace w -> requests_of evs = [] ->
            exists b w',
              (Ok false, with_trace (trace w0 ++ evs) w0) = (Ok b, w')
              /\ is_authenticated w' = is_authenticated w || b
              /\ (requests_between w w' = [] /\ b = false
                  \/ exists rq,
                       requests_between w w' = [rq] /\ is_probe rq
                       /\ b = probe_ok (net E (n_calls w) rq)))
    as Hfail.
  { intros w0 evs Hw0 Htr Hno. eexists false, _. split; [reflexivity|]. simpl.
    rewrite orb_false_r. split; [exact Hw0|]. left. split; [|reflexivity].
    unfold requests_between.
    rewrite (events_since_app w _ evs) by (simpl; by rewrite Htr). exact Hno. }
  unfold load_session. unfold_monad.
  destruct (files w !! filepath) as [content|].
  2:{ exists false, w. rewrite orb_false_r. split; [reflexivity|]. split; [reflexivity|].
      left. split; [|reflexivity]. unfold requests_between.
      by rewrite (events_since_app w w []) by (by rewrite app_nil_r). }
  destruct (json_load E content) as [data|]; simpl; [|by apply (Hfail w [_])].
  destruct (py_get data "cookies" (JObj [])) as [saved|]; simpl;
    [|by apply (Hfail (with_cookies [] w) [_])].
  destruct (py_items saved) as [items|]; simpl;
    [|by apply (Hfail (with_cookies [] w) [_])].
  match goal with
  | |- context [for_each ?f items ?w0] =>
      destruct (for_each_frame f items) with (w := w0) as (w1 & -> & Ha1 & Hc1 & Ht1)
  end.
  { intros x w0. eexists. split; [reflexivity|]. simpl. auto. }
  simpl in Ha1, Hc1, Ht1.
  destruct (py_get data "user_id" JNull) as [uid|]; simpl; [|by apply (Hfail w1 [_])].
  destruct (py_get data "username" JNull) as [uname|]; simpl;
    [|by apply (Hfail (with_user_id uid w1) [_])].
  destruct (py_get data "csrf_token" (JStr "")) as [tok|]; simpl;
    [|by apply (Hfail (with_username uname (with_user_id uid w1)) [_])].
  destruct (set_ajax_headers_frame
              (with_csrf_token tok (with_username uname (with_user_id uid w1))))
    as (w2 & -> & Ha2 & Hc2 & Ht2).
  simpl in Ha2, Hc2, Ht2.
  destruct (verify_session_exact w2) as (w3 & -> & Ha3 & Ht3).
  rewrite Hc2, Hc1 in *.
  set (rq := probe_request (headers w2)) in *.
  assert (is_probe rq) as Hprobe by (split; reflexivity).
  destruct (forallb header_value (cookies w2)); simpl.
  - destruct (probe_ok (net E (n_calls w) rq)) eqn:Hok; simpl.
    + eexists true, _. split; [reflexivity|]. simpl. rewrite orb_true_r.
      split; [reflexivity|]. right. exists rq. rewrite Hok.
      split; [|split; [exact Hprobe | reflexivity]].
      unfold requests_between.
      rewrite (events_since_app w _ ([EvRequest rq] ++ [EvLog Info "Sessao restaurada"]));
        [reflexivity|].
      simpl. rewrite Ht3, Ht2, Ht1, <- !app_assoc. reflexivity.
    + eexists false, _. split; [reflexivity|]. simpl. rewrite orb_false_r.
      split; [congruence|]. right. exists rq. rewrite Hok.
      split; [|split; [exact Hprobe | reflexivity]].
      unfold requests_between.
      rewrite (events_since_app w _ ([EvRequest rq] ++ [EvLog Warning "Sessao expirada"]));
        [reflexivity|].
      simpl. rewrite Ht3, Ht2, Ht1, <- !app_assoc. reflexivity.
  - eexists false, _. split; [reflexivity|]. simpl. rewrite orb_false_r.
    split; [congruence|]. left. split; [|reflexivity].
    unfold requests_between.
    rewrite (events_since_app w _ [EvLog Warning "Sessao expirada"]); [reflexivity|].
    simpl. rewrite Ht3, Ht2, Ht1, app_nil_r. reflexivity.
Qed.

(** C3 (as amended).  Restoring a snapshot never raises and sends at most
    one request, the probe.  It returns [True] exactly when the probe was
    sent and answered with a success, and it turns the flag on exactly
    then: after the call the flag is the flag of before or the value
    returned.  It never turns the flag off.  On a client that was not
    authenticated the flag is therefore the value returned: a snapshot
    whose probe does not succeed leaves it [False]. *)
Theorem restore_is_authenticated_only_by_the_probe :
  forall (filepath : string) (w : World),
    exists b w',
      load_session E filepath w = (Ok b, w')
      /\ is_authenticated w' = is_authenticated w || b
      /\ (requests_between w w' = [] /\ b = false
          \/ exists rq,
               requests_between w w' = [rq] /\ is_probe rq
               /\ b = probe_ok (net E (n_calls w) rq))
      /\ (is_authenticated w = false -> is_authenticated w' = b).
Proof.
  intros filepath w.
  destruct (load_session_spec filepath w) as (b & w' & Hrun & Hflag & Hprobe).
  exists b, w'. split; [exact Hrun|]. split; [exact Hflag|]. split; [exact Hprobe|].
  intros Hoff. rewrite Hoff in Hflag. exact Hflag.
Qed.

(** ** Write operations *)

(** A web-form call sends one request, under the header of the refresh,
    and its result is read off the answer to that request. *)
Lemma web_post_exact path args data timeout w :
  exists wr w' tail,
    _refresh_csrf w = (Ok tt, wr)
    /\ _web_post E path args data timeout w
       = (web_result
            (net E (n_calls w)
               (stamped (headers wr)
                  (mkRequest POST (BASE_URL ++ path) args data [] None timeout None))),
          w')
    /\ trace w'
       = trace w
         ++ EvRequest (stamped (headers wr)
                         (mkRequest POST (BASE_URL ++ path) args data [] None timeout None))
            :: tail
    /\ requests_of tail = [].
Proof.
  destruct (refresh_csrf_spec w) as (wr & Hrun & _ & Htr & Hcalls & _).
  exists wr.
  unfold _web_post. unfold bind at 1. rewrite Hrun.
  unfold session_post, send. unfold_monad. unfold raise_for_status, resp_json.
  rewrite Hcalls.
  set (rq := stamped (headers wr) _).
  destruct (net E (n_calls w) rq) as [|a]; simpl.
  { eexists _, [_]. split; [reflexivity|]. split; [reflexivity|].
    simpl. rewrite Htr, <- app_assoc. split; reflexivity. }
  destruct ((400 <=? status_code a) && (status_code a <? 600)); simpl.
  { eexists _, [_]. split; [reflexivity|]. split; [reflexivity|].
    simpl. rewrite Htr, <- app_assoc. split; reflexivity. }
  destruct (body a); simpl.
  - eexists _, []. split; [reflexivity|]. split; [reflexivity|].
    simpl. rewrite Htr. split; reflexivity.
  - eexists _, [_]. split; [reflexivity|]. split; [reflexivity|].
    simpl. rewrite Htr, <- app_assoc. split; reflexivity.
Qed.

Lemma requests_between_one w w' rq tail more :
  trace w' = (trace w ++ EvRequest rq :: tail) ++ more ->
  requests_of tail = [] -> requests_of more = [] ->
  requests_between w w' = [rq].
Proof.
  intros Htr Htail Hmore. unfold requests_between.
  rewrite (events_since_app w w' ((EvRequest rq :: tail) ++ more))
    by (by rewrite Htr, <- app_assoc).
  rewrite requests_of_app. simpl. by rewrite Htail, Hmore.
Qed.

(** Through a write operation: the web-form call, then the reading of
    the answer, case by case. *)
Ltac write_by_token :=
  unfold writes_by_token, write_request; cbv zeta;
  let wr := fresh "wr" in
  let w1 := fresh "w1" in
  let tail := fresh "tail" in
  let Href := fresh "Href" in
  let Hrun := fresh "Hrun" in
  let Htr := fresh "Htr" in
  let Htail := fresh "Htail" in
  let j := fresh "j" in
  let kv := fresh "kv" in
  unfold_monad;
  match goal with
  | |- context [_web_post ?E ?p ?a ?d ?t ?w] =>
      destruct (web_post_exact p a d t w) as (wr & w1 & tail & Href & Hrun & Htr & Htail)
  end;
  rewrite Href; cbn [snd];
  rewrite Hrun; unfold reply_holds;
  match goal with
  | |- context [web_result ?ans] => destruct (web_result ans) as [j|]
  end;
  cbn [fst snd];
  [ destruct j as [| | | | | |kv]; simpl;
    repeat match goal with
           | |- context [dict_get kv ?k] => destruct (dict_get kv k) eqn:?; simpl
           end;
    repeat match goal with
           | |- context [if ?c then _ else _] => destruct c eqn:?; simpl
           end
  | simpl ];
  (eexists; split; [reflexivity|]);
  first [ apply (requests_between_one _ _ _ tail []);
          [by rewrite app_nil_r | assumption | reflexivity]
        | eapply (requests_between_one _ _ _ tail [_]);
          [simpl; rewrite Htr; reflexivity | assumption | reflexivity] ].

Lemma user_follow_spec uid w :
  writes_by_token E w (user_follow E uid) "/web/friendships/{}/follow/" [uid] []
    follow_token.
Proof. unfold user_follow. write_by_token. Qed.

Lemma user_unfollow_spec uid w :
  writes_by_token E w (user_unfollow E uid) "/web/friendships/{}/unfollow/" [uid] []
    ok_token.
Proof. unfold user_unfollow. write_by_token. Qed.

Lemma media_like_spec media_id w :
  writes_by_token E w (media_like E media_id) "/web/likes/{}/like/" [media_id] []
    ok_token.
Proof. unfold media_like. write_by_token. Qed.

Lemma media_unlike_spec media_id w :
  writes_by_token E w (media_unlike E media_id) "/web/likes/{}/unlike/" [media_id] []
    ok_token.
Proof. unfold media_unlike. write_by_token. Qed.

Lemma media_comment_spec media_id text w :
  writes_by_token E w (media_comment E media_id text) "/web/comments/{}/add/" [media_id]
    [("comment_text", JStr text)] ok_token.
Proof. unfold media_comment. write_by_token. Qed.

(** C5.  Follow, unfollow, like, unlike and comment never raise.  Each
    sends one request, and returns [True] exactly when the answer to that
    request has a status that is not an error and is a JSON object whose
    [status] is [ok] (for a follow, also one whose [result] is
    [following]).  Every other answer, and no answer, gives [False]. *)
Theorem writes_succeed_only_on_a_success_token :
  forall (w : World) (uid media_id : json) (text : string),
    writes_by_token E w (user_follow E uid) "/web/friendships/{}/follow/" [uid] []
      follow_token
    /\ writes_by_token E w (user_unfollow E uid) "/web/friendships/{}/unfollow/" [uid] []
         ok_token
    /\ writes_by_token E w (media_like E media_id) "/web/likes/{}/like/" [media_id] []
         ok_token
    /\ writes_by_token E w (media_unlike E media_id) "/web/likes/{}/unlike/" [media_id] []
         ok_token
    /\ writes_by_token E w (media_comment E media_id text) "/web/comments/{}/add/"
         [media_id] [("comment_text", JStr text)] ok_token.
Proof.
  intros w uid media_id text.
  split; [apply user_follow_spec|].
  split; [apply user_unfollow_spec|].
  split; [apply media_like_spec|].
  split; [apply media_unlike_spec | apply media_comment_spec].
Qed.

(** ** Uploads *)

Lemma missing_file_run w :
  returned_none_offline w
    (Ok None, with_trace (trace w ++ [EvLog Error "Arquivo nao encontrado"]) w).
Proof.
  unfold returned_none_offline. simpl. split; [reflexivity|]. split; [|reflexivity].
  by rewrite (events_since_app w _ [EvLog Error "Arquivo nao encontrado"]).
Qed.

Lemma missing_guard (rest : M (option json)) w path :
  files w !! path = None ->
  bind (path_exists path)
    (fun there =>
       if negb there
       then bind (log Error "Arquivo nao encontrado") (fun _ => ret None)
       else rest) w
  = (Ok None, with_trace (trace w ++ [EvLog Error "Arquivo nao encontrado"]) w).
Proof.
  intros Hmissing. unfold path_exists. unfold_monad. rewrite Hmissing. reflexivity.
Qed.

(** C9.  Called with a path at which there is no file, each of the five
    upload entry points returns [None]: it does not raise and no request
    leaves. *)
Theorem uploads_of_a_missing_file_return_none :
  forall (w : World) (path caption : string) (thumbnail_path : option string),
    files w !! path = None ->
    returned_none_offline w (photo_upload E path caption w)
    /\ returned_none_offline w (video_upload E path caption thumbnail_path w)
    /\ returned_none_offline w (photo_upload_to_story E path caption w)
    /\ returned_none_offline w (video_upload_to_story E path caption thumbnail_path w)
    /\ returned_none_offline w (clip_upload E path caption thumbnail_path w).
Proof.
  intros w path caption thumbnail_path Hmissing.
  unfold photo_upload, video_upload, photo_upload_to_story, video_upload_to_story,
    clip_upload.
  rewrite !(missing_guard _ w path Hmissing).
  repeat split; apply missing_file_run.
Qed.










(** *** What a publish sends, whatever the platform answers *)

Lemma wp_random_randint (Q : res Z -> World -> Prop) w :
  Q (Ok (randint E (n_draws w))) (with_n_draws (S (n_draws w)) w) ->
  wp (random_randint E) Q w.
Proof. exact id. Qed.

Lemma wp_uuid_uuid4 (Q : res string -> World -> Prop) w :
  Q (Ok (uuid4 E (n_draws w))) (with_n_draws (S (n_draws w)) w) ->
  wp (uuid_uuid4 E) Q w.
Proof. exact id. Qed.

Lemma sent_under_refl uid w : sent_under uid [] w w.
Proof. exists []. split; [by rewrite app_nil_r|]. split; [reflexivity | constructor]. Qed.

Lemma sent_under_trans uid p1 p2 w w1 w2 :
  sent_under uid p1 w w1 -> sent_under uid p2 w1 w2 -> sent_under uid (p1 ++ p2) w w2.
Proof.
  intros (e1 & Ht1 & Hp1 & Hi1) (e2 & Ht2 & Hp2 & Hi2). exists (e1 ++ e2).
  split; [by rewrite Ht2, Ht1, app_assoc|].
  rewrite requests_of_app, map_app, Hp1, Hp2. split; [reflexivity|].
  apply Forall_app. auto.
Qed.

Lemma sent_under_between uid phases w w' :
  sent_under uid phases w w' ->
  map phase_of (requests_between w w') = phases
  /\ Forall (fun rq => rq_upload_id rq = Some uid) (requests_between w w').
Proof.
  intros (evs & Htr & Hph & Hid). unfold requests_between.
  rewrite (events_since_app w w' evs Htr). auto.
Qed.

(** One step through the text of a pipeline; a file that is known to be
    there is found. *)
Ltac known_file :=
  match goal with
  | H : files _ !! ?p = Some _ |- context [files ?w0 !! ?p] =>
      let f := eval simpl in (files w0) in
      progress (change (files w0) with f; rewrite H)
  | |- context [files ?w0 !! ?p] =>
      let f := eval simpl in (files w0) in
      progress (change (files w0) with f; rewrite lookup_insert_eq)
  end.

Ltac up_step :=
  cbv beta iota;
  first
    [ known_file
    | lazymatch goal with
      | |- wp (random_randint _) _ _ => apply wp_random_randint
      | |- wp (uuid_uuid4 _) _ _ => apply wp_uuid_uuid4
      | |- _ => wp_step
      end ].

(** A run whose trace is known sent what its requests show. *)
Ltac sent_tac :=
  eexists; split; [trace_eq|]; split; [reflexivity | repeat constructor].

(** The transfer of a video that is there sends the initialization and,
    when that is answered, the bytes; it changes no file and does not read
    the clock. *)
Lemma upload_video_binary_run path uid info is_clips is_story data w :
  files w !! path = Some data ->
  wp (_upload_video_binary E path uid info is_clips is_story)
    (fun r w' =>
       files w' = files w /\ n_ticks w' = n_ticks w
       /\ (sent_under uid [VideoInit; VideoTransfer] w w'
           \/ sent_under uid [VideoInit] w w' /\ r <> Ok true)) w.
Proof.
  intros Hfile. unfold _upload_video_binary, read_file. cbv zeta.
  repeat up_step.
  all: split; [reflexivity|]; split; [reflexivity|].
  all: first [ left; sent_tac | right; split; [sent_tac | discriminate] ].
Qed.

(** The transfer of a photo sends one request when the file is there and
    none when it is not. *)
Lemma upload_photo_binary_run path uid is_story w :
  wp (_upload_photo_binary E path uid is_story)
    (fun r w' =>
       files w' = files w /\ n_ticks w' = n_ticks w
       /\ match files w !! path with
          | Some _ => sent_under uid [PhotoTransfer] w w'
          | None => sent_under uid [] w w' /\ r = Raise OSError
          end) w.
Proof.
  unfold _upload_photo_binary, read_file. cbv zeta.
  repeat up_step.
  all: split; [reflexivity|]; split; [reflexivity|].
  all: first [ sent_tac | split; [sent_tac | reflexivity] ].
Qed.

(** Step 2 sends the thumbnail or nothing. *)
Lemma thumbnail_step_run video_path thumbnail_path uid is_story w :
  wp (thumbnail_step E video_path thumbnail_path uid is_story)
    (fun r w' =>
       n_ticks w' = n_ticks w
       /\ (sent_under uid [PhotoTransfer] w w' \/ sent_under uid [] w w')) w.
Proof.
  unfold thumbnail_step, _extract_thumbnail, _upload_photo_binary, read_file, path_exists.
  cbv zeta.
  repeat up_step.
  all: split; [reflexivity|].
  all: first [ left; sent_tac | right; sent_tac ].
Qed.


Lemma and_swap (A B : Prop) : B /\ A -> A /\ B.
Proof. tauto. Qed.

Lemma wp_quiet {A} (m : M A) (P : res A -> Prop) (Q : res A -> World -> Prop) w :
  quiet_run w (m w) -> P (fst (m w)) ->
  (forall r w', quiet_run w (r, w') -> P r -> Q r w') ->
  wp m Q w.
Proof. unfold wp. destruct (m w) as [r w']. intros Hq HP HQ. by apply HQ. Qed.

Ltac quiet_tac :=
  eexists; split; [trace_eq|]; split; [reflexivity|]; split; reflexivity.

(** Reading ffprobe sends nothing and returns. *)
Lemma get_video_info_quiet video_path w :
  quiet_run w (_get_video_info E video_path w)
  /\ exists info, fst (_get_video_info E video_path w) = Ok info.
Proof.
  unfold _get_video_info. unfold_monad.
  destruct (ffprobe E video_path); simpl; (split; [quiet_tac | eauto]).
Qed.

(** Reading the answer of a configure call sends nothing. *)
Lemma configured_quiet r a b c w :
  quiet_run w (configured_with_media r a b c w)
  /\ quiet_run w (configured_story r a b c w).
Proof.
  unfold configured_with_media, configured_story, resp_json. unfold_monad.
  split.
  - destruct (status_code r =? 200); simpl; [|quiet_tac].
    destruct (body r) as [result|]; simpl; [|quiet_tac].
    destruct (py_get result "status" JNull) as [status|]; simpl; [|quiet_tac].
    destruct (str_eq status "ok"); simpl; [|quiet_tac].
    destruct (py_get result "media" (JObj [])) as [media|]; simpl; [|quiet_tac].
    destruct (py_get media "code" (JStr "")); simpl; quiet_tac.
  - destruct (status_code r =? 200); simpl; [|quiet_tac].
    destruct (body r) as [result|]; simpl; [|quiet_tac].
    destruct (py_get result "status" JNull) as [status|]; simpl; [|quiet_tac].
    destruct (str_eq status "ok"); simpl; quiet_tac.
Qed.

(** The warning of a video that is too long sends nothing. *)
Lemma length_warning_quiet (limit d : Q) msg w :
  quiet_run w ((if Qlt_le_dec limit d then log Warning msg else ret tt) w).
Proof. destruct (Qlt_le_dec limit d); unfold_monad; simpl; quiet_tac. Qed.

Ltac open_quiet H :=
  let evs := fresh "evs" in
  let Htr := fresh "Htr" in
  let Hno := fresh "Hno" in
  let Hfiles := fresh "Hfiles" in
  let Hticks := fresh "Hticks" in
  destruct H as (evs & Htr & Hno & Hfiles & Hticks);
  simpl in Htr, Hfiles, Hticks.

Ltac file_tac :=
  simpl;
  repeat match goal with
         | H : files _ = files _ |- _ => rewrite H; clear H; simpl
         end;
  eassumption.

(** Through a pipeline: the transfers and the quiet steps by their
    lemmas, the rest step by step. *)
Ltac pub_step :=
  cbv beta iota;
  lazymatch goal with
  | |- wp (_upload_video_binary _ _ _ _ _ _) _ _ =>
      eapply wp_mono;
      [ eapply upload_video_binary_run; file_tac
      | intros [[|]|?] ? (_ & _ & ?) ]
  | |- wp (_upload_photo_binary _ _ _ _) _ _ =>
      eapply wp_mono;
      [ apply upload_photo_binary_run
      | intros [[|]|?] ? (_ & _ & ?) ]
  | |- wp (thumbnail_step _ _ _ _ _) _ _ =>
      eapply wp_mono;
      [ apply thumbnail_step_run
      | intros [?|?] ? (_ & ?) ]
  | |- wp (_get_video_info ?E ?p) _ ?w =>
      let Hq := fresh "Hq" in
      apply (wp_quiet _ (fun r => exists info, r = Ok info));
      [ apply get_video_info_quiet | apply get_video_info_quiet
      | intros ? ? Hq [? ->]; open_quiet Hq ]
  | |- wp (configured_with_media _ _ _ _) _ _ =>
      let Hq := fresh "Hq" in
      apply (wp_quiet _ (fun _ => True));
      [ apply configured_quiet | exact I | intros [?|?] ? Hq _; open_quiet Hq ]
  | |- wp (configured_story _ _ _ _) _ _ =>
      let Hq := fresh "Hq" in
      apply (wp_quiet _ (fun _ => True));
      [ apply configured_quiet | exact I | intros [?|?] ? Hq _; open_quiet Hq ]
  | |- wp (if Qlt_le_dec _ _ then log _ _ else ret tt) _ _ =>
      let Hq := fresh "Hq" in
      apply (wp_quiet _ (fun r => r = Ok tt));
      [ apply length_warning_quiet
      | destruct (Qlt_le_dec _ _); reflexivity
      | intros ? ? Hq ->; open_quiet Hq ]
  | |- _ => up_step
  end.

Ltac open_sent :=
  repeat match goal with
         | H : refreshed _ _ |- _ =>
             let Htr := fresh "Htr" in
             destruct H as (_ & Htr & _); simpl in Htr
         | H : match files ?w0 !! ?p with _ => _ end |- _ =>
             let f := eval simpl in (files w0) in
             change (files w0) with f in H;
             rewrite ?lookup_insert_eq in H;
             repeat match goal with
                    | Hf : files _ = files _ |- _ => rewrite Hf in H; simpl in H
                    end;
             match goal with
             | Hf : files _ !! p = Some _ |- _ => rewrite Hf in H
             end
         | H : _ \/ _ |- _ => destruct H
         | H : _ /\ _ |- _ => destruct H
         | H : sent_under _ _ _ _ |- _ =>
             let evs := fresh "evs" in
             let Htr := fresh "Htr" in
             let Hph := fresh "Hph" in
             let Hid := fresh "Hid" in
             destruct H as (evs & Htr & Hph & Hid); simpl in Htr
         end;
  try match goal with
      | H : Ok true <> Ok true |- _ => exfalso; apply H; reflexivity
      | H : Ok _ = Raise _ |- _ => discriminate H
      end.

(** The phases of a trace made of known requests and of stretches whose
    phases are known. *)
Ltac phases_eq :=
  lazymatch goal with
  | |- ?lhs = _ =>
      let t := fresh "t" in
      let Ht := fresh "Ht" in
      set (t := lhs);
      assert (Ht : t = lhs) by reflexivity;
      clearbody t;
      rewrite ?requests_of_app, ?map_app in Ht;
      repeat match goal with
             | H : requests_of _ = [] |- _ => rewrite H in Ht; clear H
             | H : map phase_of (requests_of _) = _ |- _ => rewrite H in Ht; clear H
             end;
      exact Ht
  end.

Ltac ids_all :=
  rewrite ?requests_of_app;
  repeat match goal with
         | H : requests_of _ = [] |- _ => rewrite H; clear H
         end;
  repeat first [ assumption
               | apply Forall_nil_2
               | apply Forall_app_2
               | apply Forall_cons_2; [reflexivity|] ].

Ltac sent_goal :=
  eexists; split; [trace_eq|]; split; [phases_eq | ids_all].

(** Every entry point, called with a file that is there, returns without
    raising, and every request of the run carries the upload id that was
    derived from the clock at the start; the first request leaves whatever
    the platform answers. *)
Lemma publish_run p path caption thumbnail_path data w :
  files w !! path = Some data ->
  wp (publish E p path caption thumbnail_path)
    (fun r w' =>
       (exists result, r = Ok result)
       /\ exists phases,
            phases <> [] /\ sent_under (upload_id_of (clock E (n_ticks w))) phases w w') w.
Proof.
  intros Hfile.
  destruct p; unfold publish;
    [ unfold photo_upload | unfold video_upload | unfold photo_upload_to_story
    | unfold video_upload_to_story | unfold clip_upload ];
    unfold path_exists, new_upload_id; cbv zeta.
  all: repeat pub_step.
  all: open_sent.
  all: (split; [eexists; reflexivity|]).
  all: eexists; apply and_swap; (split; [sent_goal|]).
  all: simpl; discriminate.
Qed.



















(** ** Upload ids *)

Lemma string_of_Z_inj a b : string_of_Z a = string_of_Z b -> a = b.
Proof.
  unfold string_of_Z. intros H.
  apply (f_equal NilEmpty.int_of_string) in H. rewrite !NilEmpty.isi in H.
  injection H as H. by apply DecimalZ.to_int_inj.
Qed.

Lemma published_of_run uid w (run : res (option json) * World) :
  ((exists result, fst run = Ok result)
   /\ exists phases, phases <> [] /\ sent_under uid phases w (snd run)) ->
  published_under uid w run.
Proof.
  intros (Hres & phases & Hne & Hsent).
  apply sent_under_between in Hsent as [Hph Hid].
  split; [exact Hres|]. split; [|exact Hid].
  intros Hnone. rewrite Hnone in Hph. apply Hne. by rewrite <- Hph.
Qed.

(** C4 (as amended).  The upload id of a publish, whichever of the five
    entry points it is, is [str(int(time.time() * 1000))] of the clock
    reading taken when the pipeline starts, and every request of the
    publish carries it.  Two publishes issued back to back have different
    ids exactly when these numbers of milliseconds differ; two publishes
    whose readings give the same number share the id. *)
Theorem upload_ids_differ_exactly_by_the_millisecond :
  forall (p1 p2 : Publish) (path1 path2 caption1 caption2 : string)
         (thumb1 thumb2 : option string) (data1 data2 : list byte) (w : World),
    files w !! path1 = Some data1 ->
    let run1 := publish E p1 path1 caption1 thumb1 w in
    files (snd run1) !! path2 = Some data2 ->
    let run2 := publish E p2 path2 caption2 thumb2 (snd run1) in
    let t1 := clock E (n_ticks w) in
    let t2 := clock E (n_ticks (snd run1)) in
    published_under (upload_id_of t1) w run1
    /\ published_under (upload_id_of t2) (snd run1) run2
    /\ (upload_id_of t1 = upload_id_of t2 <-> ms_of t1 = ms_of t2).
Proof.
  intros p1 p2 path1 path2 caption1 caption2 thumb1 thumb2 data1 data2 w Hfile1
    run1 Hfile2 run2 t1 t2.
  split; [apply published_of_run; exact (publish_run _ _ _ _ _ _ Hfile1)|].
  split; [apply published_of_run; exact (publish_run _ _ _ _ _ _ Hfile2)|].
  unfold upload_id_of, ms_of. split; [apply string_of_Z_inj | congruence].
Qed.

(** ** Paged listings *)

Lemma py_take_length {A} (amount : Z) (l : list A) :
  0 <= amount -> Z.of_nat (length (py_take amount l)) <= amount.
Proof.
  intros Hpos. unfold py_take.
  assert ((amount <? 0) = false) as -> by lia.
  rewrite length_firstn. lia.
Qed.







(** ** The gated actions *)

Section Gate.

Context (cfg : Config).

(** At the ceiling both actions answer [False] and leave the whole state
    as it was: no request, no change of a counter. *)
Lemma gate_declines uname src post_url b :
  (can_perform (rate_limiter b) "follows" (MAX_FOLLOWS_PER_HOUR cfg) = false ->
   follow_user E cfg uname src b = (Ok false, b))
  /\ (can_perform (rate_limiter b) "likes" (MAX_LIKES_PER_HOUR cfg) = false ->
      like_post E cfg post_url b = (Ok false, b)).
Proof.
  split; intros Hfull; [unfold follow_user | unfold like_post];
    unfold_monad; rewrite Hfull; reflexivity.
Qed.

(** [follow_user] never raises and records a follow exactly when it
    returns [True], that is after [user_follow] returned [True]. *)
Lemma follow_user_records_its_successes uname src b :
  exists r b',
    follow_user E cfg uname src b = (Ok r, b')
    /\ rate_limiter b'
       = if r then record_action (rate_limiter b) "follows" else rate_limiter b.
Proof.
  unfold follow_user, on_client, save_data, on_client, time_time. unfold_monad.
  destruct (can_perform _ _ _); simpl; [|by eexists false, _].
  destruct (followed_users b !! uname) as [p|]; simpl.
  - destruct (truthy (unfollowed_at p)); simpl; [|by eexists false, _].
    destruct (get_user_info E uname (cl b)) as [[[info|]|e] w1]; simpl;
      try (by eexists false, _).
    destruct (user_follow E (pk info) w1) as [[[|]|e] w2]; simpl;
      try (by eexists false, _).
    by eexists true, _.
  - destruct (get_user_info E uname (cl b)) as [[[info|]|e] w1]; simpl;
      try (by eexists false, _).
    destruct (user_follow E (pk info) w1) as [[[|]|e] w2]; simpl;
      try (by eexists false, _).
    by eexists true, _.
Qed.

(** A recorded action keeps the counter within the ceiling it was
    permitted under. *)
Lemma record_within_ceiling rl kind ceiling :
  can_perform rl kind ceiling = true ->
  rl_count (record_action rl kind) kind <= ceiling.
Proof.
  unfold can_perform, record_action, rl_count. intros Hcan.
  rewrite lookup_insert_eq. simpl. lia.
Qed.

(** [like_post] records a like whenever the post resolves to a media id:
    the result of [media_like] is not looked at. *)
Lemma like_post_records_whatever_the_like post_url b media_id w1 liked w2 :
  can_perform (rate_limiter b) "likes" (MAX_LIKES_PER_HOUR cfg) = true ->
  media_pk_from_url E post_url (cl b) = (Ok media_id, w1) ->
  truthy media_id = true ->
  media_like E media_id w1 = (Ok liked, w2) ->
  exists b',
    like_post E cfg post_url b = (Ok true, b')
    /\ rate_limiter b' = record_action (rate_limiter b) "likes".
Proof.
  intros Hcan Hid Htruthy Hlike.
  unfold like_post, on_client. unfold_monad.
  rewrite Hcan. simpl. rewrite Hid. simpl. rewrite Htruthy. simpl.
  rewrite Hlike. simpl. eexists. split; reflexivity.
Qed.

End Gate.

End ClientFacts.

(** Witness of C1: with two retries and a platform that answers 429 to
    everything, [_api_get] waits 30 and 60 seconds and gives up after the
    third request. *)
Lemma api_calls_retry_429_witness :
  observed fresh (_api_get env_429 "users/web_profile_info/" [] [] 15 2 fresh)
  = (Raise (HTTPError 429), [30; 60], 3%nat).
Proof.
  assert (forall i, rate_limited env_429 i) as Hall.
  { intros i rq. eexists. split; reflexivity. }
  destruct (api_calls_retry_429_web_post_does_not env_429 fresh 2 2
              "users/web_profile_info/" "/web/likes/{}/like/" [] [] 15)
    as (_ & Hexhausted & _).
  - lia.
  - simpl. lia.
  - intros i _. apply Hall.
  - exact (proj1 (Hexhausted eq_refl (Hall _))).
Defined.

(** Counterexample to C1 as stated: a web-form call that is answered 429
    sends one request, waits for nothing and raises; it is not retried. *)
Lemma web_post_is_not_retried :
  observed fresh (_web_post env_429 "/web/likes/{}/like/" [JStr "1"] [] 15 fresh)
  = (Raise (HTTPError 429), [], 1%nat)
  /\ ~ retried_with_backoff env_429 2
         (_web_post env_429 "/web/likes/{}/like/" [JStr "1"] [] 15) fresh.
Proof.
  split; [reflexivity|].
  intros Hretry.
  assert (forall i, rate_limited env_429 i) as Hall.
  { intros i rq. eexists. split; reflexivity. }
  specialize (Hretry (fun i _ => Hall _)).
  vm_compute in Hretry. discriminate Hretry.
Qed.

(** Witness of C6: of two CSRF cookies the later one stays and gives the
    header. *)
Lemma csrf_refreshed_witness :
  exists wr,
    _refresh_csrf rotated = (Ok tt, wr)
    /\ List.filter is_csrf (cookies wr)
       = [mkCookie "csrftoken" (JStr "xyz") "www.instagram.com" "/"]
    /\ headers wr !! "X-CSRFToken" = Some (JStr "xyz").
Proof.
  destruct (csrf_refreshed_before_every_call env_429 rotated)
    as (wr & Hrun & Hkept & _ & Hhdr & _).
  - unfold jar_wf. apply (bool_decide_unpack _). vm_compute. exact I.
  - exists wr. split; [exact Hrun|]. split; [exact Hkept|]. exact (proj1 Hhdr).
Defined.

(** Counterexample to C6 as stated: the refresh leaves one CSRF cookie,
    whose value is empty, and the header still holds the old token. *)
Lemma header_may_keep_a_stale_token :
  List.filter is_csrf (cookies (snd (_refresh_csrf stale)))
  = [mkCookie "csrftoken" (JStr "") "www.instagram.com" "/"]
  /\ headers (snd (_refresh_csrf stale)) !! "X-CSRFToken" = Some (JStr "old")
  /\ ~ header_carries_csrf_cookie (snd (_refresh_csrf stale)).
Proof.
  split; [reflexivity|]. split; [reflexivity|].
  intros H. specialize (H _ eq_refl). vm_compute in H. discriminate H.
Qed.

(** Counterexample to C3 as stated: a client that is authenticated
    restores a snapshot with expired cookies, whose probe is answered with
    HTTP 403.  The restore returns [False], and the flag is still on, over
    the jar of the snapshot. *)
Lemma restore_refused_leaves_the_flag_on :
  let E := env_snapshot expired_snapshot (NetResp (plain 403 None)) in
  let run := load_session E "./data/session.json" signed_in_with_session_file in
  fst run = Ok false
  /\ is_authenticated (snd run) = true
  /\ map c_value (cookies (snd run)) = [JStr "expired"; JStr "t0"]
  /\ ~ restore_leaves_unauthenticated E "./data/session.json" signed_in_with_session_file.
Proof.
  split; [reflexivity|]. split; [reflexivity|]. split; [reflexivity|].
  intros H. destruct H as [_ Hflag]; [intros rq _; reflexivity|].
  vm_compute in Hflag. discriminate Hflag.
Qed.

(** Witness of C3 (as amended): the same snapshot on a client that is not
    authenticated. *)
Lemma restore_expired_snapshot_witness :
  let E := env_snapshot expired_snapshot (NetResp (plain 403 None)) in
  exists b w',
    load_session E "./data/session.json" with_session_file = (Ok b, w')
    /\ is_authenticated w' = b.
Proof.
  intros E.
  destruct (restore_is_authenticated_only_by_the_probe E "./data/session.json"
              with_session_file) as (b & w' & Hrun & _ & _ & Hoff).
  exists b, w'. split; [exact Hrun | exact (Hoff eq_refl)].
Defined.

(** The same snapshot on a client that is not authenticated: one request,
    the probe, and the flag stays off. *)
Example restore_of_an_expired_snapshot :
  let E := env_snapshot expired_snapshot (NetResp (plain 403 None)) in
  let run := load_session E "./data/session.json" with_session_file in
  fst run = Ok false
  /\ is_authenticated (snd run) = false
  /\ map rq_url (requests_between with_session_file (snd run))
     = [(API_URL ++ "/accounts/edit/web_form_data/")%string].
Proof. repeat split; reflexivity. Qed.

(** A snapshot with a cookie whose value is a number: the probe raises
    while its header is built, so nothing is sent and the restore fails,
    whatever the platform would have answered. *)
Example restore_of_a_numeric_cookie :
  let E := env_snapshot numeric_snapshot
             (NetResp (plain 200 (Some (JObj [("status", JStr "ok")])))) in
  let run := load_session E "./data/session.json" with_session_file in
  fst run = Ok false
  /\ is_authenticated (snd run) = false
  /\ requests_between with_session_file (snd run) = []
  /\ map c_value (cookies (snd run)) = [JNum 5].
Proof. repeat split; reflexivity. Qed.

(** A quoted value loses its escaped quotes when it is set. *)
Example kept_value_of_a_quoted_string :
  kept_value (JStr (string_of_list_ascii
                      [dquote; "a"%char; backslash; dquote; "b"%char; dquote]))
  = JStr (string_of_list_ascii [dquote; "a"%char; "b"%char; dquote])
  /\ kept_value (JStr "plain") = JStr "plain"
  /\ kept_value (JNum 5) = JNum 5.
Proof. repeat split; reflexivity. Qed.

(** Witness of C9: in a process with no file, an upload of a video to the
    feed returns [None] and sends nothing. *)
Lemma upload_of_a_missing_file_witness :
  returned_none_offline fresh (video_upload env_429 "clip.mp4" "caption" None fresh).
Proof.
  exact (proj1 (proj2 (uploads_of_a_missing_file_return_none env_429 fresh
                         "clip.mp4" "caption" None eq_refl))).
Defined.



(** The same video on a platform that refuses every transfer: the
    pipeline stops after the transfer of the video. *)
Example feed_video_refused_stops_after_the_transfer :
  let E := env_of (fun _ _ => NetResp (plain 500 None)) (fun _ => 13600000001 # 8)
             (Probed 10 1080 1920) (fun _ => None) in
  let run := video_upload E "clip.mp4" "caption" None with_clip in
  fst run = Ok None
  /\ map phase_of (requests_between with_clip (snd run)) = [VideoInit; VideoTransfer].
Proof. split; vm_compute; reflexivity. Qed.


(** Counterexample to C4 as stated: two photos published back to back,
    the clock read at two different instants of the same millisecond (the
    first publish ends at once, its transfer being refused), and both
    transfers carry the upload id 1700000000125. *)
Lemma two_publishes_in_one_millisecond_share_the_id :
  let w1 := snd (photo_upload env_same_ms "a.jpg" "first" with_two_photos) in
  let w2 := snd (photo_upload env_same_ms "b.jpg" "second" w1) in
  ~ (clock env_same_ms 0 == clock env_same_ms 1)%Q
  /\ map rq_upload_id (requests_between with_two_photos w1)
     = [Some "1700000000125"%string]
  /\ map rq_upload_id (requests_between w1 w2)
     = [Some "1700000000125"%string].
Proof.
  split; [|split; vm_compute; reflexivity].
  unfold Qeq. simpl. lia.
Qed.

(** Witness of C4 (as amended): the same two publishes. *)
Lemma upload_ids_witness :
  published_under "1700000000125" with_two_photos
    (photo_upload env_same_ms "a.jpg" "first" with_two_photos)
  /\ published_under "1700000000125"
       (snd (photo_upload env_same_ms "a.jpg" "first" with_two_photos))
       (photo_upload env_same_ms "b.jpg" "second"
          (snd (photo_upload env_same_ms "a.jpg" "first" with_two_photos))).
Proof.
  destruct (upload_ids_differ_exactly_by_the_millisecond env_same_ms
              PhotoToFeed PhotoToFeed "a.jpg" "b.jpg" "first" "second" None None
              [x00] [x01] with_two_photos eq_refl eq_refl) as (H1 & H2 & _).
  split; [exact H1 | exact H2].
Defined.


(** C2, the defect: [like_post] on a post whose like the platform refuses
    (HTTP 200, [status: fail]).  [media_like] returns [False], yet
    [like_post] returns [True] and the counter of likes goes from 0 to 1. *)
Lemma like_post_records_a_refused_like :
  let url := "https://www.instagram.com/p/Cxyz_1-a/"%string in
  let resolved := media_pk_from_url env_like_refused url (cl idle_bot) in
  let run := like_post env_like_refused default_config url idle_bot in
  fst resolved = Ok (JStr "3141")
  /\ fst (media_like env_like_refused (JStr "3141") (snd resolved)) = Ok false
  /\ fst run = Ok true
  /\ rl_count (rate_limiter idle_bot) "likes" = 0
  /\ rl_count (rate_limiter (snd run)) "likes" = 1.
Proof. repeat split; vm_compute; reflexivity. Qed.

(** The sibling path: [follow_user] on a follow the platform refuses in
    the same way returns [False] and records nothing. *)
Lemma follow_user_does_not_record_a_refused_follow :
  let E := env_const (NetResp (plain 200 (Some (JObj
             [("data", JObj [("user", JObj [("id", JNum 7); ("username", JStr "alice")])]);
              ("status", JStr "fail")])))) in
  let run := follow_user E default_config "alice" "" idle_bot in
  fst run = Ok false
  /\ rl_count (rate_limiter (snd run)) "follows" = 0
  /\ length (requests_of (trace (cl (snd run)))) = 2%nat.
Proof. repeat split; vm_compute; reflexivity. Qed.

(** ** The model at work *)

Example follow_answered_ok :
  fst (user_follow (env_accepting ProbeFailed) (JNum 7) fresh) = Ok true.
Proof. reflexivity. Qed.

Example follow_answered_200_with_another_body :
  fst (user_follow (env_const (NetResp (plain 200 (Some (JObj [("status", JStr "fail")])))))
         (JNum 7) fresh) = Ok false
  /\ fst (user_follow (env_const (NetResp (plain 200 (Some (JList [])))))
            (JNum 7) fresh) = Ok false
  /\ fst (user_follow (env_const (NetResp (plain 200 None))) (JNum 7) fresh) = Ok false
  /\ fst (user_follow (env_const NetFail) (JNum 7) fresh) = Ok false.
Proof. repeat split; reflexivity. Qed.

Example api_get_answered_after_one_refusal :
  let E := env_net (fun i _ =>
             match i with
             | O => NetResp (plain 429 None)
             | _ => NetResp (plain 200 (Some (JObj [("status", JStr "ok")])))
             end) in
  observed fresh (_api_get E "feed/user/{}/story/" [JNum 7] [] 15 2 fresh)
  = (Ok (JObj [("status", JStr "ok")]), [30], 2%nat).
Proof. reflexivity. Qed.

Example paths_and_urls :
  rsplit_dot_head "videos/clip.final.mp4" = "videos/clip.final"%string
  /\ lower (splitext_ext "photos/IMG_1.PNG") = ".png"%string
  /\ splitext_ext "photos.d/.hidden" = ""%string
  /\ re_search "instagram.com/p/" "https://www.instagram.com/p/Cxyz_1-a/?igsh=1"
     = Some "Cxyz_1-a"%string
  /\ re_search "instagram.com/p/" "https://www.instagram.com/reel/Cxyz/" = None.
Proof. repeat split; reflexivity. Qed.

(** The reading 1700000000.001, that is the float nearest to it, lies
    below its millisecond, and the product of floats rounds it up. *)
Example upload_id_of_a_reading :
  let t := 3565158400002097 # 2097152 in
  int_of_float (t * inject_Z 1000) = 1700000000000
  /\ upload_id_of t = "1700000000001"%string
  /\ upload_id_of (13600000001 # 8) = "1700000000125"%string.
Proof. repeat split; vm_compute; reflexivity. Qed.

(** * More of the client *)

(** ** The CSRF refresh, once more *)

Lemma refreshed_jar_idem jar : refreshed_jar (refreshed_jar jar) = refreshed_jar jar.
Proof.
  unfold refreshed_jar at 1.
  destruct (refreshed_jar_csrf jar) as [-> | [c ->]]; reflexivity.
Qed.

Lemma world_eq (a b : World) :
  cookies a = cookies b -> headers a = headers b -> user_id a = user_id b ->
  username a = username b -> csrf_token a = csrf_token b ->
  is_authenticated a = is_authenticated b -> files a = files b ->
  n_calls a = n_calls b -> n_ticks a = n_ticks b -> n_draws a = n_draws b ->
  trace a = trace b -> a = b.
Proof. destruct a, b; simpl; intros; subst; reflexivity. Qed.

(** X3.  The CSRF refresh is idempotent: a second refresh right after a
    first one changes nothing, neither in the jar nor in the token and the
    header.  So the refresh that every helper runs before its request is
    harmless after the refresh of [_set_ajax_headers] or of a login. *)
Theorem refresh_csrf_twice_is_refresh_csrf_once :
  forall w : World,
    exists w1,
      _refresh_csrf w = (Ok tt, w1)
      /\ _refresh_csrf w1 = (Ok tt, w1)
      /\ (_refresh_csrf ;;; _refresh_csrf) w = _refresh_csrf w.
Proof.
  intros w.
  destruct (refresh_csrf_spec w)
    as (w1 & Hrun & Hjar & Htr & Hcalls & Hticks & Hdraws & Hfiles & Hauth & Huid & Hun & Hhdr).
  destruct (refresh_csrf_spec w1)
    as (w2 & Hrun2 & Hjar2 & Htr2 & Hcalls2 & Hticks2 & Hdraws2 & Hfiles2 & Hauth2
        & Huid2 & Hun2 & Hhdr2).
  assert (cookies w2 = cookies w1) as Hsame.
  { rewrite Hjar2, Hjar. apply refreshed_jar_idem. }
  assert (w2 = w1) as ->.
  { rewrite Hsame in Hhdr2.
    destruct (List.filter is_csrf (cookies w1)) as [|c [|c' cs]].
    - destruct Hhdr2. by apply world_eq.
    - destruct (truthy (c_value c)).
      + destruct Hhdr2 as [Hh2 Ht2], Hhdr as [Hh Ht].
        apply world_eq; try assumption.
        * rewrite Hh2, Hh. apply insert_insert_eq.
        * congruence.
      + destruct Hhdr2. by apply world_eq.
    - destruct Hhdr2. by apply world_eq. }
  exists w1. split; [exact Hrun|]. split; [exact Hrun2|].
  unfold bind. rewrite Hrun. exact Hrun2.
Qed.

Section MoreClientFacts.

Context (E : Env).

(** ** Logout *)

(** What a web-form call leaves: one request, sent with the header of the
    refresh, and the jar as the answer left it.  Nothing else of the client
    changes. *)
Lemma web_post_run path args data timeout w :
  exists wr rq r w',
    _refresh_csrf w = (Ok tt, wr)
    /\ rq = stamped (headers wr) (mkRequest POST (BASE_URL ++ path) args data [] None timeout None)
    /\ _web_post E path args data timeout w = (r, w')
    /\ requests_between w w' = [rq]
    /\ sleeps_of (events_since w w') = []
    /\ n_calls w' = S (n_calls w)
    /\ cookies w' = match net E (n_calls w) rq with
                    | NetFail => cookies wr
                    | NetResp a => jar_after a (cookies wr)
                    end
    /\ is_authenticated w' = is_authenticated w
    /\ user_id w' = user_id w /\ username w' = username w
    /\ files w' = files w /\ headers w' = headers wr /\ csrf_token w' = csrf_token wr
    /\ n_ticks w' = n_ticks w /\ n_draws w' = n_draws w.
Proof.
  destruct (refresh_csrf_spec w)
    as (wr & Hrun & Hjar & Htr & Hcalls & Hticks & Hdraws & Hfiles & Hauth & Huid & Hun & _).
  exists wr. eexists. 
  unfold _web_post. unfold bind at 1. rewrite Hrun.
  unfold session_post, send. unfold_monad. unfold raise_for_status, resp_json.
  rewrite Hcalls.
  set (rq := stamped (headers wr) _).
  unfold requests_between, events_since.
  destruct (net E (n_calls w) rq) as [|a] eqn:Hnet; simpl.
  - eexists _, _. split; [reflexivity|]. split; [reflexivity|]. split; [reflexivity|].
    simpl. rewrite Htr, <- !app_assoc, !drop_app_length. simpl.
    repeat split; auto. fold rq. by rewrite Hnet.
  - destruct ((400 <=? status_code a) && (status_code a <? 600)); simpl;
      [|destruct (body a); simpl];
      (eexists _, _; split; [reflexivity|]; split; [reflexivity|]; split; [reflexivity|];
       simpl; rewrite Htr, <- ?app_assoc, !drop_app_length; simpl;
       repeat split; auto; fold rq; by rewrite Hnet).
Qed.

(** X1.  [logout] never raises.  Whatever the platform answers, and also
    when the request does not reach it, the client is left not
    authenticated and without user id and username, after exactly one
    request: a POST to the logout path.  The jar is not emptied: its
    cookies are those the CSRF refresh and the answer left. *)
Theorem logout_always_ends_logged_out :
  forall w : World,
    exists w' rq,
      logout E w = (Ok tt, w')
      /\ is_authenticated w' = false /\ user_id w' = JNull /\ username w' = JNull
      /\ requests_between w w' = [rq]
      /\ rq_method rq = POST
      /\ rq_url rq = (BASE_URL ++ "/accounts/logout/ajax/")%string
      /\ cookies w' = match net E (n_calls w) rq with
                      | NetFail => refreshed_jar (cookies w)
                      | NetResp a => jar_after a (refreshed_jar (cookies w))
                      end.
Proof.
  intros w.
  destruct (web_post_run "/accounts/logout/ajax/" [] [("one_tap_app_login", JStr "0")] 15 w)
    as (wr & rq & r & w1 & Href & Hrq & Hrun & Hreqs & _ & _ & Hjar & _).
  destruct (refresh_csrf_spec w) as (wr' & Href' & Hjar' & _).
  rewrite Href in Href'. injection Href' as <-.
  unfold logout. unfold_monad. rewrite Hrun.
  exists (with_username JNull (with_user_id JNull (with_is_authenticated false w1))), rq.
  split; [destruct r; reflexivity|].
  repeat split; try reflexivity.
  - exact Hreqs.
  - rewrite Hrq. reflexivity.
  - rewrite Hrq. reflexivity.
  - simpl. rewrite Hjar, Hjar'. reflexivity.
Qed.

(** ** The budget of a call *)

(** Whatever the answers, the loop of a versioned-API call sends one
    request more than it waits, and its waits are 30 seconds times the
    numbers of the attempts that were refused with 429. *)
Lemma api_attempts_budget n : forall attempt retries rq w,
  retries - attempt + 1 = Z.of_nat n -> (0 < n)%nat ->
  exists k evs,
    (k < n)%nat
    /\ trace (snd (api_attempts E n attempt retries rq w)) = trace w ++ evs
    /\ sleeps_of evs = map (fun i => 30 * (attempt + Z.of_nat i)) (seq 1 k)
    /\ length (requests_of evs) = S k.
Proof.
  induction n as [|n IH]; intros attempt retries rq w Hn Hpos; [lia|].
  simpl. unfold_monad. unfold send, raise_for_status, resp_json. simpl.
  destruct (net E (n_calls w) (stamped (headers w) rq)) as [|a]; simpl.
  { exists 0%nat. eexists. split; [lia|]. simpl.
    split; [rewrite <- !app_assoc; reflexivity|]. split; reflexivity. }
  destruct ((400 <=? status_code a) && (status_code a <? 600)); simpl.
  - destruct ((status_code a =? 429) && (attempt <? retries)) eqn:Hagain; simpl.
    + apply andb_true_iff in Hagain as [_ Hlt]. apply Z.ltb_lt in Hlt.
      match goal with
      | |- context [api_attempts E n ?a' retries rq ?w1] =>
          destruct (IH a' retries rq w1) as (k & evs & Hk & Htr & Hsl & Hrq); [lia | lia |]
      end.
      exists (S k). eexists. split; [lia|]. rewrite Htr. simpl.
      split; [rewrite <- !app_assoc; reflexivity|].
      rewrite !sleeps_of_app, !requests_of_app. simpl. rewrite Hsl, Hrq.
      split; [|reflexivity].
      cbn [seq map]. f_equal; try lia. rewrite <- (seq_shift k 1), map_map.
      apply map_ext. intros i. lia.
    + exists 0%nat. eexists. split; [lia|]. simpl.
      split; [rewrite <- !app_assoc; reflexivity|]. split; reflexivity.
  - destruct (body a); simpl; exists 0%nat; eexists; (split; [lia|]); simpl;
      (split; [rewrite <- !app_assoc; reflexivity|]); split; reflexivity.
Qed.

Lemma api_run_budget rq retries w :
  0 <= retries ->
  exists k r,
    (k <= Z.to_nat retries)%nat
    /\ observed w (bind _refresh_csrf
                     (fun _ => api_attempts E (Z.to_nat (retries + 1)) 0 retries rq) w)
       = (r, backoff_waits k, S k).
Proof.
  intros Hpos.
  destruct (refresh_csrf_spec w) as (wr & Hrun & _ & Htr & _).
  unfold bind. rewrite Hrun.
  destruct (api_attempts_budget (Z.to_nat (retries + 1)) 0 retries rq wr)
    as (k & evs & Hk & Hevs & Hsl & Hrq); [lia | lia |].
  exists k. eexists. split; [lia|].
  unfold observed. rewrite (events_since_app w _ evs) by (rewrite Hevs, Htr; reflexivity).
  rewrite Hsl, Hrq. unfold backoff_waits. reflexivity.
Qed.

(** X2.  The budget of the three request helpers, whatever the platform
    answers.  With [retries >= 0] a call of [_api_get] or [_api_post] sends
    [k + 1] requests for some [k <= retries] and waits exactly 30, 60, ...,
    [30 * k] seconds in between; with a negative [retries] it sends
    nothing and returns [None].  A call of [_web_post] sends exactly one
    request and never waits. *)
Theorem request_helpers_stay_within_their_budget :
  forall (w : World) (endpoint path : string) (args : list json)
         (params : list (string * json)) (timeout retries : Z),
    (0 <= retries ->
       (exists k r, (k <= Z.to_nat retries)%nat
          /\ observed w (_api_get E endpoint args params timeout retries w)
             = (r, backoff_waits k, S k))
       /\ (exists k r, (k <= Z.to_nat retries)%nat
          /\ observed w (_api_post E endpoint args params timeout retries w)
             = (r, backoff_waits k, S k)))
    /\ (retries < 0 ->
        observed w (_api_get E endpoint args params timeout retries w) = (Ok JNull, [], 0%nat)
        /\ observed w (_api_post E endpoint args params timeout retries w)
           = (Ok JNull, [], 0%nat))
    /\ (exists r, observed w (_web_post E path args params timeout w) = (r, [], 1%nat)).
Proof.
  intros w endpoint path args params timeout retries.
  split; [|split].
  - intros Hpos. split; apply api_run_budget; exact Hpos.
  - intros Hneg.
    destruct (refresh_csrf_spec w) as (wr & Hrun & _ & Htr & _).
    unfold _api_get, _api_post, bind. rewrite Hrun.
    assert (Z.to_nat (retries + 1) = 0%nat) as -> by lia. simpl.
    unfold observed, ret. simpl.
    rewrite (events_since_app w wr []) by (rewrite Htr, app_nil_r; reflexivity).
    split; reflexivity.
  - destruct (web_post_run path args params timeout w)
      as (wr & rq & r & w' & _ & _ & Hrun & Hreqs & Hsl & _).
    exists r. unfold observed. rewrite Hrun. simpl.
    unfold requests_between in Hreqs. rewrite Hreqs, Hsl. reflexivity.
Qed.

(** ** Profiles *)

Lemma api_attempts_called n : forall attempt retries rq w,
  called w (snd (api_attempts E n attempt retries rq w))
  /\ (n_calls w <= n_calls (snd (api_attempts E n attempt retries rq w)))%nat.
Proof.
  induction n as [|n IH]; intros attempt retries rq w.
  { simpl. unfold called. auto 10. }
  simpl. unfold_monad. unfold send, raise_for_status, resp_json. simpl.
  destruct (net E (n_calls w) (stamped (headers w) rq)) as [|a]; simpl.
  { unfold called. simpl. auto 10. }
  destruct ((400 <=? status_code a) && (status_code a <? 600)); simpl.
  - destruct ((status_code a =? 429) && (attempt <? retries)); simpl.
    + match goal with
      | |- context [api_attempts E n ?a' retries rq ?w1] =>
          destruct (IH a' retries rq w1) as [Hc Hn]
      end.
      simpl in Hn. split; [|lia]. unfold called in *. simpl in Hc. exact Hc.
    + unfold called. simpl. auto 10.
  - destruct (body a); unfold called; simpl; auto 10.
Qed.

(** The rule of a versioned-API call with the default of two retries. *)
Lemma wp_api_run rq (Q : res json -> World -> Prop) w :
  (forall r wr w' k evs,
      refreshed w wr -> called wr w' -> (k <= 2)%nat ->
      trace w' = trace w ++ evs -> length (requests_of evs) = S k ->
      Q r w') ->
  wp (bind _refresh_csrf (fun _ => api_attempts E (Z.to_nat (2 + 1)) 0 2 rq)) Q w.
Proof.
  intros HQ. apply wp_bind. apply wp_refresh_csrf. intros wr Href.
  destruct (api_attempts_budget (Z.to_nat (2 + 1)) 0 2 rq wr)
    as (k & evs & Hk & Hevs & _ & Hrq); [lia | lia |].
  destruct (api_attempts_called (Z.to_nat (2 + 1)) 0 2 rq wr) as [Hc _].
  unfold wp. apply (HQ _ wr _ k evs); auto.
  - change (Z.to_nat (2 + 1)) with 3%nat in Hk. lia.
  - rewrite Hevs. destruct Href as (_ & -> & _). reflexivity.
Qed.

Lemma wp_api_get endpoint args params timeout (Q : res json -> World -> Prop) w :
  (forall r wr w' k evs,
      refreshed w wr -> called wr w' -> (k <= 2)%nat ->
      trace w' = trace w ++ evs -> length (requests_of evs) = S k ->
      Q r w') ->
  wp (_api_get E endpoint args params timeout 2) Q w.
Proof. apply wp_api_run. Qed.

Lemma wp_api_post endpoint args data timeout (Q : res json -> World -> Prop) w :
  (forall r wr w' k evs,
      refreshed w wr -> called wr w' -> (k <= 2)%nat ->
      trace w' = trace w ++ evs -> length (requests_of evs) = S k ->
      Q r w') ->
  wp (_api_post E endpoint args data timeout 2) Q w.
Proof. apply wp_api_run. Qed.

Ltac wp_api :=
  cbv beta iota;
  lazymatch goal with
  | |- wp (_api_get _ _ _ _ _ 2) _ _ =>
      apply wp_api_get; intros [?|?] ? ? ? ? ? ? ? ? ?
  | |- wp (_api_post _ _ _ _ _ 2) _ _ =>
      apply wp_api_post; intros [?|?] ? ? ? ? ? ? ? ? ?
  end.

Ltac open_called :=
  repeat match goal with
         | H : called _ _ |- _ => destruct H as (? & ? & ? & ? & ? & ? & ? & ?)
         end.

(** X7.  [get_user_info] never raises and sends between one and three
    requests.  The profile it returns has an integer as [pk].  The call
    changes nothing of the session: the flag, the user id and the username
    of the client are as before. *)
Theorem get_user_info_returns_a_profile_with_an_integer_pk :
  forall (uname : string) (w : World),
    exists r w',
      get_user_info E uname w = (Ok r, w')
      /\ (forall u, r = Some u -> exists n, pk u = JNum n)
      /\ (1 <= length (requests_between w w') <= 3)%nat
      /\ is_authenticated w' = is_authenticated w
      /\ user_id w' = user_id w /\ username w' = username w.
Proof.
  intros uname w.
  assert (wp (get_user_info E uname)
            (fun r w' =>
               exists o evs, r = Ok o
                 /\ (forall u, o = Some u -> exists n, pk u = JNum n)
                 /\ trace w' = trace w ++ evs
                 /\ (1 <= length (requests_of evs) <= 3)%nat
                 /\ is_authenticated w' = is_authenticated w
                 /\ user_id w' = user_id w /\ username w' = username w) w) as H.
  { unfold get_user_info.
    repeat first [wp_api | wp_step].
    all: open_refreshed; open_called.
    all: eexists _, _; (split; [reflexivity|]).
    all: split; [intros u Hu; try discriminate; injection Hu as <-; simpl; eauto|].
    all: split; [trace_eq|].
    all: rewrite ?requests_of_app; simpl; rewrite ?app_nil_r.
    all: split; [lia | repeat split; congruence]. }
  unfold wp in H. destruct (get_user_info E uname w) as [r w']. simpl in H.
  destruct H as (o & evs & -> & Hpk & Htr & Hlen & Ha & Hu & Hn).
  exists o, w'. unfold requests_between.
  rewrite (events_since_app w w' evs Htr). auto 10.
Qed.

(** X8.  [get_account_info] asks for the profile of [self.username] and
    for nothing when there is none: after a [logout] it returns [None]
    without a request and leaves the client as it is.  With a username that
    is a string and not empty it is [get_user_info] of that name. *)
Theorem get_account_info_needs_a_username :
  forall w : World,
    (let w1 := snd (logout E w) in get_account_info E w1 = (Ok None, w1))
    /\ (truthy (username w) = false -> get_account_info E w = (Ok None, w))
    /\ (forall s, username w = JStr s -> s <> ""%string ->
         get_account_info E w = get_user_info E s w).
Proof.
  intros w. split; [|split].
  - unfold logout. unfold_monad.
    destruct (_web_post E _ _ _ _ w) as [[j|e] w1]; reflexivity.
  - intros Hnone. unfold get_account_info. unfold_monad. rewrite Hnone. reflexivity.
  - intros s Hs Hne. unfold get_account_info. unfold_monad. rewrite Hs. simpl.
    destruct (String.eqb s "") eqn:Heq; [apply String.eqb_eq in Heq; contradiction|].
    reflexivity.
Qed.

(** ** Lists that are filled item by item *)

Lemma append_users_spec mk : forall l acc,
  exists done,
    snd (append_users mk l acc) = acc ++ done
    /\ Forall2 (fun x u => mk x = Ok u) (firstn (length done) l) done
    /\ (length done <= length l)%nat
    /\ (fst (append_users mk l acc) = Ok tt -> length done = length l).
Proof.
  induction l as [|x l IH]; intros acc; simpl.
  - exists []. rewrite app_nil_r. repeat split; auto.
  - destruct (mk x) as [u|e] eqn:Hmk.
    + destruct (IH (acc ++ [u])) as (done & Hsnd & Hall & Hlen & Hok).
      exists (u :: done). rewrite Hsnd, <- app_assoc. simpl.
      repeat split; auto; try lia.
    + exists []. simpl. rewrite app_nil_r. repeat split; auto; try lia.
      discriminate.
Qed.

Lemma py_slice_length amount v items :
  0 <= amount -> py_slice amount v = Ok items -> Z.of_nat (length items) <= amount.
Proof.
  intros Hpos. destruct v; simpl; try discriminate; intros [= <-].
  - rewrite length_map. by apply py_take_length.
  - by apply py_take_length.
Qed.

(** What [collected] returns, whatever the fetch does: it never raises,
    the users are made of the first items, in their order, and an error is
    logged exactly when the fetch raised or an item could not be read. *)
Lemma collected_spec msg mk (fetch : M (option (list json))) w :
  exists l,
    fst (collected msg mk fetch w) = Ok l
    /\ match fetch w with
       | (Ok (Some items), w1) =>
           Forall2 (fun x u => mk x = Ok u) (firstn (length l) items) l
           /\ (length l <= length items)%nat
           /\ (snd (collected msg mk fetch w) = w1
               \/ snd (collected msg mk fetch w)
                  = with_trace (trace w1 ++ [EvLog Error msg]) w1)
       | (Ok None, w1) => l = [] /\ snd (collected msg mk fetch w) = w1
       | (Raise _, w1) =>
           l = [] /\ snd (collected msg mk fetch w)
                    = with_trace (trace w1 ++ [EvLog Error msg]) w1
       end.
Proof.
  unfold collected. destruct (fetch w) as [[[items|]|e] w1]; simpl.
  - destruct (append_users_spec mk items []) as (done & Hsnd & Hall & Hlen & _).
    simpl in Hsnd.
    destruct (append_users mk items []) as [[[]|e] acc]; simpl in *; subst acc;
      exists done; auto.
  - exists []. auto.
  - exists []. auto.
Qed.

(** The rule of [collected]: what holds of the list must hold with and
    without the line in the log, since the loop may stop at any item. *)
Lemma wp_collected msg mk (fetch : M (option (list json)))
    (Q : res (list WebUser) -> World -> Prop) w :
  wp fetch
    (fun r w1 =>
       match r with
       | Ok (Some items) =>
           forall l,
             Forall2 (fun x u => mk x = Ok u) (firstn (length l) items) l ->
             (length l <= length items)%nat ->
             Q (Ok l) w1 /\ Q (Ok l) (with_trace (trace w1 ++ [EvLog Error msg]) w1)
       | Ok None => Q (Ok []) w1
       | Raise _ => Q (Ok []) (with_trace (trace w1 ++ [EvLog Error msg]) w1)
       end) w ->
  wp (collected msg mk fetch) Q w.
Proof.
  unfold wp. intros H.
  destruct (collected_spec msg mk fetch w) as (l & Hfst & Hrun).
  destruct (collected msg mk fetch w) as [r w']. simpl in Hfst. subst r.
  destruct (fetch w) as [[[items|]|e] w1]; simpl in *.
  - destruct Hrun as (Hall & Hlen & [-> | ->]); apply H; assumption.
  - destruct Hrun as [-> ->]. exact H.
  - destruct Hrun as [-> ->]. exact H.
Qed.

Lemma Forall2_made (mk : json -> res WebUser) (P : WebUser -> Prop) xs l :
  (forall x u, mk x = Ok u -> P u) ->
  Forall2 (fun x u => mk x = Ok u) xs l -> Forall P l.
Proof. intros HP Hall. induction Hall; constructor; eauto. Qed.

(** ** Likers and searches *)

(** A profile made of an edge of likers has an integer as [pk]. *)
Lemma liker_of_pk edge u : liker_of E edge = Ok u -> exists n, pk u = JNum n.
Proof.
  unfold liker_of. destruct (py_get edge "node" (JObj [])) as [node|]; [|discriminate].
  destruct (py_get node "id" (JNum 0)) as [id|]; [|discriminate].
  destruct (to_int E id) as [n|]; [|discriminate].
  destruct node; try discriminate. intros [= <-]. simpl. eauto.
Qed.

(** X9.  [media_likers] never raises and sends exactly one request, with
    the CSRF header as it stands (there is no refresh and no retry).  With
    [amount >= 0] it returns at most [amount] profiles, each with an integer
    [pk].  An answer whose status is not 200 (a 429 among them) gives the
    empty list and no line in the log: the caller cannot tell it from a
    post without likers. *)
Theorem media_likers_is_one_quiet_request :
  forall (shortcode : string) (amount : Z) (w : World),
    exists l w' rq,
      media_likers E shortcode amount w = (Ok l, w')
      /\ requests_between w w' = [rq]
      /\ rq_method rq = GET /\ carries (headers w) rq
      /\ (0 <= amount -> Z.of_nat (length l) <= amount)
      /\ Forall (fun u => exists n, pk u = JNum n) l
      /\ (forall r, net E (n_calls w) rq = NetResp r -> status_code r <> 200 ->
          l = [] /\ errors_of (events_since w w') = []).
Proof.
  intros shortcode amount w.
  assert (wp (media_likers E shortcode amount)
            (fun r w' =>
               exists l rq evs, r = Ok l
                 /\ trace w' = trace w ++ EvRequest rq :: evs
                 /\ requests_of evs = []
                 /\ rq_method rq = GET /\ carries (headers w) rq
                 /\ (0 <= amount -> Z.of_nat (length l) <= amount)
                 /\ Forall (fun u => exists n, pk u = JNum n) l
                 /\ (forall r, net E (n_calls w) rq = NetResp r ->
                     status_code r <> 200 -> l = [] /\ errors_of evs = [])) w) as H.
  { unfold media_likers. apply wp_collected.
    repeat wp_step.
    all: cbv beta iota; try (intros l Hall Hlen; split).
    all: eexists _, _, _; (split; [reflexivity|]).
    all: split; [trace_eq|].
    all: split; [reflexivity|].
    all: split; [reflexivity|].
    all: split; [reflexivity|].
    all: split;
      [intros Hpos; simpl; try lia;
       match goal with
       | Hs : py_slice _ _ = Ok _ |- _ =>
           pose proof (py_slice_length _ _ _ Hpos Hs); lia
       end|].
    all: split;
      [first [ by constructor
             | eapply Forall2_made; [apply liker_of_pk | eassumption] ]|].
    all: intros r' Hnet' Hne; try (split; reflexivity); exfalso.
    all: match goal with
         | Hn : net E _ _ = _ |- _ =>
             tryif constr_eq Hn Hnet' then fail else rewrite Hn in Hnet'
         end;
         try discriminate; injection Hnet' as <-.
    all: match goal with
         | Hst : (status_code _ =? 200) = true |- _ => apply Z.eqb_eq in Hst
         end; contradiction. }
  unfold wp in H. destruct (media_likers E shortcode amount w) as [r w']. simpl in H.
  destruct H as (l & rq & evs & -> & Htr & Hno & Hget & Hcsrf & Hlen & Hpk & Hnever).
  exists l, w', rq. split; [reflexivity|].
  assert (events_since w w' = EvRequest rq :: evs) as Hev
    by (apply events_since_app; exact Htr).
  unfold requests_between. rewrite Hev. simpl. rewrite Hno. auto 10.
Qed.

(** X10.  [search_users] never raises and sends between one and three
    requests.  With [amount >= 0] it returns at most [amount] profiles. *)
Theorem search_users_is_bounded_and_never_raises :
  forall (query : string) (amount : Z) (w : World),
    exists l w',
      search_users E query amount w = (Ok l, w')
      /\ (1 <= length (requests_between w w') <= 3)%nat
      /\ (0 <= amount -> Z.of_nat (length l) <= amount).
Proof.
  intros query amount w.
  assert (wp (search_users E query amount)
            (fun r w' =>
               exists l evs, r = Ok l
                 /\ trace w' = trace w ++ evs
                 /\ (1 <= length (requests_of evs) <= 3)%nat
                 /\ (0 <= amount -> Z.of_nat (length l) <= amount)) w) as H.
  { unfold search_users. apply wp_collected.
    repeat first [wp_api | wp_step].
    all: cbv beta iota; try (intros l Hall Hlen; split).
    all: open_refreshed; open_called.
    all: eexists _, _; (split; [reflexivity|]).
    all: split; [trace_eq|].
    all: rewrite ?requests_of_app; simpl; rewrite ?app_nil_r.
    all: split; [lia|].
    all: intros Hpos; simpl; try lia.
    all: match goal with
         | Hs : py_slice _ _ = Ok _ |- _ =>
             pose proof (py_slice_length _ _ _ Hpos Hs); lia
         end. }
  unfold wp in H. destruct (search_users E query amount w) as [r w']. simpl in H.
  destruct H as (l & evs & -> & Htr & Hlen & Hle).
  exists l, w'. unfold requests_between.
  rewrite (events_since_app w w' evs Htr). auto.
Qed.

(** ** Stories *)

(** The loop of a versioned-API call, exactly: it sends the request it
    was given [k + 1] times under the header of the start, and its outcome
    is what the answer to the last of them gives. *)
Lemma api_attempts_exact n : forall attempt retries rq w,
  retries - attempt + 1 = Z.of_nat n -> (0 < n)%nat ->
  exists k evs,
    (k < n)%nat
    /\ trace (snd (api_attempts E n attempt retries rq w)) = trace w ++ evs
    /\ requests_of evs = repeat (stamped (headers w) rq) (S k)
    /\ fst (api_attempts E n attempt retries rq w)
       = web_result (net E (n_calls w + k) (stamped (headers w) rq)).
Proof.
  induction n as [|n IH]; intros attempt retries rq w Hn Hpos; [lia|].
  simpl. unfold_monad. unfold send, raise_for_status, resp_json. simpl.
  destruct (net E (n_calls w) (stamped (headers w) rq)) as [|a] eqn:Hnet; simpl.
  { exists 0%nat. eexists. split; [lia|]. simpl.
    split; [rewrite <- !app_assoc; reflexivity|]. split; [reflexivity|].
    by rewrite Nat.add_0_r, Hnet. }
  destruct ((400 <=? status_code a) && (status_code a <? 600)) eqn:Herr; simpl.
  - destruct ((status_code a =? 429) && (attempt <? retries)) eqn:Hagain; simpl.
    + apply andb_true_iff in Hagain as [_ Hlt]. apply Z.ltb_lt in Hlt.
      match goal with
      | |- context [api_attempts E n ?a' retries rq ?w1] =>
          destruct (IH a' retries rq w1) as (k & evs & Hk & Htr & Hrq & Hres); [lia | lia |]
      end.
      simpl in Htr, Hrq, Hres.
      exists (S k). eexists. split; [lia|]. rewrite Htr.
      split; [rewrite <- !app_assoc; reflexivity|].
      rewrite !requests_of_app. simpl. rewrite Hrq.
      split; [reflexivity|].
      rewrite Hres. by rewrite Nat.add_succ_r.
    + exists 0%nat. eexists. split; [lia|]. simpl.
      split; [rewrite <- !app_assoc; reflexivity|]. split; [reflexivity|].
      by rewrite Nat.add_0_r, Hnet; simpl; rewrite Herr.
  - destruct (body a) eqn:Hbody; simpl; exists 0%nat; eexists; (split; [lia|]); simpl;
      (split; [rewrite <- !app_assoc; reflexivity|]); (split; [reflexivity|]);
      by rewrite Nat.add_0_r, Hnet; simpl; rewrite Herr, Hbody.
Qed.

(** The rule of a versioned-API call that names the request and says
    which answer the outcome comes from. *)
Lemma wp_api_run_exact rq (Q : res json -> World -> Prop) w :
  (forall w' k evs,
      let wr := snd (_refresh_csrf w) in
      refreshed w wr -> called wr w' -> (k <= 2)%nat ->
      trace w' = trace w ++ evs ->
      requests_of evs = repeat (stamped (headers wr) rq) (S k) ->
      Q (web_result (net E (n_calls w + k) (stamped (headers wr) rq))) w') ->
  wp (bind _refresh_csrf (fun _ => api_attempts E (Z.to_nat (2 + 1)) 0 2 rq)) Q w.
Proof.
  intros HQ.
  destruct (refresh_csrf_spec w) as (wr & Hrun & Href).
  unfold wp, bind. rewrite Hrun.
  destruct (api_attempts_exact (Z.to_nat (2 + 1)) 0 2 rq wr)
    as (k & evs & Hk & Hevs & Hrq & Hres); [lia | lia |].
  destruct (api_attempts_called (Z.to_nat (2 + 1)) 0 2 rq wr) as [Hc _].
  rewrite Hrun in HQ. simpl in HQ.
  rewrite Hres.
  replace (n_calls wr) with (n_calls w) by (destruct Href as (_ & _ & -> & _); reflexivity).
  apply (HQ _ k evs); auto.
  - change (Z.to_nat (2 + 1)) with 3%nat in Hk. lia.
  - rewrite Hevs. destruct Href as (_ & -> & _). reflexivity.
Qed.

(** X11.  [user_stories] never raises.  It sends its one request, a GET
    of the story feed of the user, between one and three times, and what
    it returns is read off the answer to the last of them: the [items] of
    the [reel] of the decoded body when the answer is not an HTTP error
    and the reel is not empty, and the empty list in every other case.
    The call changes nothing of the session: the flag, the user id and the
    username are as before. *)
Theorem user_stories_never_raises :
  forall (uid : json) (w : World),
    let rq := stories_request (headers (snd (_refresh_csrf w))) uid in
    exists items w' k,
      user_stories E uid w = (Ok items, w')
      /\ (k <= 2)%nat
      /\ requests_between w w' = repeat rq (S k)
      /\ items = stories_of (web_result (net E (n_calls w + k) rq))
      /\ is_authenticated w' = is_authenticated w
      /\ user_id w' = user_id w /\ username w' = username w.
Proof.
  intros uid w rq.
  assert (wp (user_stories E uid)
            (fun r w' =>
               exists items k evs, r = Ok items
                 /\ (k <= 2)%nat
                 /\ trace w' = trace w ++ evs
                 /\ requests_of evs = repeat rq (S k)
                 /\ items = stories_of (web_result (net E (n_calls w + k) rq))
                 /\ is_authenticated w' = is_authenticated w
                 /\ user_id w' = user_id w /\ username w' = username w) w) as H.
  { unfold user_stories. apply wp_try. apply wp_bind.
    apply wp_api_run_exact. intros w' k evs wr Href Hc Hk Htr Hreq.
    subst wr.
    match goal with
    | |- match ?reply with _ => _ end => destruct reply as [data|e] eqn:Hreply
    end.
    all: repeat wp_step.
    all: open_refreshed; open_called.
    all: eexists _, k, _; (split; [reflexivity|]).
    all: split; [exact Hk|].
    all: split; [trace_eq|].
    all: rewrite ?requests_of_app; simpl; rewrite ?app_nil_r.
    all: split; [exact Hreq|].
    all: split; [|repeat split; congruence].
    all: unfold rq, stories_request; rewrite Hreply; simpl;
      repeat match goal with
             | Heq : py_get _ _ _ = _ |- _ => rewrite Heq
             | Heq : truthy _ = _ |- _ => rewrite Heq
             end; reflexivity. }
  unfold wp in H. destruct (user_stories E uid w) as [r w']. simpl in H.
  destruct H as (items & k & evs & -> & Hk & Htr & Hreq & Hitems & Ha & Hu & Hn).
  exists items, w', k. unfold requests_between.
  rewrite (events_since_app w w' evs Htr). auto 10.
Qed.

(** Every request of the loop of a versioned-API call is the request it
    was given, under the header of the start. *)
Lemma api_attempts_sent n : forall attempt retries rq w,
  exists evs,
    trace (snd (api_attempts E n attempt retries rq w)) = trace w ++ evs
    /\ Forall (eq (stamped (headers w) rq)) (requests_of evs).
Proof.
  induction n as [|n IH]; intros attempt retries rq w.
  { exists []. simpl. split; [by rewrite app_nil_r | constructor]. }
  simpl. unfold_monad. unfold send, raise_for_status, resp_json. simpl.
  destruct (net E (n_calls w) (stamped (headers w) rq)) as [|a]; simpl.
  { eexists. split; [rewrite <- !app_assoc; reflexivity|]. repeat constructor. }
  destruct ((400 <=? status_code a) && (status_code a <? 600)); simpl.
  - destruct ((status_code a =? 429) && (attempt <? retries)); simpl.
    + match goal with
      | |- context [api_attempts E n ?a' retries rq ?w1] =>
          destruct (IH a' retries rq w1) as (evs & Htr & Hall)
      end.
      simpl in Htr, Hall. eexists. rewrite Htr.
      split; [rewrite <- !app_assoc; reflexivity|].
      rewrite !requests_of_app. simpl. constructor; [reflexivity | exact Hall].
    + eexists. split; [rewrite <- !app_assoc; reflexivity|]. repeat constructor.
  - destruct (body a); simpl; eexists;
      (split; [rewrite <- !app_assoc; reflexivity|]); repeat constructor.
Qed.

(** The rule of a versioned-API call that also says what was sent. *)
Lemma wp_api_run_sent rq (Q : res json -> World -> Prop) w :
  (forall r wr w' k evs,
      refreshed w wr -> called wr w' -> (k <= 2)%nat ->
      trace w' = trace w ++ evs -> length (requests_of evs) = S k ->
      Forall (eq (stamped (headers wr) rq)) (requests_of evs) ->
      Q r w') ->
  wp (bind _refresh_csrf (fun _ => api_attempts E (Z.to_nat (2 + 1)) 0 2 rq)) Q w.
Proof.
  intros HQ. apply wp_bind. apply wp_refresh_csrf. intros wr Href.
  destruct (api_attempts_budget (Z.to_nat (2 + 1)) 0 2 rq wr)
    as (k & evs & Hk & Hevs & _ & Hrq); [lia | lia |].
  destruct (api_attempts_called (Z.to_nat (2 + 1)) 0 2 rq wr) as [Hc _].
  destruct (api_attempts_sent (Z.to_nat (2 + 1)) 0 2 rq wr) as (evs' & Hevs' & Hall).
  assert (evs' = evs) as ->.
  { rewrite Hevs in Hevs'. symmetry. exact (app_inv_head _ _ _ Hevs'). }
  unfold wp. apply (HQ _ wr _ k evs); auto.
  - change (Z.to_nat (2 + 1)) with 3%nat in Hk. lia.
  - rewrite Hevs. destruct Href as (_ & -> & _). reflexivity.
Qed.

(** X12.  [story_seen] names one story to the platform, the first of the
    list: the dict it fills from all the stories and reels is not sent, so
    the call for a list is the call for its first story alone.  It never
    raises and sends between one and three requests, each a POST whose
    [reelMediaId] is that first story. *)
Theorem story_seen_names_the_first_story_only :
  forall (sid : string) (others : list string) (reel_ids : option (list string))
         (w : World),
    story_seen E (sid :: others) reel_ids w = story_seen E [sid] None w
    /\ exists b w',
         story_seen E (sid :: others) reel_ids w = (Ok b, w')
         /\ (1 <= length (requests_between w w') <= 3)%nat
         /\ Forall (fun rq => rq_method rq = POST
                              /\ dict_get (rq_params rq) "reelMediaId" = Some (JStr sid))
              (requests_between w w').
Proof.
  intros sid others reel_ids w. split; [reflexivity|].
  assert (wp (story_seen E (sid :: others) reel_ids)
            (fun r w' =>
               exists b evs, r = Ok b
                 /\ trace w' = trace w ++ evs
                 /\ (1 <= length (requests_of evs) <= 3)%nat
                 /\ Forall (fun rq => rq_method rq = POST
                              /\ dict_get (rq_params rq) "reelMediaId" = Some (JStr sid))
                      (requests_of evs)) w) as H.
  { unfold story_seen.
    repeat first
      [ cbv beta iota zeta;
        lazymatch goal with
        | |- wp (_api_post _ _ _ _ _ 2) _ _ =>
            apply wp_api_run_sent; intros [?|?] ? ? ? ? ? ? ? ? ? Hsent
        end
      | wp_step ].
    all: open_refreshed; open_called.
    all: eexists _, _; (split; [reflexivity|]).
    all: split; [trace_eq|].
    all: rewrite ?requests_of_app; simpl; rewrite ?app_nil_r.
    all: split; [lia|].
    all: eapply Forall_impl; [exact Hsent | intros ? <-; split; reflexivity]. }
  unfold wp in H. destruct (story_seen E (sid :: others) reel_ids w) as [r w'].
  simpl in H. destruct H as (b & evs & -> & Htr & Hlen & Hall).
  exists b, w'. unfold requests_between.
  rewrite (events_since_app w w' evs Htr). auto.
Qed.

(** ** Login *)

Section Login.

Context (C : Console).

Lemma authenticated_as_spec uname data w :
  wp (authenticated_as C uname data)
    (fun r w' =>
       match r with
       | Ok _ => is_authenticated w' = true /\ username w' = JStr uname
       | Raise _ => is_authenticated w' = is_authenticated w /\ username w' = username w
       end) w.
Proof. unfold authenticated_as. wp_steps; flag_kept. Qed.

Lemma handle_checkpoint_spec cp w :
  wp (_handle_checkpoint E C cp)
    (fun r w' =>
       username w' = username w
       /\ match r with
          | Ok b => is_authenticated w' = is_authenticated w || b
          | Raise _ => is_authenticated w' = is_authenticated w
          end) w.
Proof. unfold _handle_checkpoint, checkpoint_unresolved. wp_steps; flag_kept. Qed.

Lemma handle_2fa_spec uname password data w :
  wp (_handle_2fa E C uname password data)
    (fun r w' =>
       match r with
       | Ok b => is_authenticated w' = is_authenticated w || b
       | Raise _ => is_authenticated w' = is_authenticated w
       end) w.
Proof.
  unfold _handle_2fa.
  repeat first
    [ eapply wp_mono; [apply authenticated_as_spec | intros [?|?] ? [? ?]]
    | wp_step ];
    flag_kept.
Qed.

(** X4.  [login] never raises.  It returns a boolean, and the flag
    [is_authenticated] is on after it exactly when it was on before or the
    login returned [True]: a login that succeeds turns the flag on, a
    login that fails leaves the flag as it was (it does not turn it off). *)
Theorem login_returns_and_turns_the_flag_on_with_true :
  forall (uname password : string) (w : World),
    exists b w',
      login E C uname password w = (Ok b, w')
      /\ is_authenticated w' = is_authenticated w || b.
Proof.
  intros uname password w.
  assert (wp (login E C uname password)
            (fun r w' => exists b, r = Ok b
                         /\ is_authenticated w' = is_authenticated w || b) w) as H.
  { unfold login, _set_ajax_headers.
    repeat first
      [ eapply wp_mono; [apply authenticated_as_spec | intros [?|?] ? [? ?]]
      | eapply wp_mono; [apply handle_checkpoint_spec | intros [?|?] ? [? ?]]
      | eapply wp_mono; [apply handle_2fa_spec | intros [?|?] ? ?]
      | wp_step ];
      try (eexists; split; [reflexivity|]); flag_kept. }
  unfold wp in H. destruct (login E C uname password w) as [r w']. simpl in H.
  destruct H as (b & -> & Hflag). exists b, w'. auto.
Qed.

(** X6.  The checkpoint branch of a login, entered with the address the
    platform gave: it never raises and sends at most three requests, all
    to that address (a path is taken on the platform, any other address as
    it is).  When it returns [True] the client is marked authenticated,
    but the branch never sets the username: it is left as it was, also
    after a login that succeeded. *)
Theorem checkpoint_branch_leaves_the_username :
  forall (url : string) (w : World),
    exists b w',
      _handle_checkpoint E C (JStr url) w = (Ok b, w')
      /\ username w' = username w
      /\ is_authenticated w' = is_authenticated w || b
      /\ (length (requests_between w w') <= 3)%nat
      /\ Forall (fun rq => rq_url rq = checkpoint_target url) (requests_between w w').
Proof.
  intros url w.
  assert (wp (_handle_checkpoint E C (JStr url))
            (fun r w' =>
               exists b evs, r = Ok b
                 /\ username w' = username w
                 /\ is_authenticated w' = is_authenticated w || b
                 /\ trace w' = trace w ++ evs
                 /\ (length (requests_of evs) <= 3)%nat
                 /\ Forall (fun rq => rq_url rq = checkpoint_target url)
                      (requests_of evs)) w) as H.
  { unfold _handle_checkpoint, checkpoint_unresolved, checkpoint_target, starts_with.
    wp_steps; open_refreshed.
    all: eexists _, _; (split; [reflexivity|]).
    all: split; [congruence|].
    all: split; [rewrite ?orb_false_r, ?orb_true_r; congruence|].
    all: split; [trace_eq|].
    all: simpl; split; [lia | repeat constructor]. }
  unfold wp in H. destruct (_handle_checkpoint E C (JStr url) w) as [r w']. simpl in H.
  destruct H as (b & evs & -> & Hu & Ha & Htr & Hlen & Hall).
  exists b, w'. unfold requests_between.
  rewrite (events_since_app w w' evs Htr). auto.
Qed.




End Login.

End MoreClientFacts.

(** ** Runs on sample environments *)


(** A login on a client that starts empty: the visit, then the password
    under the token of the cookie; the client ends authenticated as the
    user the platform named. *)
Example login_on_a_fresh_client :
  let run := login env_login console_silent "alice" "secret" fresh in
  fst run = Ok true
  /\ map rq_csrf (requests_between fresh (snd run)) = [None; Some (JStr "tok")]
  /\ map carries_password (requests_between fresh (snd run)) = [false; true]
  /\ user_id (snd run) = JStr "42" /\ username (snd run) = JStr "alice"
  /\ is_authenticated (snd run) = true.
Proof. vm_compute. repeat split; reflexivity. Qed.
